(** * rekon-deposito: the reconciliation engine, embedded and verified

    A shallow embedding of [models/bank_base.py], of the expected-yield and
    row-parsing code of the bank adapters ([models/bank_btpn.py],
    [models/bank_bps.py], [models/bank_bni.py], [models/bank_mandiri.py]) and
    of the orchestration in [services/rekon_service.py].

    Conventions of the embedding.
    - Python [float] amounts are embedded as the rationals [Q] they denote;
      infinities and NaN are outside the model.  The amounts a result or a
      summary stores are kept exact; where the code decides a
      classification by comparing a computed [float], the comparison is
      made on the binary64 value, through [round64].  The [int] literals
      the code stores in float-typed fields ([0], [100], [-100]) are the
      rationals of the same value.
    - A Python [dict] whose iteration order is observable is an insertion
      ordered association list ([PyDict]); registries that are only looked
      up by key are [gmap]s.
    - [Optional[T]] is [option T]; a raised exception is the [Raise] case of
      [pyresult]. *)

From Stdlib Require Import Ascii String ZArith QArith Qabs Qround Qpower Lia Lqa.
From stdpp Require Import base option list gmap strings.

Open Scope string_scope.
Open Scope Z_scope.
Open Scope list_scope.

(** ** Python dictionaries with their insertion order *)

Module PyDict.
Section PyDict.
Context {K V : Type} `{EqDecision K}.

(** [d[k] = v]: an existing key keeps its position, a new one goes last. *)
Fixpoint set (k : K) (v : V) (d : list (K * V)) : list (K * V) :=
  match d with
  | [] => [(k, v)]
  | (k', v') :: d' =>
      if decide (k = k') then (k', v) :: d' else (k', v') :: set k v d'
  end.

(** [d.get(k)]; [k in d] is [is_Some (get k d)]. *)
Fixpoint get (k : K) (d : list (K * V)) : option V :=
  match d with
  | [] => None
  | (k', v') :: d' => if decide (k = k') then Some v' else get k d'
  end.

(** [del d[k]] for a key that is present. *)
Fixpoint del (k : K) (d : list (K * V)) : list (K * V) :=
  match d with
  | [] => []
  | (k', v') :: d' => if decide (k = k') then d' else (k', v') :: del k d'
  end.

Definition keys (d : list (K * V)) : list K := d.*1.
Definition values (d : list (K * V)) : list V := d.*2.

(** [{f(x): g(x) for x in xs}] *)
Definition comprehension {A} (f : A → K) (g : A → V) (xs : list A)
  : list (K * V) :=
  fold_left (λ d x, set (f x) (g x) d) xs [].
End PyDict.
End PyDict.

(** ** Data model ([models/bank_base.py]) *)

Inductive DepositoType :=
  SETORAN_AWAL | SETORAN_LUNAS | NILAI_MANFAAT | LPS | DAU.

Inductive RekonStatus :=
  MATCHED | DIFFERENCE | NOT_FOUND_BANK | NOT_FOUND_BPKH | PENDING.

#[global] Instance DepositoType_eq_dec : EqDecision DepositoType.
Proof. solve_decision. Defined.
#[global] Instance RekonStatus_eq_dec : EqDecision RekonStatus.
Proof. solve_decision. Defined.

(** The [.value] of the enumeration members. *)
Definition DepositoType_value (t : DepositoType) : string :=
  match t with
  | SETORAN_AWAL => "SA"
  | SETORAN_LUNAS => "SL"
  | NILAI_MANFAAT => "NM"
  | LPS => "LPS"
  | DAU => "DAU"
  end.

Definition RekonStatus_value (s : RekonStatus) : string :=
  match s with
  | MATCHED => "Matched"
  | DIFFERENCE => "Difference"
  | NOT_FOUND_BANK => "Not Found in Bank"
  | NOT_FOUND_BPKH => "Not Found in BPKH"
  | PENDING => "Pending"
  end.

(** *** Naive [datetime] values

    The standard library's proleptic Gregorian calendar, as far as the
    repository uses it: subtraction (its [.days]) and [strftime('%b-%y')]. *)

Record datetime := mk_datetime {
  year : Z; month : Z; day : Z;
  hour : Z; minute : Z; second : Z; microsecond : Z
}.

Definition is_leap (y : Z) : bool :=
  (y mod 4 =? 0) && (negb (y mod 100 =? 0) || (y mod 400 =? 0)).

Definition days_before_year (y : Z) : Z :=
  let y := y - 1 in y * 365 + y / 4 - y / 100 + y / 400.

Definition days_before_month (y m : Z) : Z :=
  nth (Z.to_nat m) [0; 0; 31; 59; 90; 120; 151; 181; 212; 243; 273; 304; 334] 0
  + (if (2 <? m) && is_leap y then 1 else 0).

Definition toordinal (d : datetime) : Z :=
  days_before_year (year d) + days_before_month (year d) (month d) + day d.

Definition seconds_of_day (d : datetime) : Z :=
  second d + minute d * 60 + hour d * 3600.

(** [(a - b).days]: a [timedelta] is normalised so that its seconds and
    microseconds are non-negative, hence the floor. *)
Definition timedelta_days (a b : datetime) : Z :=
  ((toordinal a - toordinal b) * 86400000000
   + (seconds_of_day a - seconds_of_day b) * 1000000
   + (microsecond a - microsecond b)) / 86400000000.

Definition digit (n : Z) : string :=
  nth (Z.to_nat n) ["0"; "1"; "2"; "3"; "4"; "5"; "6"; "7"; "8"; "9"] "0".

Definition month_abbr (m : Z) : string :=
  nth (Z.to_nat m)
    [""; "Jan"; "Feb"; "Mar"; "Apr"; "May"; "Jun";
     "Jul"; "Aug"; "Sep"; "Oct"; "Nov"; "Dec"] "".

(** [d.strftime('%b-%y')] *)
Definition strftime_b_y (d : datetime) : string :=
  month_abbr (month d) +:+ "-"
  +:+ digit (year d mod 100 / 10) +:+ digit (year d mod 10).

Module DepositoRecord.
Record t := mk {
  bank_code : string;
  nomor_bilyet : string;
  nomor_rekening : string;
  nominal_deposito : Q;
  nominal_imbal_hasil : Q;
  jenis_deposito : DepositoType;
  tanggal_penempatan : option datetime;
  tanggal_jatuh_tempo : option datetime;
  tanggal_realisasi : option datetime;
  nisbah_rate : option Q;
  periode_hari : option Z;
  source : string
}.
End DepositoRecord.

Module RekonResult.
Record t := mk {
  bank_code : string;
  nomor_bilyet : string;
  nomor_rekening : string;
  nominal_deposito : Q;
  imbal_hasil_bank : Q;
  imbal_hasil_bpkh : Q;
  selisih : Q;
  persentase_selisih : Q;
  status : RekonStatus;
  jenis_deposito : DepositoType;
  periode : string;
  notes : option string
}.

(** [is_material] *)
Definition is_material (self : t) (threshold : Q) : bool :=
  if Qlt_le_dec threshold (Qabs (persentase_selisih self)) then true else false.

(** [get_priority] *)
Definition get_priority (self : t) : string :=
  let abs_pct := Qabs (persentase_selisih self) in
  if Qlt_le_dec abs_pct (1 # 10) then "Low"
  else if Qlt_le_dec abs_pct (5 # 10) then "Medium"
  else if Qlt_le_dec abs_pct 1 then "High"
  else "Critical".
End RekonResult.

(** *** Binary64 arithmetic

    A finite [float] is the rational it denotes, and an arithmetic
    operation of the code returns the binary64 number nearest to the exact
    result, ties going to the even significand: [a - b] in Python is
    [round64 (a - b)] here.  Overflow to infinity is outside the model. *)

(** [2^q] as a rational, for an integer [q] of either sign. *)
Definition pow2 (q : Z) : Q :=
  match q with
  | Z0 => 1
  | Zpos p => inject_Z (Z.pos (2 ^ p))
  | Zneg p => 1 # (2 ^ p)
  end.

(** The binary exponent of a positive rational: [2^e <= a < 2^(e+1)]. *)
Definition Qlog2 (a : Q) : Z :=
  let k := Z.log2 (Qnum a) - Z.log2 (Z.pos (Qden a)) in
  if Qle_bool (pow2 k) a then k else k - 1.

(** Round half to even, the rule of binary64 arithmetic and of Python's
    [round]. *)
Definition round_half_even (x : Q) : Z :=
  let f := Qfloor x in
  match ((x - inject_Z f)%Q ?= 1 # 2)%Q with
  | Lt => f
  | Gt => f + 1
  | Eq => if Z.even f then f else f + 1
  end.

(** The nearest binary64 number: 53 significant bits, the unit in the last
    place not below [2^-1074] (subnormal numbers). *)
Definition round64 (x : Q) : Q :=
  if Qeq_bool x 0 then 0%Q
  else
    let a := Qabs x in
    let q := Z.max (Qlog2 a - 52) (-1074) in
    let r := (inject_Z (round_half_even (a / pow2 q)) * pow2 q)%Q in
    if Qlt_le_dec x 0 then (- r)%Q else r.

(** The reconciliation key of a record and of a result. *)
Abbreviation key := (string * string)%type.

Definition record_key (rec : DepositoRecord.t) : key :=
  (DepositoRecord.nomor_bilyet rec, DepositoRecord.nomor_rekening rec).

Definition result_key (r : RekonResult.t) : key :=
  (RekonResult.nomor_bilyet r, RekonResult.nomor_rekening r).

(** ** [BankBase.reconcile] *)

Section Reconcile.
(** [self.bank_code] *)
Variable bank_code : string.

Definition periode_of (rec : DepositoRecord.t) : string :=
  match DepositoRecord.tanggal_penempatan rec with
  | Some d => strftime_b_y d
  | None => "N/A"
  end.

(** The [RekonResult] built when the key is in the lookup.  The test
    [abs(selisih) < 1] is made on the [float] the subtraction returns. *)
Definition matched_result (bank_rec bpkh_rec : DepositoRecord.t) : RekonResult.t :=
  let selisih :=
    (DepositoRecord.nominal_imbal_hasil bank_rec
     - DepositoRecord.nominal_imbal_hasil bpkh_rec)%Q in
  let pct_selisih :=
    if negb (Qeq_bool (DepositoRecord.nominal_imbal_hasil bank_rec) 0)
    then (selisih / DepositoRecord.nominal_imbal_hasil bank_rec * 100)%Q
    else 0%Q in
  let status :=
    if Qlt_le_dec (Qabs (round64 selisih)) 1 then MATCHED else DIFFERENCE in
  {| RekonResult.bank_code := bank_code;
     RekonResult.nomor_bilyet := DepositoRecord.nomor_bilyet bank_rec;
     RekonResult.nomor_rekening := DepositoRecord.nomor_rekening bank_rec;
     RekonResult.nominal_deposito := DepositoRecord.nominal_deposito bank_rec;
     RekonResult.imbal_hasil_bank := DepositoRecord.nominal_imbal_hasil bank_rec;
     RekonResult.imbal_hasil_bpkh := DepositoRecord.nominal_imbal_hasil bpkh_rec;
     RekonResult.selisih := selisih;
     RekonResult.persentase_selisih := pct_selisih;
     RekonResult.status := status;
     RekonResult.jenis_deposito := DepositoRecord.jenis_deposito bank_rec;
     RekonResult.periode := periode_of bank_rec;
     RekonResult.notes := None |}.

(** The [else] branch: bank record not found in BPKH. *)
Definition not_found_bpkh_result (bank_rec : DepositoRecord.t) : RekonResult.t :=
  {| RekonResult.bank_code := bank_code;
     RekonResult.nomor_bilyet := DepositoRecord.nomor_bilyet bank_rec;
     RekonResult.nomor_rekening := DepositoRecord.nomor_rekening bank_rec;
     RekonResult.nominal_deposito := DepositoRecord.nominal_deposito bank_rec;
     RekonResult.imbal_hasil_bank := DepositoRecord.nominal_imbal_hasil bank_rec;
     RekonResult.imbal_hasil_bpkh := 0%Q;
     RekonResult.selisih := DepositoRecord.nominal_imbal_hasil bank_rec;
     RekonResult.persentase_selisih := 100%Q;
     RekonResult.status := NOT_FOUND_BPKH;
     RekonResult.jenis_deposito := DepositoRecord.jenis_deposito bank_rec;
     RekonResult.periode := periode_of bank_rec;
     RekonResult.notes := Some "Record not found in BPKH data" |}.

(** The second loop: a BPKH record that stayed in the lookup. *)
Definition not_found_bank_result (bpkh_rec : DepositoRecord.t) : RekonResult.t :=
  {| RekonResult.bank_code := bank_code;
     RekonResult.nomor_bilyet := DepositoRecord.nomor_bilyet bpkh_rec;
     RekonResult.nomor_rekening := DepositoRecord.nomor_rekening bpkh_rec;
     RekonResult.nominal_deposito := DepositoRecord.nominal_deposito bpkh_rec;
     RekonResult.imbal_hasil_bank := 0%Q;
     RekonResult.imbal_hasil_bpkh := DepositoRecord.nominal_imbal_hasil bpkh_rec;
     RekonResult.selisih := (- DepositoRecord.nominal_imbal_hasil bpkh_rec)%Q;
     RekonResult.persentase_selisih := (-100)%Q;
     RekonResult.status := NOT_FOUND_BANK;
     RekonResult.jenis_deposito := DepositoRecord.jenis_deposito bpkh_rec;
     RekonResult.periode := periode_of bpkh_rec;
     RekonResult.notes := Some "Record not found in Bank data" |}.

(** [bpkh_lookup = {(rec.nomor_bilyet, rec.nomor_rekening): rec for rec in bpkh_records}] *)
Definition bpkh_lookup_of (bpkh_records : list DepositoRecord.t)
  : list (key * DepositoRecord.t) :=
  PyDict.comprehension record_key id bpkh_records.

(** One iteration of [for bank_rec in bank_records], on the pair of the
    two objects the loop mutates: [results] and [bpkh_lookup]. *)
Definition match_step
    (st : list RekonResult.t * list (key * DepositoRecord.t))
    (bank_rec : DepositoRecord.t)
  : list RekonResult.t * list (key * DepositoRecord.t) :=
  let '(results, bpkh_lookup) := st in
  let key := record_key bank_rec in
  match PyDict.get key bpkh_lookup with
  | Some bpkh_rec =>
      (results ++ [matched_result bank_rec bpkh_rec], PyDict.del key bpkh_lookup)
  | None =>
      (results ++ [not_found_bpkh_result bank_rec], bpkh_lookup)
  end.

(** The state after the first loop. *)
Definition bank_pass (bank_records bpkh_records : list DepositoRecord.t)
  : list RekonResult.t * list (key * DepositoRecord.t) :=
  fold_left match_step bank_records ([], bpkh_lookup_of bpkh_records).

Definition reconcile (bank_records bpkh_records : list DepositoRecord.t)
  : list RekonResult.t :=
  let '(results, bpkh_lookup) := bank_pass bank_records bpkh_records in
  results ++ (not_found_bank_result <$> PyDict.values bpkh_lookup).

(** [bpkh_lookup.values()] when the second loop starts: the BPKH records
    the first loop did not consume. *)
Definition unconsumed (bank_records bpkh_records : list DepositoRecord.t)
  : list DepositoRecord.t :=
  PyDict.values (bank_pass bank_records bpkh_records).2.

(** The first loop as a recursive function of the records still to visit
    and of the lookup, returning the results it appends and the lookup
    it leaves; [match_step_pass] relates it to [match_step]. *)
Fixpoint pass (bank_records : list DepositoRecord.t)
    (bpkh_lookup : list (key * DepositoRecord.t))
  : list RekonResult.t * list (key * DepositoRecord.t) :=
  match bank_records with
  | [] => ([], bpkh_lookup)
  | bank_rec :: rest =>
      match PyDict.get (record_key bank_rec) bpkh_lookup with
      | Some bpkh_rec =>
          let '(results, d) := pass rest (PyDict.del (record_key bank_rec) bpkh_lookup) in
          (matched_result bank_rec bpkh_rec :: results, d)
      | None =>
          let '(results, d) := pass rest bpkh_lookup in
          (not_found_bpkh_result bank_rec :: results, d)
      end
  end.

(** The result appended for [bank_rec], given what the lookup holds for
    its key at that moment. *)
Definition result_for (bank_rec : DepositoRecord.t) (entry : option DepositoRecord.t)
  : RekonResult.t :=
  match entry with
  | Some bpkh_rec => matched_result bank_rec bpkh_rec
  | None => not_found_bpkh_result bank_rec
  end.
End Reconcile.

(** ** [BankBase.generate_summary] and [BankBase.results_to_dataframe] *)

(** [sum(r.f for r in results)], as the exact sum of the amounts: the
    [float] the code returns is this sum up to the rounding of each
    addition, and depends on the order of the results. *)
Definition Qsum {A} (f : A → Q) (l : list A) : Q :=
  fold_left (λ acc x, (acc + f x)%Q) l 0%Q.

Module TypeSummary.
Record t := mk {
  count : nat;
  total_deposito : Q;
  total_bank : Q;
  total_bpkh : Q;
  selisih : Q
}.
End TypeSummary.

Module Summary.
Record t := mk {
  bank_code : string;
  bank_name : string;
  total_records : nat;
  matched_records : nat;
  difference_records : nat;
  match_rate : Q;
  total_deposito : Q;
  total_imbal_hasil_bank : Q;
  total_imbal_hasil_bpkh : Q;
  total_selisih : Q;
  pct_selisih : Q;
  by_type : list (string * TypeSummary.t);
  timestamp : string
}.
End Summary.

Module DfRow.
Record t := mk {
  Bank : string;
  Nomor_Bilyet : string;
  Nomor_Rekening : string;
  Jenis_Deposito : string;
  Nominal_Deposito : Q;
  Imbal_Hasil_Bank : Q;
  Imbal_Hasil_BPKH : Q;
  Selisih : Q;
  Selisih_pct : Q;
  Status : string;
  Priority : string;
  Periode : string;
  Notes : string
}.
End DfRow.

Definition Q_of_nat (n : nat) : Q := inject_Z (Z.of_nat n).

Section Reporting.
Variables (bank_code bank_name : string).
(** The reading of [datetime.now().isoformat()]: wall-clock time is an
    input of the model. *)
Variable now : string.

Definition type_summary (rekon_results : list RekonResult.t) (dep_type : DepositoType)
  : option (string * TypeSummary.t) :=
  let type_results :=
    filter (λ r, RekonResult.jenis_deposito r = dep_type) rekon_results in
  match type_results with
  | [] => None
  | _ =>
      Some (DepositoType_value dep_type,
            {| TypeSummary.count := length type_results;
               TypeSummary.total_deposito := Qsum RekonResult.nominal_deposito type_results;
               TypeSummary.total_bank := Qsum RekonResult.imbal_hasil_bank type_results;
               TypeSummary.total_bpkh := Qsum RekonResult.imbal_hasil_bpkh type_results;
               TypeSummary.selisih := Qsum RekonResult.selisih type_results |})
  end.

Definition generate_summary (rekon_results : list RekonResult.t) : Summary.t :=
  let total_records := length rekon_results in
  let matched_records :=
    length (filter (λ r, RekonResult.status r = MATCHED) rekon_results) in
  let diff_records :=
    length (filter (λ r, RekonResult.status r = DIFFERENCE) rekon_results) in
  let total_deposito := Qsum RekonResult.nominal_deposito rekon_results in
  let total_bank := Qsum RekonResult.imbal_hasil_bank rekon_results in
  let total_bpkh := Qsum RekonResult.imbal_hasil_bpkh rekon_results in
  let total_selisih := Qsum RekonResult.selisih rekon_results in
  let by_type :=
    omap (type_summary rekon_results)
      [SETORAN_AWAL; SETORAN_LUNAS; NILAI_MANFAAT; LPS; DAU] in
  {| Summary.bank_code := bank_code;
     Summary.bank_name := bank_name;
     Summary.total_records := total_records;
     Summary.matched_records := matched_records;
     Summary.difference_records := diff_records;
     Summary.match_rate :=
       if (0 <? total_records)%nat
       then (Q_of_nat matched_records / Q_of_nat total_records * 100)%Q
       else 0%Q;
     Summary.total_deposito := total_deposito;
     Summary.total_imbal_hasil_bank := total_bank;
     Summary.total_imbal_hasil_bpkh := total_bpkh;
     Summary.total_selisih := total_selisih;
     Summary.pct_selisih :=
       if negb (Qeq_bool total_bank 0)
       then (total_selisih / total_bank * 100)%Q
       else 0%Q;
     Summary.by_type := by_type;
     Summary.timestamp := now |}.

Definition results_to_dataframe (results : list RekonResult.t) : list DfRow.t :=
  (λ result,
    {| DfRow.Bank := bank_name;
       DfRow.Nomor_Bilyet := RekonResult.nomor_bilyet result;
       DfRow.Nomor_Rekening := RekonResult.nomor_rekening result;
       DfRow.Jenis_Deposito := DepositoType_value (RekonResult.jenis_deposito result);
       DfRow.Nominal_Deposito := RekonResult.nominal_deposito result;
       DfRow.Imbal_Hasil_Bank := RekonResult.imbal_hasil_bank result;
       DfRow.Imbal_Hasil_BPKH := RekonResult.imbal_hasil_bpkh result;
       DfRow.Selisih := RekonResult.selisih result;
       DfRow.Selisih_pct := RekonResult.persentase_selisih result;
       DfRow.Status := RekonStatus_value (RekonResult.status result);
       DfRow.Priority := RekonResult.get_priority result;
       DfRow.Periode := RekonResult.periode result;
       DfRow.Notes := default "" (RekonResult.notes result) |}) <$> results.
End Reporting.

(** ** The bank adapters: configuration and expected yield *)

Module BankConfig.
(** The fields of [BankConfig] that the embedded code reads. *)
Record t := mk {
  bank_code : string;
  bank_name : string;
  nisbah_rates : gmap string Q;
  year_days : Z
}.
End BankConfig.

(** [d.get(k, dflt)] on a rate table. *)
Definition rates_get (rates : gmap string Q) (k : string) (dflt : Q) : Q :=
  default dflt (rates !! k).

(** [round(x, 2)], on the exact value of [x]: the nearest multiple of
    [1/100], ties to the even one.  The [float] the code returns is the
    binary64 nearest to the rounding of the [float] [x]. *)
Definition round2 (x : Q) : Q := Qmake (round_half_even (x * 100)%Q) 100.

(** [(record.nominal_deposito * nisbah * record.periode_hari) / self.config.year_days];
    [year_days] is 360 in every configuration of the repository (with 0 the
    code raises [ZeroDivisionError], whereas [/] on [Q] gives 0).  The value
    is the exact product and quotient, without the rounding of each
    [float] operation. *)
Definition accrual (config : BankConfig.t) (record : DepositoRecord.t) (nisbah : Q) (d : Z) : Q :=
  (DepositoRecord.nominal_deposito record * nisbah * inject_Z d
   / inject_Z (BankConfig.year_days config))%Q.

(** [not record.periode_hari or record.periode_hari <= 0] *)
Definition no_period (periode_hari : option Z) : bool :=
  match periode_hari with
  | None => true
  | Some d => (d =? 0) || (d <=? 0)
  end.

Module BankBTPN.
Definition config : BankConfig.t :=
  {| BankConfig.bank_code := "BTPN";
     BankConfig.bank_name := "Bank BTPN Syariah";
     BankConfig.nisbah_rates :=
       <["SA" := 930 # 10000]> (<["SL" := 930 # 10000]>
       (<["NM" := 835 # 10000]> (<["LPS" := 450 # 10000]> ∅)));
     BankConfig.year_days := 360 |}.

Definition calculate_expected_imbal_hasil
    (self : BankConfig.t) (record : DepositoRecord.t) : Q :=
  if no_period (DepositoRecord.periode_hari record) then 0%Q
  else
    let table_rate :=
      rates_get (BankConfig.nisbah_rates self)
        (DepositoType_value (DepositoRecord.jenis_deposito record)) (9 # 100) in
    (* [record.nisbah_rate or table_rate]: None and 0.0 are falsy *)
    let nisbah :=
      match DepositoRecord.nisbah_rate record with
      | Some r => if Qeq_bool r 0 then table_rate else r
      | None => table_rate
      end in
    let expected :=
      accrual self record nisbah (default 0 (DepositoRecord.periode_hari record)) in
    round2 expected.
End BankBTPN.

Module BankBPS.
Definition config : BankConfig.t :=
  {| BankConfig.bank_code := "BPS";
     BankConfig.bank_name := "Bank Pembangunan Syariah";
     BankConfig.nisbah_rates :=
       <["SA" := 475 # 10000]> (<["SL" := 475 # 10000]>
       (<["NM" := 500 # 10000]> (<["LPS" := 450 # 10000]> ∅)));
     BankConfig.year_days := 360 |}.

Definition calculate_expected_imbal_hasil
    (self : BankConfig.t) (record : DepositoRecord.t) : Q :=
  if no_period (DepositoRecord.periode_hari record) then 0%Q
  else
    let nisbah :=
      rates_get (BankConfig.nisbah_rates self)
        (DepositoType_value (DepositoRecord.jenis_deposito record)) (475 # 10000) in
    let expected :=
      accrual self record nisbah (default 0 (DepositoRecord.periode_hari record)) in
    round2 expected.
End BankBPS.

Module BankBNISyariah.
Definition config : BankConfig.t :=
  {| BankConfig.bank_code := "BNIS";
     BankConfig.bank_name := "BNI Syariah";
     BankConfig.nisbah_rates :=
       <["SA" := 485 # 10000]> (<["SL" := 485 # 10000]>
       (<["NM" := 515 # 10000]> (<["LPS" := 450 # 10000]> ∅)));
     BankConfig.year_days := 360 |}.

(** No rounding in this adapter. *)
Definition calculate_expected_imbal_hasil
    (self : BankConfig.t) (record : DepositoRecord.t) : Q :=
  if no_period (DepositoRecord.periode_hari record) then 0%Q
  else
    let nisbah :=
      rates_get (BankConfig.nisbah_rates self)
        (DepositoType_value (DepositoRecord.jenis_deposito record)) (485 # 10000) in
    accrual self record nisbah (default 0 (DepositoRecord.periode_hari record)).
End BankBNISyariah.

Module BankMandiriSyariah.
Definition config : BankConfig.t :=
  {| BankConfig.bank_code := "MSI";
     BankConfig.bank_name := "Bank Mandiri Syariah";
     BankConfig.nisbah_rates :=
       <["SA" := 480 # 10000]> (<["SL" := 480 # 10000]>
       (<["NM" := 510 # 10000]> (<["LPS" := 450 # 10000]> ∅)));
     BankConfig.year_days := 360 |}.

(** No rounding in this adapter. *)
Definition calculate_expected_imbal_hasil
    (self : BankConfig.t) (record : DepositoRecord.t) : Q :=
  if no_period (DepositoRecord.periode_hari record) then 0%Q
  else
    let nisbah :=
      rates_get (BankConfig.nisbah_rates self)
        (DepositoType_value (DepositoRecord.jenis_deposito record)) (48 # 1000) in
    accrual self record nisbah (default 0 (DepositoRecord.periode_hari record)).
End BankMandiriSyariah.

(** The four adapters of the repository, for statements about all of them. *)
Inductive Adapter := BTPN | BPS | BNIS | MSI.

Definition adapter_config (a : Adapter) : BankConfig.t :=
  match a with
  | BTPN => BankBTPN.config
  | BPS => BankBPS.config
  | BNIS => BankBNISyariah.config
  | MSI => BankMandiriSyariah.config
  end.

Definition calculate_expected_imbal_hasil (a : Adapter) (record : DepositoRecord.t) : Q :=
  match a with
  | BTPN => BankBTPN.calculate_expected_imbal_hasil BankBTPN.config record
  | BPS => BankBPS.calculate_expected_imbal_hasil BankBPS.config record
  | BNIS => BankBNISyariah.calculate_expected_imbal_hasil BankBNISyariah.config record
  | MSI => BankMandiriSyariah.calculate_expected_imbal_hasil BankMandiriSyariah.config record
  end.

(** The fallback constant written in each adapter's [calculate_expected_imbal_hasil]. *)
Definition fallback_rate (a : Adapter) : Q :=
  match a with
  | BTPN => 9 # 100
  | BPS => 475 # 10000
  | BNIS => 485 # 10000
  | MSI => 48 # 1000
  end.

(** ** Row parsing of the adapters

    A data row of a sheet, after [pandas] has read it: a map from column
    label to cell.  Locating the header row and reading the workbook are
    file access and stay outside the embedding. *)

Inductive cell :=
| NaN                      (* an empty cell: [pd.isna] holds *)
| Text (s : string)
| Number (q : Q)           (* an [int] or [float] cell *)
| Date (d : datetime).     (* a [datetime] / [Timestamp] cell *)

(** A Python value reaching the parsers: a cell, or [None]. *)
Abbreviation pyval := (option cell).

(** The library functions the parsers call, as parameters of the model. *)
Record PyLib := {
  str_number : Q → string;                        (* [str] of a number *)
  str_datetime : datetime → string;               (* [str] of a datetime *)
  strip : string → string;                        (* [s.strip()] *)
  upper : string → string;                        (* [s.upper()] *)
  replace : string → string → string → string;    (* [s.replace(old, new)] *)
  float_of_string : string → option Q;            (* [float(s)], [None] on ValueError *)
  strptime : string → string → option datetime    (* [None] on ValueError *)
}.

Section Parsing.
Variable lib : PyLib.

Definition row_get (row : gmap string cell) (label : string) (dflt : pyval) : pyval :=
  match row !! label with
  | Some c => Some c
  | None => dflt
  end.

Definition isna (v : pyval) : bool :=
  match v with
  | None | Some NaN => true
  | _ => false
  end.

Definition py_str (v : pyval) : string :=
  match v with
  | None => "None"
  | Some NaN => "nan"
  | Some (Text s) => s
  | Some (Number q) => str_number lib q
  | Some (Date d) => str_datetime lib d
  end.

(** The [for fmt in formats: try ... except: continue] loop. *)
Fixpoint try_formats (s : string) (formats : list string) : option datetime :=
  match formats with
  | [] => None
  | fmt :: rest =>
      match strptime lib s fmt with
      | Some d => Some d
      | None => try_formats s rest
      end
  end.

Definition parse_date_with (formats : list string) (date_value : pyval)
  : option datetime :=
  if isna date_value then None
  else match date_value with
       | Some (Date d) => Some d
       | _ => try_formats (py_str date_value) formats
       end.

(** [_parse_number], the same in both adapters. *)
Definition _parse_number (value : pyval) : Q :=
  if isna value then 0%Q
  else match value with
       | Some (Number q) => q
       | _ =>
           let value_str := replace lib (replace lib (py_str value) "." "") "," "." in
           default 0%Q (float_of_string lib value_str)
       end.

(** [periode_hari = None; if tanggal_penempatan and tanggal_jatuh_tempo: ...] *)
Definition calc_periode_hari (tanggal_penempatan tanggal_jatuh_tempo : option datetime)
  : option Z :=
  match tanggal_penempatan, tanggal_jatuh_tempo with
  | Some tp, Some tj => Some (timedelta_days tj tp)
  | _, _ => None
  end.

Definition lookup_type (mapping : list (string * DepositoType)) (jenis_upper : string)
  : DepositoType :=
  default SETORAN_AWAL (PyDict.get jenis_upper mapping).

Definition btpn_formats : list string :=
  ["%d/%m/%Y"; "%d-%m-%Y"; "%Y-%m-%d"; "%d %b %Y"; "%d %B %Y"].

Definition bps_formats : list string :=
  btpn_formats ++ ["%d-%b-%y"; "%d-%b-%Y"].

Definition btpn_mapping : list (string * DepositoType) :=
  [("SA", SETORAN_AWAL); ("SETORAN AWAL", SETORAN_AWAL);
   ("SL", SETORAN_LUNAS); ("SETORAN LUNAS", SETORAN_LUNAS);
   ("NM", NILAI_MANFAAT); ("NILAI MANFAAT", NILAI_MANFAAT);
   ("LPS", LPS); ("DAU", DAU)].

Definition bps_mapping : list (string * DepositoType) :=
  btpn_mapping ++
  [("DANA SETORAN AWAL", SETORAN_AWAL);
   ("DANA SETORAN LUNAS", SETORAN_LUNAS);
   ("DANA NILAI MANFAAT", NILAI_MANFAAT)].

(** [_map_deposito_type] *)
Definition map_deposito_type (mapping : list (string * DepositoType)) (jenis_str : string)
  : DepositoType :=
  lookup_type mapping (strip lib (upper lib jenis_str)).

(** *** [BankBTPN.parse_bank_data]: the body of the row loop of one sheet.
    [None] is a skipped row. *)
Definition btpn_parse_bank_row (self : BankConfig.t) (dep_type : DepositoType)
    (row : gmap string cell) : option DepositoRecord.t :=
  if isna (row_get row "Nomor Bilyet" None) || isna (row_get row "Nomor Rekening" None)
  then None
  else
    let tanggal_penempatan :=
      parse_date_with btpn_formats (row_get row "Tanggal Penempatan" None) in
    let tanggal_jatuh_tempo :=
      parse_date_with btpn_formats (row_get row "Tanggal Jatuh Tempo" None) in
    let periode_hari := calc_periode_hari tanggal_penempatan tanggal_jatuh_tempo in
    Some
      {| DepositoRecord.bank_code := BankConfig.bank_code self;
         DepositoRecord.nomor_bilyet :=
           strip lib (py_str (row_get row "Nomor Bilyet" (Some (Text ""))));
         DepositoRecord.nomor_rekening :=
           strip lib (py_str (row_get row "Nomor Rekening" (Some (Text ""))));
         DepositoRecord.nominal_deposito :=
           _parse_number (row_get row "Nominal Deposito" (Some (Number 0)));
         DepositoRecord.nominal_imbal_hasil :=
           _parse_number (row_get row "Nominal Imbal Hasil" (Some (Number 0)));
         DepositoRecord.jenis_deposito := dep_type;
         DepositoRecord.tanggal_penempatan := tanggal_penempatan;
         DepositoRecord.tanggal_jatuh_tempo := tanggal_jatuh_tempo;
         DepositoRecord.tanggal_realisasi := None;
         DepositoRecord.nisbah_rate :=
           Some (_parse_number
                   (row_get row "Nisbah Rate"
                      (Some (Number (rates_get (BankConfig.nisbah_rates self)
                                       (DepositoType_value dep_type) 0)))));
         DepositoRecord.periode_hari := periode_hari;
         DepositoRecord.source := "bank" |}.

(** *** [BankBTPN.parse_bpkh_data]: the body of the row loop. *)
Definition btpn_parse_bpkh_row (self : BankConfig.t) (row : gmap string cell)
  : option DepositoRecord.t :=
  if isna (row_get row "Nomor Bilyet" None) || isna (row_get row "Nomor Rekening" None)
  then None
  else
    let jenis :=
      upper lib (strip lib (py_str (row_get row "Jenis Deposito" (Some (Text "SA"))))) in
    let dep_type := map_deposito_type btpn_mapping jenis in
    let tanggal_penempatan :=
      parse_date_with btpn_formats (row_get row "Tanggal Penempatan" None) in
    (* [row.get('Tanggal Realisasi') or row.get('Tanggal Cair')]: a cell
       is falsy only when it is the empty text or the number zero *)
    let realisasi_cell :=
      match row_get row "Tanggal Realisasi" None with
      | None | Some (Text "") => row_get row "Tanggal Cair" None
      | Some (Number q) =>
          if Qeq_bool q 0 then row_get row "Tanggal Cair" None else Some (Number q)
      | v => v
      end in
    let tanggal_realisasi := parse_date_with btpn_formats realisasi_cell in
    Some
      {| DepositoRecord.bank_code := BankConfig.bank_code self;
         DepositoRecord.nomor_bilyet :=
           strip lib (py_str (row_get row "Nomor Bilyet" (Some (Text ""))));
         DepositoRecord.nomor_rekening :=
           strip lib (py_str (row_get row "Nomor Rekening" (Some (Text ""))));
         DepositoRecord.nominal_deposito :=
           _parse_number (row_get row "Nominal Deposito" (Some (Number 0)));
         DepositoRecord.nominal_imbal_hasil :=
           _parse_number (row_get row "Nominal Imbal Hasil" (Some (Number 0)));
         DepositoRecord.jenis_deposito := dep_type;
         DepositoRecord.tanggal_penempatan := tanggal_penempatan;
         DepositoRecord.tanggal_jatuh_tempo := None;
         DepositoRecord.tanggal_realisasi := tanggal_realisasi;
         DepositoRecord.nisbah_rate := None;
         DepositoRecord.periode_hari := None;
         DepositoRecord.source := "bpkh" |}.

(** [not nomor_bilyet or nomor_bilyet in ['', 'nan', 'None']] *)
Definition bps_blank (nomor_bilyet : string) : bool :=
  bool_decide (nomor_bilyet = "")
  || bool_decide (nomor_bilyet ∈ [""; "nan"; "None"]).

(** *** [BankBPS.parse_bank_data]: the body of the row loop. *)
Definition bps_parse_bank_row (self : BankConfig.t) (row : gmap string cell)
  : option DepositoRecord.t :=
  let nomor_bilyet := strip lib (py_str (row_get row "Nomor Bilyet" (Some (Text "")))) in
  if bps_blank nomor_bilyet then None
  else
    let sumber_dana :=
      upper lib (strip lib (py_str
        (row_get row "Sumber Dana" (row_get row "Jenis Dana" (Some (Text "SA")))))) in
    let dep_type := map_deposito_type bps_mapping sumber_dana in
    let tanggal_penempatan :=
      parse_date_with bps_formats (row_get row "Tanggal Penempatan" None) in
    let tanggal_jatuh_tempo :=
      parse_date_with bps_formats
        (row_get row "Tanggal Jatuh Tempo" (row_get row "Tanggal Cair" None)) in
    let periode_hari := calc_periode_hari tanggal_penempatan tanggal_jatuh_tempo in
    let nominal_imbal :=
      _parse_number
        (row_get row "Nominal Imbal Hasil"
           (row_get row "Imbal Hasil"
              (row_get row "Jadwal Imbal Hasil" (Some (Number 0))))) in
    Some
      {| DepositoRecord.bank_code := BankConfig.bank_code self;
         DepositoRecord.nomor_bilyet := nomor_bilyet;
         DepositoRecord.nomor_rekening :=
           strip lib (py_str (row_get row "Nomor Rekening" (Some (Text nomor_bilyet))));
         DepositoRecord.nominal_deposito :=
           _parse_number (row_get row "Nominal Deposito" (Some (Number 0)));
         DepositoRecord.nominal_imbal_hasil := nominal_imbal;
         DepositoRecord.jenis_deposito := dep_type;
         DepositoRecord.tanggal_penempatan := tanggal_penempatan;
         DepositoRecord.tanggal_jatuh_tempo := tanggal_jatuh_tempo;
         DepositoRecord.tanggal_realisasi := None;
         DepositoRecord.nisbah_rate := None;
         DepositoRecord.periode_hari := periode_hari;
         DepositoRecord.source := "bank" |}.

(** *** [BankBPS.parse_bpkh_data]: the body of the row loop. *)
Definition bps_parse_bpkh_row (self : BankConfig.t) (row : gmap string cell)
  : option DepositoRecord.t :=
  let nomor_bilyet := strip lib (py_str (row_get row "Nomor Bilyet" (Some (Text "")))) in
  if bps_blank nomor_bilyet then None
  else
    let jenis :=
      upper lib (strip lib (py_str
        (row_get row "Jenis Deposito" (row_get row "Sumber Dana" (Some (Text "SA")))))) in
    let dep_type := map_deposito_type bps_mapping jenis in
    let tanggal_penempatan :=
      parse_date_with bps_formats (row_get row "Tanggal Penempatan" None) in
    let tanggal_realisasi :=
      parse_date_with bps_formats
        (row_get row "Tanggal Realisasi"
           (row_get row "Tanggal Imbal Hasil" (row_get row "Tanggal Cair" None))) in
    Some
      {| DepositoRecord.bank_code := BankConfig.bank_code self;
         DepositoRecord.nomor_bilyet := nomor_bilyet;
         DepositoRecord.nomor_rekening :=
           strip lib (py_str (row_get row "Nomor Rekening" (Some (Text nomor_bilyet))));
         DepositoRecord.nominal_deposito :=
           _parse_number (row_get row "Nominal Deposito" (Some (Number 0)));
         DepositoRecord.nominal_imbal_hasil :=
           _parse_number (row_get row "Nominal Imbal Hasil" (Some (Number 0)));
         DepositoRecord.jenis_deposito := dep_type;
         DepositoRecord.tanggal_penempatan := tanggal_penempatan;
         DepositoRecord.tanggal_jatuh_tempo := None;
         DepositoRecord.tanggal_realisasi := tanggal_realisasi;
         DepositoRecord.nisbah_rate := None;
         DepositoRecord.periode_hari := None;
         DepositoRecord.source := "bpkh" |}.

(** The records of one sheet: rows in order, skipped rows left out. *)
Definition btpn_parse_bank_rows (dep_type : DepositoType) (rows : list (gmap string cell))
  : list DepositoRecord.t :=
  omap (btpn_parse_bank_row BankBTPN.config dep_type) rows.

Definition btpn_parse_bpkh_rows (rows : list (gmap string cell)) : list DepositoRecord.t :=
  omap (btpn_parse_bpkh_row BankBTPN.config) rows.

Definition bps_parse_bank_rows (rows : list (gmap string cell)) : list DepositoRecord.t :=
  omap (bps_parse_bank_row BankBPS.config) rows.

Definition bps_parse_bpkh_rows (rows : list (gmap string cell)) : list DepositoRecord.t :=
  omap (bps_parse_bpkh_row BankBPS.config) rows.
(** *** The BNI Syariah and Mandiri Syariah adapters, whose private
    helpers have a shorter format list and a shorter mapping, looked up
    on [jenis_str.upper()] without [strip]. *)
Definition bni_formats : list string :=
  ["%d/%m/%Y"; "%d-%m-%Y"; "%Y-%m-%d"; "%d %b %Y"].

Definition bni_mapping : list (string * DepositoType) :=
  [("SA", SETORAN_AWAL); ("SL", SETORAN_LUNAS); ("NM", NILAI_MANFAAT); ("LPS", LPS)].

Definition bni_map_deposito_type (jenis_str : string) : DepositoType :=
  lookup_type bni_mapping (upper lib jenis_str).

(** [not nomor_bilyet or nomor_bilyet == 'nan'] *)
Definition bni_blank (nomor_bilyet : string) : bool :=
  bool_decide (nomor_bilyet = "") || bool_decide (nomor_bilyet = "nan").

(** [BankBNISyariah.parse_bank_data]: the body of the row loop. *)
Definition bni_parse_bank_row (self : BankConfig.t) (row : gmap string cell)
  : option DepositoRecord.t :=
  let nomor_bilyet := strip lib (py_str (row_get row "Nomor Bilyet" (Some (Text "")))) in
  if bni_blank nomor_bilyet then None
  else
    let tanggal_penempatan :=
      parse_date_with bni_formats
        (row_get row "Tanggal Mulai" (row_get row "Tanggal Penempatan" None)) in
    let tanggal_jatuh_tempo :=
      parse_date_with bni_formats
        (row_get row "Tanggal Berakhir" (row_get row "Tanggal Jatuh Tempo" None)) in
    let periode_hari := calc_periode_hari tanggal_penempatan tanggal_jatuh_tempo in
    let jenis :=
      upper lib (strip lib (py_str
        (row_get row "Tipe Deposito" (row_get row "Jenis Deposito" (Some (Text "SA")))))) in
    let dep_type := bni_map_deposito_type jenis in
    Some
      {| DepositoRecord.bank_code := BankConfig.bank_code self;
         DepositoRecord.nomor_bilyet := nomor_bilyet;
         DepositoRecord.nomor_rekening :=
           strip lib (py_str (row_get row "Nomor Rekening" (Some (Text ""))));
         DepositoRecord.nominal_deposito :=
           _parse_number
             (row_get row "Pokok Deposito" (row_get row "Nominal Deposito" (Some (Number 0))));
         DepositoRecord.nominal_imbal_hasil :=
           _parse_number
             (row_get row "Bagi Hasil" (row_get row "Nominal Imbal Hasil" (Some (Number 0))));
         DepositoRecord.jenis_deposito := dep_type;
         DepositoRecord.tanggal_penempatan := tanggal_penempatan;
         DepositoRecord.tanggal_jatuh_tempo := tanggal_jatuh_tempo;
         DepositoRecord.tanggal_realisasi := None;
         DepositoRecord.nisbah_rate := None;
         DepositoRecord.periode_hari := periode_hari;
         DepositoRecord.source := "bank" |}.

(** [BankBNISyariah.parse_bpkh_data]: the body of the row loop. *)
Definition bni_parse_bpkh_row (self : BankConfig.t) (row : gmap string cell)
  : option DepositoRecord.t :=
  let nomor_bilyet := strip lib (py_str (row_get row "Nomor Bilyet" (Some (Text "")))) in
  if bni_blank nomor_bilyet then None
  else
    let jenis :=
      upper lib (strip lib (py_str (row_get row "Jenis Deposito" (Some (Text "SA"))))) in
    let dep_type := bni_map_deposito_type jenis in
    Some
      {| DepositoRecord.bank_code := BankConfig.bank_code self;
         DepositoRecord.nomor_bilyet := nomor_bilyet;
         DepositoRecord.nomor_rekening :=
           strip lib (py_str (row_get row "Nomor Rekening" (Some (Text ""))));
         DepositoRecord.nominal_deposito :=
           _parse_number (row_get row "Nominal Deposito" (Some (Number 0)));
         DepositoRecord.nominal_imbal_hasil :=
           _parse_number (row_get row "Nominal Imbal Hasil" (Some (Number 0)));
         DepositoRecord.jenis_deposito := dep_type;
         DepositoRecord.tanggal_penempatan :=
           parse_date_with bni_formats (row_get row "Tanggal Penempatan" None);
         DepositoRecord.tanggal_jatuh_tempo := None;
         DepositoRecord.tanggal_realisasi :=
           parse_date_with bni_formats (row_get row "Tanggal Realisasi" None);
         DepositoRecord.nisbah_rate := None;
         DepositoRecord.periode_hari := None;
         DepositoRecord.source := "bpkh" |}.

(** [BankMandiriSyariah.parse_bank_data]: the body of the row loop. *)
Definition msi_parse_bank_row (self : BankConfig.t) (row : gmap string cell)
  : option DepositoRecord.t :=
  let nomor_bilyet :=
    strip lib (py_str
      (row_get row "No. Bilyet" (row_get row "Nomor Bilyet" (Some (Text ""))))) in
  if bni_blank nomor_bilyet then None
  else
    let tanggal_penempatan :=
      parse_date_with bni_formats
        (row_get row "Tgl. Penempatan" (row_get row "Tanggal Penempatan" None)) in
    let tanggal_jatuh_tempo :=
      parse_date_with bni_formats
        (row_get row "Tgl. Jatuh Tempo" (row_get row "Tanggal Jatuh Tempo" None)) in
    let periode_hari := calc_periode_hari tanggal_penempatan tanggal_jatuh_tempo in
    let jenis :=
      upper lib (strip lib (py_str
        (row_get row "Jenis" (row_get row "Jenis Deposito" (Some (Text "SA")))))) in
    let dep_type := bni_map_deposito_type jenis in
    Some
      {| DepositoRecord.bank_code := BankConfig.bank_code self;
         DepositoRecord.nomor_bilyet := nomor_bilyet;
         DepositoRecord.nomor_rekening :=
           strip lib (py_str
             (row_get row "No. Rekening" (row_get row "Nomor Rekening" (Some (Text "")))));
         DepositoRecord.nominal_deposito :=
           _parse_number
             (row_get row "Nominal" (row_get row "Nominal Deposito" (Some (Number 0))));
         DepositoRecord.nominal_imbal_hasil :=
           _parse_number
             (row_get row "Bagi Hasil" (row_get row "Nominal Imbal Hasil" (Some (Number 0))));
         DepositoRecord.jenis_deposito := dep_type;
         DepositoRecord.tanggal_penempatan := tanggal_penempatan;
         DepositoRecord.tanggal_jatuh_tempo := tanggal_jatuh_tempo;
         DepositoRecord.tanggal_realisasi := None;
         DepositoRecord.nisbah_rate := None;
         DepositoRecord.periode_hari := periode_hari;
         DepositoRecord.source := "bank" |}.

(** [BankMandiriSyariah.parse_bpkh_data]: the body of the row loop. *)
Definition msi_parse_bpkh_row (self : BankConfig.t) (row : gmap string cell)
  : option DepositoRecord.t :=
  let nomor_bilyet := strip lib (py_str (row_get row "Nomor Bilyet" (Some (Text "")))) in
  if bni_blank nomor_bilyet then None
  else
    let jenis :=
      upper lib (strip lib (py_str
        (row_get row "Jenis Deposito" (row_get row "Jenis" (Some (Text "SA")))))) in
    let dep_type := bni_map_deposito_type jenis in
    Some
      {| DepositoRecord.bank_code := BankConfig.bank_code self;
         DepositoRecord.nomor_bilyet := nomor_bilyet;
         DepositoRecord.nomor_rekening :=
           strip lib (py_str (row_get row "Nomor Rekening" (Some (Text ""))));
         DepositoRecord.nominal_deposito :=
           _parse_number (row_get row "Nominal Deposito" (Some (Number 0)));
         DepositoRecord.nominal_imbal_hasil :=
           _parse_number (row_get row "Nominal Imbal Hasil" (Some (Number 0)));
         DepositoRecord.jenis_deposito := dep_type;
         DepositoRecord.tanggal_penempatan :=
           parse_date_with bni_formats (row_get row "Tanggal Penempatan" None);
         DepositoRecord.tanggal_jatuh_tempo := None;
         DepositoRecord.tanggal_realisasi :=
           parse_date_with bni_formats (row_get row "Tanggal Realisasi" None);
         DepositoRecord.nisbah_rate := None;
         DepositoRecord.periode_hari := None;
         DepositoRecord.source := "bpkh" |}.

Definition bni_parse_bank_rows (rows : list (gmap string cell)) : list DepositoRecord.t :=
  omap (bni_parse_bank_row BankBNISyariah.config) rows.

Definition bni_parse_bpkh_rows (rows : list (gmap string cell)) : list DepositoRecord.t :=
  omap (bni_parse_bpkh_row BankBNISyariah.config) rows.

Definition msi_parse_bank_rows (rows : list (gmap string cell)) : list DepositoRecord.t :=
  omap (msi_parse_bank_row BankMandiriSyariah.config) rows.

Definition msi_parse_bpkh_rows (rows : list (gmap string cell)) : list DepositoRecord.t :=
  omap (msi_parse_bpkh_row BankMandiriSyariah.config) rows.
End Parsing.

(** ** [services/rekon_service.py]: [MultiRekonService] *)

(** Exceptions ([Exception] and its subclasses) and computations that may
    raise one. *)
Inductive exn :=
| ValueError (msg : string)
| OtherException (class_name msg : string).

(** [str(e)] *)
Definition exn_str (e : exn) : string :=
  match e with
  | ValueError msg => msg
  | OtherException _ msg => msg
  end.

Inductive pyresult (A : Type) :=
| Ok (a : A)
| Raise (e : exn).
Arguments Ok {A} a.
Arguments Raise {A} e.

(** A registered bank object, seen from the service: its [bank_code] and
    [bank_name] attributes and its two abstract parsers, which read the
    file at the given path and may raise.  [reconcile], [generate_summary]
    and [results_to_dataframe] are the inherited [BankBase] methods. *)
Module BankBase.
Record t := mk {
  bank_code : string;
  bank_name : string;
  parse_bank_data : string → pyresult (list DepositoRecord.t);
  parse_bpkh_data : string → pyresult (list DepositoRecord.t)
}.
End BankBase.

Module Outcome.
(** The dictionary [process_reconciliation] returns. *)
Inductive t :=
| Success (bank_code bank_name : string)
          (summary : Summary.t)
          (results : list RekonResult.t)
          (df_results : list DfRow.t)
          (bank_records_count bpkh_records_count : nat)
          (timestamp : string)
| Failure (bank_code error timestamp : string).

Definition success (o : t) : bool :=
  match o with
  | Success _ _ _ _ _ _ _ _ => true
  | Failure _ _ _ => false
  end.
End Outcome.

(** The rows of [generate_summary_comparison] and the dictionary of
    [calculate_kpis]. *)
Module ComparisonRow.
Record t := mk {
  Bank : string;
  Total_Records : nat;
  Matched : nat;
  Difference : nat;
  Match_Rate_pct : Q;
  Total_Deposito : Q;
  Total_Bank : Q;
  Total_BPKH : Q;
  Total_Selisih : Q;
  Selisih_pct : Q
}.
End ComparisonRow.

Module Kpis.
Record t := mk {
  total_records : nat;
  total_matched : nat;
  match_rate : Q;
  total_selisih : Q;
  variance_rate : Q;
  accuracy_score : Q;
  quality_score : Q;
  overall_score : Q;
  status : string
}.
End Kpis.

(** Comparison of amounts is decidable. *)
#[global] Instance Qlt_decision (x y : Q) : Decision (x < y)%Q.
Proof.
  destruct (Qlt_le_dec x y) as [H|H]; [left; exact H|right].
  intros H'. exact (Qlt_not_le _ _ H' H).
Defined.

(** [round(x, 4)] *)
Definition round4 (x : Q) : Q := Qmake (round_half_even (x * 10000)%Q) 10000.

Module MultiRekonService.
(** The two attributes of the service object. *)
Record t := mk {
  banks : gmap string BankBase.t;
  results_cache : gmap string (list RekonResult.t)
}.

(** A method of the service: it runs on the object, may mutate it and
    may raise; a mutation made before a raise stays. *)
Definition M (A : Type) : Type := t → pyresult A * t.

Definition ret {A} (a : A) : M A := λ self, (Ok a, self).
Definition raise {A} (e : exn) : M A := λ self, (Raise e, self).
Definition bind {A B} (m : M A) (f : A → M B) : M B :=
  λ self,
    match m self with
    | (Ok a, self') => f a self'
    | (Raise e, self') => (Raise e, self')
    end.
(** [try: body  except Exception as e: handler(e)] *)
Definition try_except {A} (body : M A) (handler : exn → M A) : M A :=
  λ self,
    match body self with
    | (Ok a, self') => (Ok a, self')
    | (Raise e, self') => handler e self'
    end.
(** A call that may raise and does not touch the service. *)
Definition call {A} (r : pyresult A) : M A := λ self, (r, self).

Notation "'let!' x ':=' m 'in' f" := (bind m (λ x, f))
  (at level 10, x name, m at level 100, f at level 200).

(** [add_bank] *)
Definition add_bank (bank_code : string) (bank_instance : BankBase.t) : M unit :=
  λ self,
    (Ok (), {| banks := <[bank_code := bank_instance]> (banks self);
               results_cache := results_cache self |}).

(** [if bank_code not in self.banks: raise ValueError(...)]; [self.banks[bank_code]] *)
Definition get_bank (bank_code : string) : M BankBase.t :=
  λ self,
    match banks self !! bank_code with
    | None => (Raise (ValueError ("Bank " +:+ bank_code +:+ " not supported")), self)
    | Some bank => (Ok bank, self)
    end.

(** [self.results_cache[bank_code] = rekon_results] *)
Definition cache_results (bank_code : string) (rekon_results : list RekonResult.t)
  : M unit :=
  λ self,
    (Ok (), {| banks := banks self;
               results_cache := <[bank_code := rekon_results]> (results_cache self) |}).

Section Methods.
(** The reading of [datetime.now().isoformat()]: wall-clock time is an
    input of the model, and the readings of one run are taken to be
    the same instant. *)
Variable now : string.

(** The [try] block of [process_reconciliation]. *)
Definition process_reconciliation_body
    (bank_code bank_file_path bpkh_file_path : string) : M Outcome.t :=
  let! bank := get_bank bank_code in
  let! bank_records := call (BankBase.parse_bank_data bank bank_file_path) in
  let! bpkh_records := call (BankBase.parse_bpkh_data bank bpkh_file_path) in
  let rekon_results :=
    reconcile (BankBase.bank_code bank) bank_records bpkh_records in
  let summary :=
    generate_summary (BankBase.bank_code bank) (BankBase.bank_name bank) now
      rekon_results in
  let! _u := cache_results bank_code rekon_results in
  let df_results := results_to_dataframe (BankBase.bank_name bank) rekon_results in
  ret (Outcome.Success bank_code (BankBase.bank_name bank) summary rekon_results
         df_results (length bank_records) (length bpkh_records) now).

Definition process_reconciliation
    (bank_code bank_file_path bpkh_file_path : string) : M Outcome.t :=
  try_except
    (process_reconciliation_body bank_code bank_file_path bpkh_file_path)
    (λ e, ret (Outcome.Failure bank_code (exn_str e) now)).

(** [process_multiple_banks]: [bank_files] and the returned [results]
    are dictionaries in insertion order. *)
Fixpoint process_multiple_banks_loop
    (items : list (string * (string * string)))
    (results : list (string * Outcome.t)) : M (list (string * Outcome.t)) :=
  match items with
  | [] => ret results
  | (bank_code, (bank_file, bpkh_file)) :: rest =>
      let! result := process_reconciliation bank_code bank_file bpkh_file in
      process_multiple_banks_loop rest (PyDict.set bank_code result results)
  end.

Definition process_multiple_banks (bank_files : list (string * (string * string)))
  : M (list (string * Outcome.t)) :=
  process_multiple_banks_loop bank_files [].
End Methods.

(** [get_exception_items]: a [DataFrame] is the list of its rows, the
    empty [pd.DataFrame()] the empty list; [self.banks[bank_code]] raises
    [KeyError] for a code that is not registered. *)
Definition get_exception_items (bank_code : string) (threshold : Q) : M (list DfRow.t) :=
  λ self,
    match results_cache self !! bank_code with
    | None => (Ok [], self)
    | Some results =>
        match banks self !! bank_code with
        | None => (Raise (OtherException "KeyError" ("'" +:+ bank_code +:+ "'")), self)
        | Some bank =>
            let exceptions :=
              filter (λ r, (threshold < Qabs (RekonResult.persentase_selisih r))%Q) results in
            match exceptions with
            | [] => (Ok [], self)
            | _ => (Ok (results_to_dataframe (BankBase.bank_name bank) exceptions), self)
            end
        end
    end.

(** [generate_consolidated_report]: [pd.concat(all_dfs, ignore_index=True)]
    is the rows of the frames one after the other. *)
Definition generate_consolidated_report (results : list (string * Outcome.t))
  : list DfRow.t :=
  let all_dfs :=
    omap (λ kv : string * Outcome.t,
            match kv.2 with
            | Outcome.Success _ _ _ _ df_results _ _ _ => Some df_results
            | Outcome.Failure _ _ _ => None
            end) results in
  match all_dfs with
  | [] => []
  | _ => concat all_dfs
  end.

(** [generate_summary_comparison] *)
Definition generate_summary_comparison (results : list (string * Outcome.t))
  : list ComparisonRow.t :=
  omap (λ kv : string * Outcome.t,
          match kv.2 with
          | Outcome.Success _ _ summary _ _ _ _ _ =>
              Some {| ComparisonRow.Bank := Summary.bank_name summary;
                      ComparisonRow.Total_Records := Summary.total_records summary;
                      ComparisonRow.Matched := Summary.matched_records summary;
                      ComparisonRow.Difference := Summary.difference_records summary;
                      ComparisonRow.Match_Rate_pct := round2 (Summary.match_rate summary);
                      ComparisonRow.Total_Deposito := Summary.total_deposito summary;
                      ComparisonRow.Total_Bank := Summary.total_imbal_hasil_bank summary;
                      ComparisonRow.Total_BPKH := Summary.total_imbal_hasil_bpkh summary;
                      ComparisonRow.Total_Selisih := Summary.total_selisih summary;
                      ComparisonRow.Selisih_pct := round4 (Summary.pct_selisih summary) |}
          | Outcome.Failure _ _ _ => None
          end) results.

(** One iteration of the loop of [calculate_kpis], on the four running
    totals. *)
Definition kpi_step (totals : nat * nat * Q * Q) (result : Outcome.t)
  : nat * nat * Q * Q :=
  let '(total_records, total_matched, total_selisih, total_bank) := totals in
  match result with
  | Outcome.Success _ _ summary _ _ _ _ _ =>
      ((total_records + Summary.total_records summary)%nat,
       (total_matched + Summary.matched_records summary)%nat,
       (total_selisih + Summary.total_selisih summary)%Q,
       (total_bank + Summary.total_imbal_hasil_bank summary)%Q)
  | Outcome.Failure _ _ _ => totals
  end.

(** [calculate_kpis] *)
Definition calculate_kpis (results : list (string * Outcome.t)) : Kpis.t :=
  let '(total_records, total_matched, total_selisih, total_bank) :=
    fold_left kpi_step (PyDict.values results) (0%nat, 0%nat, 0%Q, 0%Q) in
  let match_rate :=
    if (0 <? total_records)%nat
    then (Q_of_nat total_matched / Q_of_nat total_records * 100)%Q
    else 0%Q in
  let variance_rate :=
    if Qlt_le_dec 0 total_bank
    then Qabs (total_selisih / total_bank * 100)%Q
    else 0%Q in
  let accuracy_score := match_rate in
  let quality_score :=
    let q := (100 - variance_rate * 100)%Q in
    if Qlt_le_dec 0 q then q else 0%Q in
  let overall_score := (accuracy_score * (6 # 10) + quality_score * (4 # 10))%Q in
  {| Kpis.total_records := total_records;
     Kpis.total_matched := total_matched;
     Kpis.match_rate := round2 match_rate;
     Kpis.total_selisih := total_selisih;
     Kpis.variance_rate := round4 variance_rate;
     Kpis.accuracy_score := round2 accuracy_score;
     Kpis.quality_score := round2 quality_score;
     Kpis.overall_score := round2 overall_score;
     Kpis.status :=
       if Qlt_le_dec overall_score 95 then
         if Qlt_le_dec overall_score 85 then
           if Qlt_le_dec overall_score 70 then "Poor" else "Fair"
         else "Good"
       else "Excellent" |}.
End MultiRekonService.


(** ** Definitions used to state the properties *)

(** The rate rule in the words of the specification: the record's own
    declared rate when present, otherwise the rate table entry for the
    record's category, otherwise a fallback constant. *)
Definition spec_rate (own : option Q) (rates : gmap string Q)
    (category : DepositoType) (fallback : Q) : Q :=
  match own with
  | Some r => r
  | None =>
      match rates !! DepositoType_value category with
      | Some r => r
      | None => fallback
      end
  end.

(** The same record with another holding period. *)
Definition with_periode_hari (record : DepositoRecord.t) (periode_hari : option Z)
  : DepositoRecord.t :=
  {| DepositoRecord.bank_code := DepositoRecord.bank_code record;
     DepositoRecord.nomor_bilyet := DepositoRecord.nomor_bilyet record;
     DepositoRecord.nomor_rekening := DepositoRecord.nomor_rekening record;
     DepositoRecord.nominal_deposito := DepositoRecord.nominal_deposito record;
     DepositoRecord.nominal_imbal_hasil := DepositoRecord.nominal_imbal_hasil record;
     DepositoRecord.jenis_deposito := DepositoRecord.jenis_deposito record;
     DepositoRecord.tanggal_penempatan := DepositoRecord.tanggal_penempatan record;
     DepositoRecord.tanggal_jatuh_tempo := DepositoRecord.tanggal_jatuh_tempo record;
     DepositoRecord.tanggal_realisasi := DepositoRecord.tanggal_realisasi record;
     DepositoRecord.nisbah_rate := DepositoRecord.nisbah_rate record;
     DepositoRecord.periode_hari := periode_hari;
     DepositoRecord.source := DepositoRecord.source record |}.

(** Every bank code with cached results is a registered bank: the state in
    which [get_exception_items] finds the bank of a cached code. *)
Definition cache_registered (self : MultiRekonService.t) : Prop :=
  ∀ bank_code,
    is_Some (MultiRekonService.results_cache self !! bank_code) →
    is_Some (MultiRekonService.banks self !! bank_code).

(** The counts of a success outcome agree with the results it carries. *)
Definition outcome_counts_agree (o : Outcome.t) : Prop :=
  match o with
  | Outcome.Success _ _ summary results df_results _ _ _ =>
      Summary.total_records summary = length results
      ∧ length df_results = length results
      ∧ (Summary.matched_records summary <= Summary.total_records summary)%nat
  | Outcome.Failure _ _ _ => True
  end.

(** ** Sample data for the examples *)

Definition sample_record (bilyet rekening : string) (imbal_hasil : Q) : DepositoRecord.t :=
  {| DepositoRecord.bank_code := "BTPN";
     DepositoRecord.nomor_bilyet := bilyet;
     DepositoRecord.nomor_rekening := rekening;
     DepositoRecord.nominal_deposito := 1000;
     DepositoRecord.nominal_imbal_hasil := imbal_hasil;
     DepositoRecord.jenis_deposito := SETORAN_AWAL;
     DepositoRecord.tanggal_penempatan := Some (mk_datetime 2025 4 1 0 0 0 0);
     DepositoRecord.tanggal_jatuh_tempo := None;
     DepositoRecord.tanggal_realisasi := None;
     DepositoRecord.nisbah_rate := None;
     DepositoRecord.periode_hari := None;
     DepositoRecord.source := "bank" |}.

(** A record of principal 3600 in category SA with a declared rate and a
    holding period. *)
Definition rated_record (nisbah_rate : option Q) (periode_hari : option Z)
  : DepositoRecord.t :=
  {| DepositoRecord.bank_code := "BPS";
     DepositoRecord.nomor_bilyet := "A1";
     DepositoRecord.nomor_rekening := "001";
     DepositoRecord.nominal_deposito := 3600;
     DepositoRecord.nominal_imbal_hasil := 0;
     DepositoRecord.jenis_deposito := SETORAN_AWAL;
     DepositoRecord.tanggal_penempatan := None;
     DepositoRecord.tanggal_jatuh_tempo := None;
     DepositoRecord.tanggal_realisasi := None;
     DepositoRecord.nisbah_rate := nisbah_rate;
     DepositoRecord.periode_hari := periode_hari;
     DepositoRecord.source := "bank" |}.

(** A library instance for rows whose cells need no conversion between
    text and numbers or dates: [strip], [upper] and [replace] act on ASCII
    text, no text parses as a number or as a date, and numbers and dates
    print as the empty text. *)
Definition is_space (c : ascii) : bool :=
  bool_decide (c ∈ [" "; "009"; "010"; "011"; "012"; "013"]%char).

Fixpoint lstrip (s : string) : string :=
  match s with
  | String c s' => if is_space c then lstrip s' else s
  | EmptyString => EmptyString
  end.

Definition ascii_strip (s : string) : string :=
  String.rev (lstrip (String.rev (lstrip s))).

Definition ascii_upper_char (c : ascii) : ascii :=
  let n := nat_of_ascii c in
  if (97 <=? n)%nat && (n <=? 122)%nat then ascii_of_nat (n - 32) else c.

Fixpoint ascii_upper (s : string) : string :=
  match s with
  | String c s' => String (ascii_upper_char c) (ascii_upper s')
  | EmptyString => EmptyString
  end.

(** [s.replace(old, new)] for a non-empty [old]; [fuel] bounds the scan. *)
Fixpoint replace_fuel (fuel : nat) (s old new : string) : string :=
  match fuel with
  | O => s
  | S fuel' =>
      match s with
      | EmptyString => EmptyString
      | String c s' =>
          if String.prefix old s
          then new +:+ replace_fuel fuel'
                         (String.substring (String.length old) (String.length s) s) old new
          else String c (replace_fuel fuel' s' old new)
      end
  end.

Definition ascii_lib : PyLib :=
  {| str_number := λ _, "";
     str_datetime := λ _, "";
     strip := ascii_strip;
     upper := ascii_upper;
     replace := λ s old new, replace_fuel (String.length s) s old new;
     float_of_string := λ _, None;
     strptime := λ _ _, None |}.

(** A sheet row with the two identity cells and the two dates. *)
Definition dated_row (bilyet rekening : string) (penempatan jatuh_tempo : datetime)
  : gmap string cell :=
  <["Nomor Bilyet" := Text bilyet]>
    (<["Nomor Rekening" := Text rekening]>
       (<["Tanggal Penempatan" := Date penempatan]>
          (<["Tanggal Jatuh Tempo" := Date jatuh_tempo]> ∅))).

(** A bank object whose parsers fail on the path ["missing.xlsx"] and read
    one record from any other path, and a service that registers it. *)
Definition sample_parser (path : string) : pyresult (list DepositoRecord.t) :=
  if decide (path = "missing.xlsx")
  then Raise (OtherException "FileNotFoundError" "No such file: missing.xlsx")
  else Ok [sample_record "A1" "001" 10].

Definition sample_bank : BankBase.t :=
  {| BankBase.bank_code := "BTPN";
     BankBase.bank_name := "Bank BTPN Syariah";
     BankBase.parse_bank_data := sample_parser;
     BankBase.parse_bpkh_data := sample_parser |}.

Definition sample_service : MultiRekonService.t :=
  {| MultiRekonService.banks := <["BTPN" := sample_bank]> ∅;
     MultiRekonService.results_cache := ∅ |}.

(** * Verification *)

(** ** Dictionaries *)

Module PyDictFacts.
Section PyDictFacts.
Context {K V : Type} `{EqDecision K}.
Implicit Types (k : K) (v : V) (d : list (K * V)).

Lemma get_None k d : PyDict.get k d = None ↔ k ∉ PyDict.keys d.
Proof.
  unfold PyDict.keys. induction d as [|[k' v'] d IH]; simpl.
  - split; [intros _; apply not_elem_of_nil | done].
  - rewrite not_elem_of_cons. destruct (decide (k = k')) as [->|Hne].
    + split; [done | intros [? _]; done].
    + rewrite IH. tauto.
Qed.

Lemma get_Some_elem k v d : PyDict.get k d = Some v → (k, v) ∈ d.
Proof.
  induction d as [|[k' v'] d IH]; simpl; [done|].
  destruct (decide (k = k')) as [->|Hne].
  - intros [= ->]. apply list_elem_of_here.
  - intros Hg. apply list_elem_of_further. auto.
Qed.

Lemma elem_get_Some k v d :
  NoDup (PyDict.keys d) → (k, v) ∈ d → PyDict.get k d = Some v.
Proof.
  unfold PyDict.keys. induction d as [|[k' v'] d IH]; simpl.
  - intros _ Hin. by apply elem_of_nil in Hin.
  - intros Hnd Hin. apply NoDup_cons in Hnd as [Hk' Hnd].
    apply elem_of_cons in Hin as [[= -> ->]|Hin].
    + by rewrite decide_True.
    + rewrite decide_False; [by apply IH|].
      intros ->. apply Hk'. by apply (list_elem_of_fmap_2 fst) in Hin.
Qed.

Lemma get_set k k' v d :
  PyDict.get k (PyDict.set k' v d) = if decide (k = k') then Some v else PyDict.get k d.
Proof.
  induction d as [|[k0 v0] d IH]; simpl.
  - done.
  - destruct (decide (k' = k0)) as [->|Hne]; simpl.
    + destruct (decide (k = k0)); done.
    + rewrite IH. destruct (decide (k = k0)) as [->|]; [|done].
      by rewrite decide_False.
Qed.

Lemma elem_keys_set k k' v d :
  k ∈ PyDict.keys (PyDict.set k' v d) ↔ k = k' ∨ k ∈ PyDict.keys d.
Proof.
  unfold PyDict.keys. induction d as [|[k0 v0] d IH]; simpl.
  - rewrite list_elem_of_singleton, elem_of_nil. tauto.
  - destruct (decide (k' = k0)) as [->|Hne]; simpl.
    + rewrite !elem_of_cons. tauto.
    + rewrite !elem_of_cons, IH. tauto.
Qed.

Lemma NoDup_keys_set k v d :
  NoDup (PyDict.keys d) → NoDup (PyDict.keys (PyDict.set k v d)).
Proof.
  unfold PyDict.keys. induction d as [|[k0 v0] d IH]; simpl.
  - intros _. apply NoDup_singleton.
  - intros Hnd. apply NoDup_cons in Hnd as [Hk0 Hnd].
    destruct (decide (k = k0)) as [->|Hne]; simpl.
    + by apply NoDup_cons.
    + apply NoDup_cons. split; [|by apply IH].
      intros Hin. apply (elem_keys_set k0 k v d) in Hin as [->|Hin]; done.
Qed.

Lemma filter_all {A} (P : A → Prop) `{∀ x, Decision (P x)} (l : list A) :
  Forall P l → filter P l = l.
Proof.
  induction 1 as [|x l Hx Hl IH]; [done|].
  rewrite filter_cons_True by done. by rewrite IH.
Qed.

(** Under key uniqueness, deleting a key filters it out. *)
Lemma del_filter k d :
  NoDup (PyDict.keys d) → PyDict.del k d = filter (λ kv, kv.1 ≠ k) d.
Proof.
  unfold PyDict.keys. induction d as [|[k0 v0] d IH]; simpl; [done|].
  intros Hnd. apply NoDup_cons in Hnd as [Hk0 Hnd].
  destruct (decide (k = k0)) as [->|Hne].
  - rewrite filter_cons_False by (simpl; intros Hc; by apply Hc).
    symmetry. apply filter_all. apply Forall_forall. intros [k1 v1] Hin Heq.
    simpl in Heq. subst k1. apply Hk0. by apply (list_elem_of_fmap_2 fst) in Hin.
  - rewrite filter_cons_True by (simpl; congruence). by rewrite IH.
Qed.

Lemma get_filter (P : K → Prop) `{∀ x, Decision (P x)} k d :
  PyDict.get k (filter (λ kv, P kv.1) d) = if decide (P k) then PyDict.get k d else None.
Proof.
  induction d as [|[k0 v0] d IH]; simpl.
  - by destruct (decide (P k)).
  - destruct (decide (P k0)) as [Hk0|Hk0].
    + rewrite filter_cons_True by done. simpl. rewrite IH.
      repeat case_decide; simplify_eq; done.
    + rewrite filter_cons_False by done. rewrite IH.
      repeat case_decide; simplify_eq; done.
Qed.

Lemma NoDup_keys_filter (P : K * V → Prop) `{∀ x, Decision (P x)} d :
  NoDup (PyDict.keys d) → NoDup (PyDict.keys (filter P d)).
Proof.
  unfold PyDict.keys. induction d as [|[k0 v0] d IH]; simpl; [done|].
  intros Hnd. apply NoDup_cons in Hnd as [Hk0 Hnd].
  destruct (decide (P (k0, v0))).
  - rewrite filter_cons_True by done. simpl. apply NoDup_cons. split; [|auto].
    intros Hin. apply Hk0. apply list_elem_of_fmap in Hin as ([k1 v1] & -> & Hin).
    apply list_elem_of_filter in Hin as [_ Hin].
    by apply (list_elem_of_fmap_2 fst) in Hin.
  - rewrite filter_cons_False by done. auto.
Qed.

Lemma keys_set_fresh k v d :
  k ∉ PyDict.keys d → PyDict.keys (PyDict.set k v d) = PyDict.keys d ++ [k].
Proof.
  unfold PyDict.keys. induction d as [|[k0 v0] d IH]; simpl; [done|].
  intros [Hne Hk]%not_elem_of_cons.
  rewrite decide_False by done. rewrite fmap_cons. simpl. f_equal. by apply IH.
Qed.

(** *** Dictionary comprehensions *)
Section Comprehension.
Context {A : Type} (f : A → K) (g : A → V).

Lemma comprehension_snoc xs x :
  PyDict.comprehension f g (xs ++ [x])
  = PyDict.set (f x) (g x) (PyDict.comprehension f g xs).
Proof. unfold PyDict.comprehension. by rewrite fold_left_app. Qed.

Lemma NoDup_keys_comprehension xs :
  NoDup (PyDict.keys (PyDict.comprehension f g xs)).
Proof.
  induction xs as [|x xs IH] using rev_ind.
  - apply NoDup_nil_2.
  - rewrite comprehension_snoc. by apply NoDup_keys_set.
Qed.

Lemma elem_keys_comprehension k xs :
  k ∈ PyDict.keys (PyDict.comprehension f g xs) ↔ k ∈ f <$> xs.
Proof.
  induction xs as [|x xs IH] using rev_ind.
  - done.
  - rewrite comprehension_snoc, elem_keys_set, IH, fmap_app, elem_of_app.
    simpl. rewrite list_elem_of_singleton. tauto.
Qed.

(** The entry of a key holds the last element that maps to it. *)
Lemma get_comprehension_last l1 c l2 :
  f c ∉ f <$> l2 →
  PyDict.get (f c) (PyDict.comprehension f g (l1 ++ c :: l2)) = Some (g c).
Proof.
  induction l2 as [|x l2 IH] using rev_ind; intros Hnin.
  - rewrite comprehension_snoc, get_set. by rewrite decide_True.
  - rewrite fmap_app, not_elem_of_app in Hnin. destruct Hnin as [Hnin Hx].
    simpl in Hx. rewrite list_elem_of_singleton in Hx.
    replace (l1 ++ c :: l2 ++ [x]) with ((l1 ++ c :: l2) ++ [x])
      by (by rewrite <- app_assoc).
    rewrite comprehension_snoc, get_set. rewrite decide_False by done. auto.
Qed.

Lemma get_comprehension_Some k v xs :
  PyDict.get k (PyDict.comprehension f g xs) = Some v →
  ∃ l1 c l2, xs = l1 ++ c :: l2 ∧ f c = k ∧ g c = v ∧ k ∉ f <$> l2.
Proof.
  induction xs as [|x xs IH] using rev_ind.
  - done.
  - rewrite comprehension_snoc, get_set.
    destruct (decide (k = f x)) as [->|Hne].
    + intros [= <-]. exists xs, x, []. split_and!; try done. apply not_elem_of_nil.
    + intros Hg. destruct (IH Hg) as (l1 & c & l2 & -> & Hk & Hv & Hnin).
      exists l1, c, (l2 ++ [x]). split_and!; try done.
      * by rewrite <- app_assoc.
      * rewrite fmap_app, not_elem_of_app. split; [done|].
        simpl. by rewrite list_elem_of_singleton.
Qed.
End Comprehension.
End PyDictFacts.
End PyDictFacts.

(** ** The reconciliation loops *)

Section ReconcileFacts.
Variable bank_code : string.
Implicit Types (d : list (key * DepositoRecord.t)) (l : list DepositoRecord.t).

Lemma match_step_pass l rs d :
  fold_left (match_step bank_code) l (rs, d)
  = (rs ++ (pass bank_code l d).1, (pass bank_code l d).2).
Proof.
  revert rs d. induction l as [|p l IH]; intros rs d; simpl.
  - by rewrite app_nil_r.
  - destruct (PyDict.get (record_key p) d) as [c|]; rewrite IH.
    + destruct (pass bank_code l (PyDict.del (record_key p) d)) as [rs' d'].
      simpl. by rewrite <- app_assoc.
    + destruct (pass bank_code l d) as [rs' d']. simpl. by rewrite <- app_assoc.
Qed.

Lemma bank_pass_pass bank bpkh :
  bank_pass bank_code bank bpkh = pass bank_code bank (bpkh_lookup_of bpkh).
Proof.
  unfold bank_pass. rewrite match_step_pass.
  by destruct (pass bank_code bank (bpkh_lookup_of bpkh)).
Qed.

Lemma reconcile_pass bank bpkh :
  reconcile bank_code bank bpkh
  = (pass bank_code bank (bpkh_lookup_of bpkh)).1
    ++ (not_found_bank_result bank_code
          <$> PyDict.values (pass bank_code bank (bpkh_lookup_of bpkh)).2).
Proof.
  unfold reconcile. rewrite bank_pass_pass.
  by destruct (pass bank_code bank (bpkh_lookup_of bpkh)).
Qed.

Lemma pass_cons p l d :
  pass bank_code (p :: l) d
  = let d' := match PyDict.get (record_key p) d with
              | Some _ => PyDict.del (record_key p) d
              | None => d
              end in
    (result_for bank_code p (PyDict.get (record_key p) d) :: (pass bank_code l d').1,
     (pass bank_code l d').2).
Proof.
  simpl. destruct (PyDict.get (record_key p) d) as [c|]; simpl.
  - by destruct (pass bank_code l (PyDict.del (record_key p) d)).
  - by destruct (pass bank_code l d).
Qed.

(** What one step leaves in the lookup. *)
Lemma step_lookup_filter p d :
  NoDup (PyDict.keys d) →
  match PyDict.get (record_key p) d with
  | Some _ => PyDict.del (record_key p) d
  | None => d
  end = filter (λ kv, kv.1 ≠ record_key p) d.
Proof.
  intros Hnd. destruct (PyDict.get (record_key p) d) as [c|] eqn:Hg.
  - by apply PyDictFacts.del_filter.
  - symmetry. apply PyDictFacts.filter_all. apply Forall_forall.
    intros [k v] Hin Heq. simpl in Heq. subst k.
    apply PyDictFacts.get_None in Hg. apply Hg.
    by apply (list_elem_of_fmap_2 fst) in Hin.
Qed.

Lemma pass_fst_length l d : length (pass bank_code l d).1 = length l.
Proof.
  revert d. induction l as [|p l IH]; intros d; [done|].
  rewrite pass_cons. simpl. by rewrite IH.
Qed.

Lemma result_for_key p o : result_key (result_for bank_code p o) = record_key p.
Proof. by destruct o. Qed.

Lemma pass_fst_keys l d : result_key <$> (pass bank_code l d).1 = record_key <$> l.
Proof.
  revert d. induction l as [|p l IH]; intros d; [done|].
  rewrite pass_cons. simpl. by rewrite IH, result_for_key.
Qed.

(** The lookup after the loop: the entries whose key no bank record has. *)
Lemma pass_snd l d :
  NoDup (PyDict.keys d) →
  (pass bank_code l d).2 = filter (λ kv, kv.1 ∉ record_key <$> l) d.
Proof.
  revert d. induction l as [|p l IH]; intros d Hnd.
  - simpl. symmetry. apply PyDictFacts.filter_all, Forall_forall.
    intros ? _. apply not_elem_of_nil.
  - rewrite pass_cons. simpl. rewrite step_lookup_filter by done.
    rewrite IH by (by apply PyDictFacts.NoDup_keys_filter).
    rewrite list_filter_filter. apply list_filter_iff.
    intros [k v]. simpl. rewrite not_elem_of_cons. tauto.
Qed.

(** The result of the bank record at a given position. *)
Lemma pass_fst_lookup pre p post d :
  NoDup (PyDict.keys d) →
  (pass bank_code (pre ++ p :: post) d).1 !! length pre
  = Some (result_for bank_code p
            (if decide (record_key p ∈ record_key <$> pre) then None
             else PyDict.get (record_key p) d)).
Proof.
  revert d. induction pre as [|a pre IH]; intros d Hnd.
  - rewrite app_nil_l, pass_cons. cbn [fst length fmap list_fmap].
    rewrite decide_False by apply not_elem_of_nil. done.
  - rewrite <- app_comm_cons, pass_cons. cbn [fst length].
    rewrite step_lookup_filter by done.
    change ((?x :: ?l) !! S ?n) with (l !! n).
    rewrite IH by (by apply PyDictFacts.NoDup_keys_filter).
    f_equal. f_equal. rewrite fmap_cons.
    pose proof (PyDictFacts.get_filter (λ k, k ≠ record_key a) (record_key p) d) as Hgf.
    simpl in Hgf. rewrite Hgf. clear Hgf.
    repeat case_decide; try done.
    + exfalso. rewrite elem_of_cons in *. tauto.
    + exfalso. rewrite elem_of_cons in *. tauto.
    + exfalso. rewrite elem_of_cons in *. tauto.
Qed.

Lemma NoDup_bpkh_lookup bpkh : NoDup (PyDict.keys (bpkh_lookup_of bpkh)).
Proof. apply PyDictFacts.NoDup_keys_comprehension. Qed.

Lemma elem_keys_bpkh_lookup k bpkh :
  k ∈ PyDict.keys (bpkh_lookup_of bpkh) ↔ k ∈ record_key <$> bpkh.
Proof. apply PyDictFacts.elem_keys_comprehension. Qed.

(** The result [reconcile] gives for the bank record at position [length pre]. *)
Lemma reconcile_lookup_bank pre p post bpkh :
  reconcile bank_code (pre ++ p :: post) bpkh !! length pre
  = Some (result_for bank_code p
            (if decide (record_key p ∈ record_key <$> pre) then None
             else PyDict.get (record_key p) (bpkh_lookup_of bpkh))).
Proof.
  rewrite reconcile_pass, lookup_app_l.
  - apply pass_fst_lookup, NoDup_bpkh_lookup.
  - rewrite pass_fst_length, length_app. simpl. lia.
Qed.

(** Every entry of the lookup is filed under the key of its record. *)
Lemma bpkh_lookup_keyed bpkh :
  Forall (λ kv, kv.1 = record_key kv.2) (bpkh_lookup_of bpkh).
Proof.
  apply Forall_forall. intros [k v] Hin. simpl.
  apply PyDictFacts.elem_get_Some in Hin; [|apply NoDup_bpkh_lookup].
  apply PyDictFacts.get_comprehension_Some in Hin
    as (l1 & c & l2 & _ & Hk & Hv & _).
  unfold id in Hv. by subst.
Qed.

Lemma leftover_keys (P : key → Prop) `{∀ k, Decision (P k)} d :
  Forall (λ kv, kv.1 = record_key kv.2) d →
  result_key <$> (not_found_bank_result bank_code
                    <$> PyDict.values (filter (λ kv, P kv.1) d))
  = filter P (PyDict.keys d).
Proof.
  unfold PyDict.values, PyDict.keys.
  induction 1 as [|[k v] d Hkv Hd IH]; [done|].
  rewrite fmap_cons. cbn [fst]. simpl in Hkv. destruct (decide (P k)).
  - rewrite (filter_cons_True P) by done.
    rewrite (filter_cons_True (λ kv : key * DepositoRecord.t, P kv.1)) by done.
    rewrite !fmap_cons. rewrite IH. by rewrite Hkv.
  - rewrite (filter_cons_False P) by done.
    rewrite (filter_cons_False (λ kv : key * DepositoRecord.t, P kv.1)) by done.
    done.
Qed.

(** The keys of the results, in order. *)
Lemma reconcile_keys bank bpkh :
  result_key <$> reconcile bank_code bank bpkh
  = (record_key <$> bank)
    ++ filter (λ k, k ∉ record_key <$> bank) (PyDict.keys (bpkh_lookup_of bpkh)).
Proof.
  rewrite reconcile_pass, fmap_app, pass_fst_keys. f_equal.
  rewrite pass_snd by apply NoDup_bpkh_lookup.
  exact (leftover_keys (λ k, k ∉ record_key <$> bank) _ (bpkh_lookup_keyed bpkh)).
Qed.

(** The unconsumed records: the last record of each key no bank record has. *)
Lemma elem_unconsumed c bank bpkh :
  c ∈ unconsumed bank_code bank bpkh ↔
  ((record_key c ∉ record_key <$> bank)
   ∧ ∃ l1 l2, bpkh = l1 ++ c :: l2 ∧ record_key c ∉ record_key <$> l2).
Proof.
  unfold unconsumed. rewrite bank_pass_pass, pass_snd by apply NoDup_bpkh_lookup.
  unfold PyDict.values. rewrite list_elem_of_fmap. split.
  - intros ([k v] & -> & Hin). simpl.
    apply list_elem_of_filter in Hin as [Hk Hin]. simpl in Hk.
    apply PyDictFacts.elem_get_Some in Hin; [|apply NoDup_bpkh_lookup].
    apply PyDictFacts.get_comprehension_Some in Hin
      as (l1 & c & l2 & -> & Hkc & Hvc & Hnin).
    unfold id in Hvc. subst. eauto.
  - intros (Hk & l1 & l2 & -> & Hnin). exists (record_key c, c). split; [done|].
    apply list_elem_of_filter. split; [done|].
    apply PyDictFacts.get_Some_elem.
    by apply (PyDictFacts.get_comprehension_last record_key id).
Qed.

Lemma bpkh_lookup_get_None k bpkh :
  k ∉ record_key <$> bpkh → PyDict.get k (bpkh_lookup_of bpkh) = None.
Proof.
  intros Hk. apply PyDictFacts.get_None. by rewrite elem_keys_bpkh_lookup.
Qed.

(** A key of the BPKH input is looked up to the last record that has it. *)
Lemma bpkh_lookup_get_Some k bpkh :
  k ∈ record_key <$> bpkh →
  ∃ l1 c l2, bpkh = l1 ++ c :: l2 ∧ record_key c = k ∧ (k ∉ record_key <$> l2)
             ∧ PyDict.get k (bpkh_lookup_of bpkh) = Some c.
Proof.
  intros Hk. destruct (PyDict.get k (bpkh_lookup_of bpkh)) as [c|] eqn:Hg.
  - destruct (PyDictFacts.get_comprehension_Some record_key id k c bpkh Hg)
      as (l1 & c' & l2 & -> & Hkc & Hvc & Hnin).
    unfold id in Hvc. subst c'. exists l1, c, l2. done.
  - apply PyDictFacts.get_None in Hg. exfalso. apply Hg.
    by apply elem_keys_bpkh_lookup.
Qed.

Lemma bpkh_lookup_get_last l1 c l2 :
  record_key c ∉ record_key <$> l2 →
  PyDict.get (record_key c) (bpkh_lookup_of (l1 ++ c :: l2)) = Some c.
Proof. apply (PyDictFacts.get_comprehension_last record_key id). Qed.

(** The position of an unconsumed record's result. *)
Lemma reconcile_lookup_unconsumed bank bpkh i c :
  unconsumed bank_code bank bpkh !! i = Some c →
  reconcile bank_code bank bpkh !! (length bank + i)%nat
  = Some (not_found_bank_result bank_code c).
Proof.
  intros Hi. rewrite reconcile_pass, lookup_app_r; rewrite pass_fst_length; [|lia].
  replace (length bank + i - length bank)%nat with i by lia.
  rewrite list_lookup_fmap. unfold unconsumed in Hi.
  rewrite bank_pass_pass in Hi. by rewrite Hi.
Qed.

(** The results of the first loop never carry the status of the second. *)
Lemma result_for_status p o :
  RekonResult.status (result_for bank_code p o) ≠ NOT_FOUND_BANK.
Proof.
  destruct o as [c|]; simpl; [|done].
  by destruct (Qlt_le_dec _ _).
Qed.

Lemma pass_fst_status l d r :
  r ∈ (pass bank_code l d).1 → RekonResult.status r ≠ NOT_FOUND_BANK.
Proof.
  revert d. induction l as [|p l IH]; intros d.
  - simpl. intros Hin. by apply elem_of_nil in Hin.
  - rewrite pass_cons. cbn [fst]. intros [->|Hin]%elem_of_cons.
    + apply result_for_status.
    + by apply IH in Hin.
Qed.
End ReconcileFacts.

(** ** Rounding and accrual *)

Section Rounding.
Lemma round_half_even_bounds (x : Q) :
  Qfloor x ≤ round_half_even x ≤ Qfloor x + 1.
Proof.
  unfold round_half_even.
  destruct (_ ?= _)%Q; [destruct (Z.even _)|..]; lia.
Qed.

Lemma round_half_even_mono (x y : Q) :
  (x <= y)%Q → round_half_even x ≤ round_half_even y.
Proof.
  intros Hxy. pose proof (Qfloor_resp_le x y Hxy) as Hfl.
  destruct (decide (Qfloor x = Qfloor y)) as [Heq|Hne].
  - unfold round_half_even. rewrite <- Heq.
    destruct (Qcompare_spec (x - inject_Z (Qfloor x)) (1 # 2)) as [Hx|Hx|Hx];
      destruct (Qcompare_spec (y - inject_Z (Qfloor x)) (1 # 2)) as [Hy|Hy|Hy];
      try destruct (Z.even (Qfloor x)); try lia; exfalso; lra.
  - pose proof (round_half_even_bounds x). pose proof (round_half_even_bounds y). lia.
Qed.

Lemma round2_mono (x y : Q) : (x <= y)%Q → (round2 x <= round2 y)%Q.
Proof.
  intros Hxy. unfold round2, Qle. simpl.
  apply Z.mul_le_mono_nonneg_r; [lia|].
  apply round_half_even_mono. lra.
Qed.

Lemma round2_nonneg (x : Q) : (0 <= x)%Q → (0 <= round2 x)%Q.
Proof.
  intros Hx. apply (Qle_trans _ (round2 0)); [|by apply round2_mono].
  by vm_compute.
Qed.
End Rounding.

(** ** Expected yield *)

Section ExpectedYield.
Lemma accrual_mono (config : BankConfig.t) (record1 record2 : DepositoRecord.t)
    (nisbah : Q) (d1 d2 : Z) :
  BankConfig.year_days config = 360 →
  DepositoRecord.nominal_deposito record1 = DepositoRecord.nominal_deposito record2 →
  (0 <= DepositoRecord.nominal_deposito record1)%Q → (0 <= nisbah)%Q → d1 ≤ d2 →
  (accrual config record1 nisbah d1 <= accrual config record2 nisbah d2)%Q.
Proof.
  intros Hyd Hp Hp0 Hn Hd. unfold accrual. rewrite Hyd, <- Hp.
  apply Qmult_le_compat_r; [|by vm_compute].
  rewrite !(Qmult_comm (_ * nisbah)).
  apply Qmult_le_compat_r; [by rewrite <- Zle_Qle | by apply Qmult_le_0_compat].
Qed.

Lemma accrual_nonneg (config : BankConfig.t) (record : DepositoRecord.t)
    (nisbah : Q) (d : Z) :
  BankConfig.year_days config = 360 →
  (0 <= DepositoRecord.nominal_deposito record)%Q → (0 <= nisbah)%Q → 0 ≤ d →
  (0 <= accrual config record nisbah d)%Q.
Proof.
  intros Hyd Hp0 Hn Hd. unfold accrual. rewrite Hyd.
  apply Qmult_le_0_compat; [|by vm_compute].
  apply Qmult_le_0_compat; [by apply Qmult_le_0_compat|].
  change 0%Q with (inject_Z 0). by rewrite <- Zle_Qle.
Qed.

Lemma no_period_Some (d : Z) : no_period (Some d) = bool_decide (d ≤ 0).
Proof.
  unfold no_period. destruct (Z.eqb_spec d 0), (Z.leb_spec d 0);
    simpl; symmetry; try (by apply bool_decide_eq_true; lia).
  apply bool_decide_eq_false. lia.
Qed.

(** The rate each adapter uses is non-negative when the record's own
    rate, if any, is. *)
Lemma table_rate_nonneg (a : Adapter) (category : DepositoType) :
  (0 <= rates_get (BankConfig.nisbah_rates (adapter_config a))
          (DepositoType_value category) (fallback_rate a))%Q.
Proof. destruct a, category; by vm_compute. Qed.
End ExpectedYield.

(** ** Binary64 rounding *)

Section Binary64.











End Binary64.

(** ** Claims about [reconcile] *)

(** C1. When no two records of the same input share a key, [reconcile]
    returns exactly one result per key of either input: the result keys
    are pairwise distinct, they are the keys of the two inputs, and their
    number is the size of the union of the two key sets. *)
Theorem reconcile_one_result_per_key (bank_code : string)
    (bank_records bpkh_records : list DepositoRecord.t) :
  NoDup (record_key <$> bank_records) →
  NoDup (record_key <$> bpkh_records) →
  NoDup (result_key <$> reconcile bank_code bank_records bpkh_records)
  ∧ (∀ k, k ∈ result_key <$> reconcile bank_code bank_records bpkh_records
          ↔ k ∈ record_key <$> bank_records ∨ k ∈ record_key <$> bpkh_records)
  ∧ length (reconcile bank_code bank_records bpkh_records)
    = size ((list_to_set (record_key <$> bank_records) : gset key)
            ∪ list_to_set (record_key <$> bpkh_records)).
Proof.
  intros Hbank _.
  assert (Hmem : ∀ k, k ∈ result_key <$> reconcile bank_code bank_records bpkh_records
          ↔ k ∈ record_key <$> bank_records ∨ k ∈ record_key <$> bpkh_records).
  { intros k. rewrite reconcile_keys, elem_of_app, list_elem_of_filter.
    rewrite elem_keys_bpkh_lookup.
    destruct (decide (k ∈ record_key <$> bank_records)); tauto. }
  assert (Hnd : NoDup (result_key <$> reconcile bank_code bank_records bpkh_records)).
  { rewrite reconcile_keys. apply NoDup_app. split_and!.
    - done.
    - intros k Hk Hk'. apply list_elem_of_filter in Hk' as [Hk' _]. done.
    - apply NoDup_filter, NoDup_bpkh_lookup. }
  split_and!; [done..|].
  rewrite <- (length_fmap result_key).
  rewrite <- (size_list_to_set (C:=gset key)) by done.
  f_equal. apply set_eq. intros k.
  rewrite elem_of_list_to_set, Hmem, elem_of_union, !elem_of_list_to_set. done.
Qed.

Lemma reconcile_one_result_per_key_witness :
  length (reconcile "BTPN"
            [sample_record "A1" "001" 10; sample_record "B2" "002" 50]
            [sample_record "A1" "001" 10; sample_record "C3" "003" 20])
  = size ((list_to_set [("A1", "001"); ("B2", "002")] : gset key)
          ∪ list_to_set [("A1", "001"); ("C3", "003")]).
Proof.
  apply (reconcile_one_result_per_key "BTPN"
           [sample_record "A1" "001" 10; sample_record "B2" "002" 50]
           [sample_record "A1" "001" 10; sample_record "C3" "003" 20]).
  - by apply (bool_decide_unpack _); vm_compute.
  - by apply (bool_decide_unpack _); vm_compute.
Defined.



(** The tolerance at work: the yields 1 and [2^-60] differ by less than 1,
    and so do the binary64 numbers nearest to 1.18 and 0.18, but in both
    cases the difference the code computes is 1.0 and the status is
    [DIFFERENCE]; the yields 10 and 9.5 are [MATCHED]. *)
Example status_at_the_tolerance :
  (Qabs (1 - (1 # 2 ^ 60)) < 1)%Q
  ∧ (Qabs (round64 (118 # 100) - round64 (18 # 100)) < 1)%Q
  ∧ RekonResult.status
      <$> reconcile "BTPN"
            [sample_record "A1" "001" 1;
             sample_record "B2" "002" (round64 (118 # 100));
             sample_record "C3" "003" 10]
            [sample_record "A1" "001" (1 # 2 ^ 60);
             sample_record "B2" "002" (round64 (18 # 100));
             sample_record "C3" "003" (95 # 10)]
    = [DIFFERENCE; DIFFERENCE; MATCHED].
Proof. split_and!; by vm_compute. Qed.


(** C3, as the code has it.  When several BPKH records share a key, the
    lookup keeps the last of them: the first bank record with that key is
    matched against the last such BPKH record, and the second loop emits no
    not-found-in-bank result for that key, so the earlier duplicates
    produce no result at all. *)
Theorem duplicate_bpkh_key_last_wins (bank_code : string)
    (pre : list DepositoRecord.t) (p : DepositoRecord.t) (post : list DepositoRecord.t)
    (l1 : list DepositoRecord.t) (c : DepositoRecord.t) (l2 : list DepositoRecord.t) :
  record_key p ∉ record_key <$> pre →
  record_key c = record_key p →
  record_key c ∉ record_key <$> l2 →
  reconcile bank_code (pre ++ p :: post) (l1 ++ c :: l2) !! length pre
  = Some (matched_result bank_code p c)
  ∧ ∀ r, r ∈ reconcile bank_code (pre ++ p :: post) (l1 ++ c :: l2) →
         RekonResult.status r = NOT_FOUND_BANK → result_key r ≠ record_key p.
Proof.
  intros Hfirst Hkey Hlast. split.
  - rewrite reconcile_lookup_bank, decide_False by done.
    by rewrite <- Hkey, bpkh_lookup_get_last.
  - intros r Hr Hst Hk. rewrite reconcile_pass in Hr.
    apply elem_of_app in Hr as [Hr|Hr].
    + by apply pass_fst_status in Hr.
    + apply list_elem_of_fmap in Hr as (c' & -> & Hc').
      rewrite <- bank_pass_pass in Hc'.
      apply (elem_unconsumed bank_code) in Hc' as [Hc' _].
      apply Hc'. change (result_key (not_found_bank_result bank_code c'))
        with (record_key c') in Hk. rewrite Hk.
      rewrite fmap_app, elem_of_app. right. apply list_elem_of_here.
Qed.

Lemma duplicate_bpkh_key_last_wins_witness :
  reconcile "BTPN" ([] ++ sample_record "A1" "001" 10 :: [])
    ([sample_record "A1" "001" 10] ++ sample_record "A1" "001" 20 :: [])
    !! length ([] : list DepositoRecord.t)
  = Some (matched_result "BTPN" (sample_record "A1" "001" 10) (sample_record "A1" "001" 20))
  ∧ ∀ r, r ∈ reconcile "BTPN" ([] ++ sample_record "A1" "001" 10 :: [])
               ([sample_record "A1" "001" 10] ++ sample_record "A1" "001" 20 :: []) →
         RekonResult.status r = NOT_FOUND_BANK →
         result_key r ≠ record_key (sample_record "A1" "001" 10).
Proof.
  apply (duplicate_bpkh_key_last_wins "BTPN" [] (sample_record "A1" "001" 10) []
           [sample_record "A1" "001" 10] (sample_record "A1" "001" 20) []).
  - apply not_elem_of_nil.
  - reflexivity.
  - apply not_elem_of_nil.
Defined.

(** C3 fails as stated: with two BPKH records of one key (yields 10, then
    20) and one bank record of that key (yield 10), the only result
    compares the bank record with the second BPKH record (a difference of
    10), and neither BPKH record is emitted as not found in bank. *)
Lemma duplicate_bpkh_key_first_dropped :
  (λ r, (RekonResult.imbal_hasil_bpkh r, RekonResult.status r))
    <$> reconcile "BTPN"
          [sample_record "A1" "001" 10]
          [sample_record "A1" "001" 10; sample_record "A1" "001" 20]
  = [(20%Q, DIFFERENCE)].
Proof. vm_compute. reflexivity. Qed.

(** C4, as the code has it.  A bank record whose key no BPKH record has
    gets, at its position, a result with BPKH yield 0, variance equal to
    its own yield, percentage 100 and status not-found-in-BPKH.  A BPKH
    record that is the last of the BPKH input with its key, and whose key
    no bank record has, gets, after the results of the bank records, a
    result with bank yield 0, variance minus its yield, percentage -100 and
    status not-found-in-bank.  These are the only not-found-in-bank
    results: a BPKH record that shares its key with a later BPKH record
    gets no result, whether or not a bank record has the key. *)
Theorem unmatched_records_results (bank_code : string) :
  (∀ pre p post bpkh_records,
     record_key p ∉ record_key <$> bpkh_records →
     ∃ r, reconcile bank_code (pre ++ p :: post) bpkh_records !! length pre = Some r
          ∧ result_key r = record_key p
          ∧ RekonResult.imbal_hasil_bank r = DepositoRecord.nominal_imbal_hasil p
          ∧ RekonResult.imbal_hasil_bpkh r = 0%Q
          ∧ RekonResult.selisih r = DepositoRecord.nominal_imbal_hasil p
          ∧ RekonResult.persentase_selisih r = 100%Q
          ∧ RekonResult.status r = NOT_FOUND_BPKH)
  ∧ (∀ bank_records l1 c l2,
       record_key c ∉ record_key <$> bank_records →
       record_key c ∉ record_key <$> l2 →
       ∃ i r, reconcile bank_code bank_records (l1 ++ c :: l2)
                !! (length bank_records + i)%nat = Some r
              ∧ result_key r = record_key c
              ∧ RekonResult.nominal_deposito r = DepositoRecord.nominal_deposito c
              ∧ RekonResult.imbal_hasil_bank r = 0%Q
              ∧ RekonResult.imbal_hasil_bpkh r = DepositoRecord.nominal_imbal_hasil c
              ∧ RekonResult.selisih r = (- DepositoRecord.nominal_imbal_hasil c)%Q
              ∧ RekonResult.persentase_selisih r = (-100)%Q
              ∧ RekonResult.status r = NOT_FOUND_BANK)
  ∧ (∀ bank_records bpkh_records r,
       r ∈ reconcile bank_code bank_records bpkh_records →
       RekonResult.status r = NOT_FOUND_BANK →
       ∃ l1 c l2,
         bpkh_records = l1 ++ c :: l2
         ∧ (record_key c ∉ record_key <$> bank_records)
         ∧ (record_key c ∉ record_key <$> l2)
         ∧ result_key r = record_key c
         ∧ RekonResult.nominal_deposito r = DepositoRecord.nominal_deposito c
         ∧ RekonResult.imbal_hasil_bpkh r = DepositoRecord.nominal_imbal_hasil c).
Proof.
  split_and!.
  - intros pre p post bpkh_records Hk.
    exists (not_found_bpkh_result bank_code p).
    rewrite reconcile_lookup_bank, bpkh_lookup_get_None by done.
    split_and!; try done. by destruct (decide _).
  - intros bank_records l1 c l2 Hbank Hlast.
    assert (Hc : c ∈ unconsumed bank_code bank_records (l1 ++ c :: l2)).
    { apply elem_unconsumed. split; [done|]. by exists l1, l2. }
    apply list_elem_of_lookup in Hc as [i Hi].
    exists i, (not_found_bank_result bank_code c).
    by rewrite (reconcile_lookup_unconsumed _ _ _ _ _ Hi).
  - intros bank_records bpkh_records r Hr Hst.
    rewrite reconcile_pass in Hr. apply elem_of_app in Hr as [Hr|Hr].
    + by apply pass_fst_status in Hr.
    + apply list_elem_of_fmap in Hr as (c & -> & Hc).
      assert (Hu : c ∈ unconsumed bank_code bank_records bpkh_records).
      { unfold unconsumed. by rewrite bank_pass_pass. }
      apply elem_unconsumed in Hu as (Hbank & l1 & l2 & -> & Hlast).
      by exists l1, c, l2.
Qed.

Lemma unmatched_records_results_witness :
  (∃ r, reconcile "BTPN"
          ([] ++ sample_record "B2" "002" 50 :: [sample_record "A1" "001" 10])
          [sample_record "A1" "001" 10; sample_record "C3" "003" 5;
           sample_record "C3" "003" 20]
          !! length ([] : list DepositoRecord.t) = Some r
        ∧ RekonResult.selisih r = 50%Q
        ∧ RekonResult.persentase_selisih r = 100%Q
        ∧ RekonResult.status r = NOT_FOUND_BPKH)
  ∧ (∃ i r, reconcile "BTPN"
              [sample_record "B2" "002" 50; sample_record "A1" "001" 10]
              ([sample_record "A1" "001" 10; sample_record "C3" "003" 5]
               ++ sample_record "C3" "003" 20 :: [])
              !! (2 + i)%nat = Some r
            ∧ RekonResult.selisih r = (- 20)%Q
            ∧ RekonResult.persentase_selisih r = (-100)%Q
            ∧ RekonResult.status r = NOT_FOUND_BANK).
Proof.
  destruct (unmatched_records_results "BTPN") as (Hbank & Hbpkh & _). split.
  - destruct (Hbank [] (sample_record "B2" "002" 50) [sample_record "A1" "001" 10]
                [sample_record "A1" "001" 10; sample_record "C3" "003" 5;
                 sample_record "C3" "003" 20])
      as (r & Hr & _ & _ & _ & Hs & Hp & Hst).
    + by apply (bool_decide_unpack _); vm_compute.
    + exists r. by rewrite Hs.
  - destruct (Hbpkh [sample_record "B2" "002" 50; sample_record "A1" "001" 10]
                [sample_record "A1" "001" 10; sample_record "C3" "003" 5]
                (sample_record "C3" "003" 20) [])
      as (i & r & Hr & _ & _ & _ & _ & Hs & Hp & Hst).
    + by apply (bool_decide_unpack _); vm_compute.
    + apply not_elem_of_nil.
    + exists i, r. by rewrite Hs.
Defined.

(** C4 fails as stated: of two BPKH records with the same key that no bank
    record has, none is consumed by the bank loop, yet only the second gets
    a not-found-in-bank result; the first (yield 10) gets no result. *)
Lemma unconsumed_duplicate_gets_no_result :
  (record_key (sample_record "A1" "001" 10) ∉ record_key <$> ([] : list DepositoRecord.t))
  ∧ (λ r, (result_key r, RekonResult.imbal_hasil_bpkh r, RekonResult.status r))
      <$> reconcile "BTPN" []
            [sample_record "A1" "001" 10; sample_record "A1" "001" 20]
    = [(("A1", "001"), 20%Q, NOT_FOUND_BANK)].
Proof.
  split.
  - apply not_elem_of_nil.
  - vm_compute. reflexivity.
Qed.

(** C5, as the code has it.  For a key-matched pair whose bank-side yield
    is zero, the variance percentage of the result is 0, whatever the
    BPKH-side yield is. *)
Theorem zero_bank_yield_percentage (bank_code : string)
    (pre : list DepositoRecord.t) (p : DepositoRecord.t)
    (post bpkh_records : list DepositoRecord.t) :
  record_key p ∉ record_key <$> pre →
  record_key p ∈ record_key <$> bpkh_records →
  (DepositoRecord.nominal_imbal_hasil p == 0)%Q →
  ∃ r c,
    reconcile bank_code (pre ++ p :: post) bpkh_records !! length pre = Some r
    ∧ c ∈ bpkh_records ∧ record_key c = record_key p
    ∧ RekonResult.imbal_hasil_bpkh r = DepositoRecord.nominal_imbal_hasil c
    ∧ RekonResult.selisih r
      = (DepositoRecord.nominal_imbal_hasil p - DepositoRecord.nominal_imbal_hasil c)%Q
    ∧ RekonResult.persentase_selisih r = 0%Q.
Proof.
  intros Hfirst Hin Hzero.
  destruct (bpkh_lookup_get_Some (record_key p) bpkh_records Hin)
    as (l1 & c & l2 & Hsplit & Hkc & _ & Hget).
  exists (matched_result bank_code p c), c.
  rewrite reconcile_lookup_bank, decide_False, Hget by done.
  split_and!; try done.
  - subst bpkh_records. apply elem_of_app. right. apply list_elem_of_here.
  - simpl. apply Qeq_bool_iff in Hzero. by rewrite Hzero.
Qed.

Lemma zero_bank_yield_percentage_witness :
  ∃ r c,
    reconcile "BTPN" ([] ++ sample_record "A1" "001" 0 :: [])
      [sample_record "A1" "001" 5] !! length ([] : list DepositoRecord.t) = Some r
    ∧ c ∈ [sample_record "A1" "001" 5]
    ∧ record_key c = record_key (sample_record "A1" "001" 0)
    ∧ RekonResult.imbal_hasil_bpkh r = DepositoRecord.nominal_imbal_hasil c
    ∧ RekonResult.selisih r
      = (DepositoRecord.nominal_imbal_hasil (sample_record "A1" "001" 0)
         - DepositoRecord.nominal_imbal_hasil c)%Q
    ∧ RekonResult.persentase_selisih r = 0%Q.
Proof.
  apply (zero_bank_yield_percentage "BTPN" [] (sample_record "A1" "001" 0) []
           [sample_record "A1" "001" 5]).
  - apply not_elem_of_nil.
  - apply list_elem_of_here.
  - reflexivity.
Defined.

(** C5 fails as stated: a bank record with yield 0 matched by key with a
    BPKH record with yield 5 gives a result of status [DIFFERENCE] whose
    percentage is 0, not 100. *)
Lemma zero_bank_yield_not_100 :
  (λ r, (RekonResult.imbal_hasil_bank r, RekonResult.imbal_hasil_bpkh r,
         RekonResult.status r, RekonResult.persentase_selisih r))
    <$> reconcile "BTPN" [sample_record "A1" "001" 0] [sample_record "A1" "001" 5]
  = [(0%Q, 5%Q, DIFFERENCE, 0%Q)]
  ∧ ¬ (0 == 100)%Q.
Proof. split; [vm_compute; reflexivity | discriminate]. Qed.

(** The three single-record scenarios of the specification. *)
Example scenario_matched :
  (λ r, (RekonResult.status r, RekonResult.selisih r))
    <$> reconcile "BTPN" [sample_record "A1" "001" 10] [sample_record "A1" "001" 10]
  = [(MATCHED, (10 - 10)%Q)].
Proof. reflexivity. Qed.

Example scenario_bank_only :
  (λ r, (RekonResult.status r, RekonResult.selisih r, RekonResult.persentase_selisih r))
    <$> reconcile "BTPN" [sample_record "B2" "002" 50] []
  = [(NOT_FOUND_BPKH, 50%Q, 100%Q)].
Proof. reflexivity. Qed.

Example scenario_bpkh_only :
  (λ r, (RekonResult.status r, RekonResult.selisih r, RekonResult.persentase_selisih r))
    <$> reconcile "BTPN" [] [sample_record "C3" "003" 20]
  = [(NOT_FOUND_BANK, (- 20)%Q, (-100)%Q)].
Proof. reflexivity. Qed.

Section ExpectedYieldClaims.
(** The rate the BTPN adapter takes for a record. *)
Lemma btpn_rate_nonneg (record : DepositoRecord.t) :
  (∀ r, DepositoRecord.nisbah_rate record = Some r → (0 <= r)%Q) →
  (0 <= match DepositoRecord.nisbah_rate record with
        | Some r =>
            if Qeq_bool r 0
            then rates_get (BankConfig.nisbah_rates BankBTPN.config)
                   (DepositoType_value (DepositoRecord.jenis_deposito record)) (9 # 100)
            else r
        | None =>
            rates_get (BankConfig.nisbah_rates BankBTPN.config)
              (DepositoType_value (DepositoRecord.jenis_deposito record)) (9 # 100)
        end)%Q.
Proof.
  intros Hr. destruct (DepositoRecord.nisbah_rate record) as [r|].
  - destruct (Qeq_bool r 0); [apply (table_rate_nonneg BTPN) | by apply Hr].
  - apply (table_rate_nonneg BTPN).
Qed.

Lemma expected_cases (finish : Q → Q) (config : BankConfig.t)
    (record : DepositoRecord.t) (nisbah : Q) (d1 d2 : Z) :
  (∀ x y, (x <= y)%Q → (finish x <= finish y)%Q) →
  (∀ x, (0 <= x)%Q → (0 <= finish x)%Q) →
  BankConfig.year_days config = 360 →
  (0 <= DepositoRecord.nominal_deposito record)%Q → (0 <= nisbah)%Q → d1 ≤ d2 →
  ((if no_period (Some d1) then 0
    else finish (accrual config (with_periode_hari record (Some d1)) nisbah d1))
   <= (if no_period (Some d2) then 0
       else finish (accrual config (with_periode_hari record (Some d2)) nisbah d2)))%Q.
Proof.
  intros Hmono Hnn Hyd Hp Hn Hd. rewrite !no_period_Some.
  repeat case_bool_decide; try lia.
  - apply Qle_refl.
  - apply Hnn, accrual_nonneg; try done. lia.
  - apply Hmono, accrual_mono; done.
Qed.
End ExpectedYieldClaims.

(** C8. For a record with non-negative principal and, where it declares
    one, non-negative rate, the expected yield of every adapter is
    non-decreasing in the holding period, and it is 0 when the holding
    period is absent or not positive. *)
Theorem expected_yield_monotone (a : Adapter) (record : DepositoRecord.t) :
  (0 <= DepositoRecord.nominal_deposito record)%Q →
  (∀ r, DepositoRecord.nisbah_rate record = Some r → (0 <= r)%Q) →
  (∀ d1 d2 : Z, d1 ≤ d2 →
     (calculate_expected_imbal_hasil a (with_periode_hari record (Some d1))
      <= calculate_expected_imbal_hasil a (with_periode_hari record (Some d2)))%Q)
  ∧ calculate_expected_imbal_hasil a (with_periode_hari record None) = 0%Q
  ∧ (∀ d : Z, d ≤ 0 →
       calculate_expected_imbal_hasil a (with_periode_hari record (Some d)) = 0%Q).
Proof.
  intros Hp Hr. split_and!.
  - intros d1 d2 Hd. destruct a.
    + apply (expected_cases round2); auto using round2_mono, round2_nonneg.
      by apply btpn_rate_nonneg.
    + apply (expected_cases round2); auto using round2_mono, round2_nonneg.
      apply (table_rate_nonneg BPS).
    + apply (expected_cases id); auto. apply (table_rate_nonneg BNIS).
    + apply (expected_cases id); auto. apply (table_rate_nonneg MSI).
  - by destruct a.
  - intros d Hd. destruct a;
      unfold calculate_expected_imbal_hasil, BankBTPN.calculate_expected_imbal_hasil,
        BankBPS.calculate_expected_imbal_hasil,
        BankBNISyariah.calculate_expected_imbal_hasil,
        BankMandiriSyariah.calculate_expected_imbal_hasil;
      cbn [with_periode_hari DepositoRecord.periode_hari];
      by rewrite no_period_Some, bool_decide_eq_true_2.
Qed.

Lemma expected_yield_monotone_witness :
  Qle
    (calculate_expected_imbal_hasil BTPN (with_periode_hari (rated_record None None) (Some 30)))
    (calculate_expected_imbal_hasil BTPN (with_periode_hari (rated_record None None) (Some 90))).
Proof.
  apply (expected_yield_monotone BTPN (rated_record None None)).
  - by vm_compute.
  - intros r Hr. discriminate Hr.
  - lia.
Defined.

(** C6, as the code has it.  For a record with a positive holding period
    [d]: the BTPN adapter takes the record's own rate when it is present
    and not zero, and otherwise the rate table entry of the record's
    category, with 0.09 as fallback; the BPS, BNI and Mandiri adapters
    never consult the record's own rate and take the table entry of the
    category, with their own fallback constant. *)
Theorem adapter_rate_selection (record : DepositoRecord.t) (d : Z) :
  DepositoRecord.periode_hari record = Some d → 0 < d →
  (∀ r, DepositoRecord.nisbah_rate record = Some r → ¬ (r == 0)%Q →
     calculate_expected_imbal_hasil BTPN record
     = round2 (accrual BankBTPN.config record
                 (spec_rate (Some r) (BankConfig.nisbah_rates BankBTPN.config)
                    (DepositoRecord.jenis_deposito record) (fallback_rate BTPN)) d))
  ∧ ((DepositoRecord.nisbah_rate record = None
      ∨ ∃ r, DepositoRecord.nisbah_rate record = Some r ∧ (r == 0)%Q) →
     calculate_expected_imbal_hasil BTPN record
     = round2 (accrual BankBTPN.config record
                 (spec_rate None (BankConfig.nisbah_rates BankBTPN.config)
                    (DepositoRecord.jenis_deposito record) (fallback_rate BTPN)) d))
  ∧ calculate_expected_imbal_hasil BPS record
    = round2 (accrual BankBPS.config record
                (spec_rate None (BankConfig.nisbah_rates BankBPS.config)
                   (DepositoRecord.jenis_deposito record) (fallback_rate BPS)) d)
  ∧ calculate_expected_imbal_hasil BNIS record
    = accrual BankBNISyariah.config record
        (spec_rate None (BankConfig.nisbah_rates BankBNISyariah.config)
           (DepositoRecord.jenis_deposito record) (fallback_rate BNIS)) d
  ∧ calculate_expected_imbal_hasil MSI record
    = accrual BankMandiriSyariah.config record
        (spec_rate None (BankConfig.nisbah_rates BankMandiriSyariah.config)
           (DepositoRecord.jenis_deposito record) (fallback_rate MSI)) d.
Proof.
  intros Hd Hpos.
  assert (Hnp : no_period (DepositoRecord.periode_hari record) = false).
  { rewrite Hd, no_period_Some. apply bool_decide_eq_false. lia. }
  unfold calculate_expected_imbal_hasil, BankBTPN.calculate_expected_imbal_hasil,
    BankBPS.calculate_expected_imbal_hasil,
    BankBNISyariah.calculate_expected_imbal_hasil,
    BankMandiriSyariah.calculate_expected_imbal_hasil.
  rewrite Hnp, Hd. cbn [default from_option id].
  split_and!; try reflexivity.
  - intros r Hr Hnz. rewrite Hr.
    destruct (Qeq_bool r 0) eqn:Hb; [|reflexivity].
    by apply Qeq_bool_iff in Hb.
  - intros [Hnone|(r & Hr & Hz)].
    + by rewrite Hnone.
    + rewrite Hr. apply Qeq_bool_iff in Hz. by rewrite Hz.
Qed.

Lemma adapter_rate_selection_witness :
  calculate_expected_imbal_hasil BTPN (rated_record (Some (1 # 10)) (Some 100))
  = round2 (accrual BankBTPN.config (rated_record (Some (1 # 10)) (Some 100))
              (spec_rate (Some (1 # 10)) (BankConfig.nisbah_rates BankBTPN.config)
                 SETORAN_AWAL (fallback_rate BTPN)) 100).
Proof.
  destruct (adapter_rate_selection (rated_record (Some (1 # 10)) (Some 100)) 100)
    as [Hown _]; [reflexivity | lia |].
  apply (Hown (1 # 10)); [reflexivity | discriminate].
Defined.

(** C6 fails as stated: on a record of principal 3600 in category SA that
    declares the rate 0.10 and is held 100 days, the BPS adapter returns
    47.50 (the table rate 0.0475), not the 100.00 the declared rate gives;
    and the BTPN adapter, given the declared rate 0, returns 93.00 (the
    table rate 0.0930), not 0. *)
Lemma declared_rate_not_always_used :
  Qeq (calculate_expected_imbal_hasil BPS (rated_record (Some (1 # 10)%Q) (Some 100)))
      (475 # 10)
  ∧ Qeq (round2 (accrual BankBPS.config (rated_record (Some (1 # 10)%Q) (Some 100))
                   (spec_rate (Some (1 # 10)%Q) (BankConfig.nisbah_rates BankBPS.config)
                      SETORAN_AWAL (fallback_rate BPS)) 100))
        100
  ∧ Qeq (calculate_expected_imbal_hasil BTPN (rated_record (Some 0%Q) (Some 100))) 93
  ∧ Qeq (round2 (accrual BankBTPN.config (rated_record (Some 0%Q) (Some 100))
                   (spec_rate (Some 0%Q) (BankConfig.nisbah_rates BankBTPN.config)
                      SETORAN_AWAL (fallback_rate BTPN)) 100))
        0.
Proof. split_and!; by vm_compute. Qed.

(** ** Row parsing *)

Section ParsingFacts.
Variable lib : PyLib.

(** Every parser builds the holding period from the two dates it stores. *)
Lemma btpn_bank_row_periode self dep_type row record :
  btpn_parse_bank_row lib self dep_type row = Some record →
  DepositoRecord.periode_hari record
  = calc_periode_hari (DepositoRecord.tanggal_penempatan record)
      (DepositoRecord.tanggal_jatuh_tempo record).
Proof.
  unfold btpn_parse_bank_row. destruct (_ || _); [done|]. by intros [= <-].
Qed.

Lemma bps_bank_row_periode self row record :
  bps_parse_bank_row lib self row = Some record →
  DepositoRecord.periode_hari record
  = calc_periode_hari (DepositoRecord.tanggal_penempatan record)
      (DepositoRecord.tanggal_jatuh_tempo record).
Proof.
  unfold bps_parse_bank_row. destruct (bps_blank _); [done|]. by intros [= <-].
Qed.

Lemma btpn_bpkh_row_no_maturity self row record :
  btpn_parse_bpkh_row lib self row = Some record →
  DepositoRecord.tanggal_jatuh_tempo record = None.
Proof.
  unfold btpn_parse_bpkh_row. destruct (_ || _); [done|]. by intros [= <-].
Qed.

Lemma bps_bpkh_row_no_maturity self row record :
  bps_parse_bpkh_row lib self row = Some record →
  DepositoRecord.tanggal_jatuh_tempo record = None.
Proof.
  unfold bps_parse_bpkh_row. destruct (bps_blank _); [done|]. by intros [= <-].
Qed.
End ParsingFacts.

(** C7, as the code has it.  For every record the BTPN and BPS parsers
    build whose placement and maturity dates are both present, the holding
    period is set, to the number of days of (maturity - placement); the
    code has no sign check, so the value may be negative. *)
Theorem parsed_periode_hari (lib : PyLib) (record : DepositoRecord.t)
    (tp tj : datetime) :
  ((∃ dep_type rows, record ∈ btpn_parse_bank_rows lib dep_type rows)
   ∨ (∃ rows, record ∈ btpn_parse_bpkh_rows lib rows)
   ∨ (∃ rows, record ∈ bps_parse_bank_rows lib rows)
   ∨ (∃ rows, record ∈ bps_parse_bpkh_rows lib rows)) →
  DepositoRecord.tanggal_penempatan record = Some tp →
  DepositoRecord.tanggal_jatuh_tempo record = Some tj →
  DepositoRecord.periode_hari record = Some (timedelta_days tj tp).
Proof.
  intros Hparsed Htp Htj.
  destruct Hparsed as [(dep & rows & Hin)|[(rows & Hin)|[(rows & Hin)|(rows & Hin)]]];
    apply list_elem_of_omap in Hin as (row & _ & Hrow).
  - apply btpn_bank_row_periode in Hrow. by rewrite Hrow, Htp, Htj.
  - apply btpn_bpkh_row_no_maturity in Hrow. congruence.
  - apply bps_bank_row_periode in Hrow. by rewrite Hrow, Htp, Htj.
  - apply bps_bpkh_row_no_maturity in Hrow. congruence.
Qed.

Lemma parsed_periode_hari_witness :
  ∃ record,
    record ∈ btpn_parse_bank_rows ascii_lib SETORAN_AWAL
               [dated_row "A1" "001" (mk_datetime 2025 4 1 0 0 0 0)
                  (mk_datetime 2025 5 1 0 0 0 0)]
    ∧ DepositoRecord.periode_hari record = Some 30.
Proof.
  assert (Hin : ∃ record,
            btpn_parse_bank_rows ascii_lib SETORAN_AWAL
              [dated_row "A1" "001" (mk_datetime 2025 4 1 0 0 0 0)
                 (mk_datetime 2025 5 1 0 0 0 0)] = [record]
            ∧ DepositoRecord.tanggal_penempatan record
              = Some (mk_datetime 2025 4 1 0 0 0 0)
            ∧ DepositoRecord.tanggal_jatuh_tempo record
              = Some (mk_datetime 2025 5 1 0 0 0 0)).
  { eexists. split_and!; vm_compute; reflexivity. }
  destruct Hin as (record & Hrows & Htp & Htj).
  exists record. split.
  - rewrite Hrows. apply list_elem_of_here.
  - apply (parsed_periode_hari ascii_lib record
             (mk_datetime 2025 4 1 0 0 0 0) (mk_datetime 2025 5 1 0 0 0 0)).
    + left. eexists _, _. rewrite Hrows. apply list_elem_of_here.
    + exact Htp.
    + exact Htj.
Defined.

(** C7 fails as stated: a row whose maturity date (1 April 2025) precedes
    its placement date (1 May 2025) is parsed, by the BTPN and by the BPS
    parser, into a record whose holding period is set to -30; it is
    neither non-negative nor left unset. *)
Lemma negative_period_is_stored :
  DepositoRecord.periode_hari
    <$> btpn_parse_bank_rows ascii_lib SETORAN_AWAL
          [dated_row "A1" "001" (mk_datetime 2025 5 1 0 0 0 0)
             (mk_datetime 2025 4 1 0 0 0 0)]
  = [Some (-30)]
  ∧ DepositoRecord.periode_hari
      <$> bps_parse_bank_rows ascii_lib
            [dated_row "A1" "001" (mk_datetime 2025 5 1 0 0 0 0)
               (mk_datetime 2025 4 1 0 0 0 0)]
    = [Some (-30)].
Proof. split; vm_compute; reflexivity. Qed.

(** ** The service *)

Section ServiceFacts.
Import MultiRekonService.
Variable now : string.
Implicit Types (self : MultiRekonService.t) (o : Outcome.t).

(** What [process_reconciliation] returns, by cases on what its [try]
    block does. *)
Lemma process_reconciliation_unfold bank_code bank_file bpkh_file self :
  process_reconciliation now bank_code bank_file bpkh_file self
  = match process_reconciliation_body now bank_code bank_file bpkh_file self with
    | (Ok o, self') => (Ok o, self')
    | (Raise e, self') => (Ok (Outcome.Failure bank_code (exn_str e) now), self')
    end.
Proof. reflexivity. Qed.

(** The [try] block by cases: it raises before it touches the service,
    or it succeeds and has written the cache. *)
Lemma body_cases bank_code bank_file bpkh_file self :
  (∃ e, process_reconciliation_body now bank_code bank_file bpkh_file self
        = (Raise e, self)
        ∧ (banks self !! bank_code = None →
           e = ValueError ("Bank " +:+ bank_code +:+ " not supported")))
  ∨ (∃ o rekon_results bank,
       banks self !! bank_code = Some bank
       ∧ process_reconciliation_body now bank_code bank_file bpkh_file self
         = (Ok o, {| banks := banks self;
                     results_cache := <[bank_code := rekon_results]> (results_cache self) |})
       ∧ Outcome.success o = true).
Proof.
  unfold process_reconciliation_body, bind, get_bank, call, cache_results, ret.
  destruct (banks self !! bank_code) as [bank|] eqn:Hbank.
  - destruct (BankBase.parse_bank_data bank bank_file) as [bank_records|e].
    + destruct (BankBase.parse_bpkh_data bank bpkh_file) as [bpkh_records|e].
      * right. eexists _, _, _. split_and!; [done|reflexivity|done].
      * left. exists e. split; [done|]. intros [=].
    + left. exists e. split; [done|]. intros [=].
  - left. eexists. split; [reflexivity|done].
Qed.

Lemma process_reconciliation_banks bank_code bank_file bpkh_file self :
  banks (process_reconciliation now bank_code bank_file bpkh_file self).2 = banks self.
Proof.
  rewrite process_reconciliation_unfold.
  destruct (body_cases bank_code bank_file bpkh_file self)
    as [(e & -> & _)|(o & rs & bank & _ & -> & _)]; done.
Qed.

(** The outcome depends on the registry only, not on the cache. *)
Lemma process_reconciliation_outcome bank_code bank_file bpkh_file self1 self2 :
  banks self1 = banks self2 →
  (process_reconciliation now bank_code bank_file bpkh_file self1).1
  = (process_reconciliation now bank_code bank_file bpkh_file self2).1.
Proof.
  intros Hb. unfold process_reconciliation, try_except, process_reconciliation_body,
    bind, get_bank, call, cache_results, ret. rewrite Hb.
  destruct (banks self2 !! bank_code) as [bank|]; [|done].
  destruct (BankBase.parse_bank_data bank bank_file) as [bank_records|e]; [|done].
  by destruct (BankBase.parse_bpkh_data bank bpkh_file) as [bpkh_records|e].
Qed.

Lemma process_reconciliation_Ok bank_code bank_file bpkh_file self :
  ∃ o, (process_reconciliation now bank_code bank_file bpkh_file self).1 = Ok o.
Proof.
  rewrite process_reconciliation_unfold.
  destruct (process_reconciliation_body now bank_code bank_file bpkh_file self)
    as [[o|e] self']; eauto.
Qed.

(** The loop of [process_multiple_banks]: it never raises, leaves the
    registry as it is, files one outcome per code after those already
    there, and each outcome is the one a call on its own returns. *)
Lemma process_multiple_banks_loop_spec
    (items : list (string * (string * string))) (results : list (string * Outcome.t))
    self :
  NoDup (PyDict.keys results ++ items.*1) →
  ∃ results' self',
    process_multiple_banks_loop now items results self = (Ok results', self')
    ∧ banks self' = banks self
    ∧ PyDict.keys results' = PyDict.keys results ++ items.*1
    ∧ (∀ code, code ∉ items.*1 → PyDict.get code results' = PyDict.get code results)
    ∧ (∀ code bank_file bpkh_file, (code, (bank_file, bpkh_file)) ∈ items →
         ∃ o, PyDict.get code results' = Some o
              ∧ (process_reconciliation now code bank_file bpkh_file self).1 = Ok o).
Proof.
  revert results self.
  induction items as [|[code [bank_file bpkh_file]] items IH]; intros results self Hnd.
  - exists results, self. simpl. rewrite app_nil_r. split_and!; try done.
    intros ? ? ? Hin. by apply elem_of_nil in Hin.
  - cbn [process_multiple_banks_loop]. unfold bind at 1.
    destruct (process_reconciliation_Ok code bank_file bpkh_file self) as [o Ho].
    pose proof (process_reconciliation_banks code bank_file bpkh_file self) as Hbanks.
    destruct (process_reconciliation now code bank_file bpkh_file self)
      as [r self1] eqn:Hcall.
    simpl in Ho, Hbanks. subst r.
    rewrite fmap_cons in Hnd. cbn [fst] in Hnd.
    assert (Hfresh : code ∉ PyDict.keys results).
    { apply NoDup_app in Hnd as (_ & Hdisj & _). intros Hin.
      apply (Hdisj code Hin). apply list_elem_of_here. }
    assert (Hnd' : NoDup (PyDict.keys (PyDict.set code o results) ++ items.*1)).
    { rewrite PyDictFacts.keys_set_fresh by done.
      by rewrite <- app_assoc. }
    destruct (IH (PyDict.set code o results) self1 Hnd')
      as (results' & self' & Hloop & Hb & Hkeys & Hold & Hnew).
    exists results', self'. split_and!.
    + done.
    + by rewrite Hb.
    + rewrite Hkeys, PyDictFacts.keys_set_fresh by done.
      by rewrite <- app_assoc.
    + intros c Hc. rewrite fmap_cons in Hc. cbn [fst] in Hc.
      apply not_elem_of_cons in Hc as [Hne Hc].
      rewrite Hold, PyDictFacts.get_set by done. by rewrite decide_False.
    + intros c bf pf Hin. apply elem_of_cons in Hin as [[= -> -> ->]|Hin].
      * exists o. split.
        -- rewrite Hold, PyDictFacts.get_set, decide_True; [done..|].
           apply NoDup_app in Hnd as (_ & _ & Hnd). by apply NoDup_cons in Hnd as [? _].
        -- by rewrite Hcall.
      * destruct (Hnew c bf pf Hin) as (o' & Hget & Hout). exists o'. split; [done|].
        rewrite <- Hout. by apply process_reconciliation_outcome.
Qed.
End ServiceFacts.



(** C10. When [process_reconciliation] returns a failure outcome, the
    service is as it was before the call; in particular the cache entry of
    the bank code is unchanged. *)
Theorem failure_leaves_cache (now : string) (self self' : MultiRekonService.t)
    (bank_code bank_file bpkh_file : string) (o : Outcome.t) :
  MultiRekonService.process_reconciliation now bank_code bank_file bpkh_file self
  = (Ok o, self') →
  Outcome.success o = false →
  MultiRekonService.results_cache self' !! bank_code
  = MultiRekonService.results_cache self !! bank_code
  ∧ self' = self.
Proof.
  rewrite process_reconciliation_unfold.
  destruct (body_cases now bank_code bank_file bpkh_file self)
    as [(e & Hbody & _)|(o' & rs & bank & _ & Hbody & Hsucc)]; rewrite Hbody.
  - by intros [= <- <-] _.
  - intros [= <- <-] Hfail. congruence.
Qed.

Lemma failure_leaves_cache_witness :
  MultiRekonService.results_cache sample_service !! "BTPN"
  = MultiRekonService.results_cache sample_service !! "BTPN"
  ∧ sample_service = sample_service.
Proof.
  apply (failure_leaves_cache "2025-06-01T00:00:00" sample_service sample_service
           "BTPN" "bank.xlsx" "missing.xlsx"
           (Outcome.Failure "BTPN" "No such file: missing.xlsx" "2025-06-01T00:00:00")).
  - reflexivity.
  - reflexivity.
Defined.

(** The scenario of two banks, one of whose sources cannot be read: one
    success outcome, one structured failure. *)
Example one_success_one_failure :
  match MultiRekonService.process_multiple_banks "2025-06-01T00:00:00"
          [("BTPN", ("bank.xlsx", "bpkh.xlsx")); ("BPS", ("missing.xlsx", "bpkh.xlsx"))]
          (MultiRekonService.add_bank "BPS" sample_bank sample_service).2 with
  | (Ok results, _) =>
      (λ kv, (kv.1, Outcome.success kv.2)) <$> results = [("BTPN", true); ("BPS", false)]
  | (Raise _, _) => False
  end.
Proof. vm_compute. reflexivity. Qed.

(** ** Further properties of [reconcile] *)

Section DictSizes.
Context {K V : Type} `{EqDecision K}.
Implicit Types (k : K) (v : V) (d : list (K * V)).

Lemma del_length k v d :
  PyDict.get k d = Some v → S (length (PyDict.del k d)) = length d.
Proof.
  induction d as [|[k' v'] d IH]; [done|]. simpl.
  case_decide; [done|]. intros Hget. simpl. by rewrite IH.
Qed.

Lemma del_elem k (x : K * V) d : x ∈ PyDict.del k d → x ∈ d.
Proof.
  induction d as [|[k' v'] d IH]; [done|]. simpl.
  case_decide.
  - intros Hx. by apply elem_of_cons; right.
  - intros [->|Hx]%elem_of_cons; [apply list_elem_of_here|].
    apply elem_of_cons; right. by apply IH.
Qed.

Lemma set_fresh k v d :
  k ∉ PyDict.keys d → PyDict.set k v d = d ++ [(k, v)].
Proof.
  induction d as [|[k' v'] d IH]; [done|]. unfold PyDict.keys in *.
  rewrite fmap_cons. cbn [fst]. intros [Hne Hk]%not_elem_of_cons. simpl.
  rewrite decide_False by done. by rewrite IH.
Qed.

Lemma comprehension_NoDup {A} (f : A → K) (g : A → V) (xs : list A) :
  NoDup (f <$> xs) → PyDict.comprehension f g xs = (λ x, (f x, g x)) <$> xs.
Proof.
  induction xs as [|x xs IH] using rev_ind; [done|].
  rewrite fmap_app. intros (Hnd & Hdisj & _)%NoDup_app.
  rewrite PyDictFacts.comprehension_snoc, IH by done.
  rewrite set_fresh, fmap_app; [done|].
  unfold PyDict.keys. rewrite <- list_fmap_compose. intros Hin.
  apply (Hdisj (f x)); [done|]. rewrite fmap_cons. apply list_elem_of_here.
Qed.

Lemma set_length k v d : (length (PyDict.set k v d) ≤ S (length d))%nat.
Proof.
  induction d as [|[k' v'] d IH]; [done|]. simpl.
  case_decide; simpl; lia.
Qed.

Lemma comprehension_length {A} (f : A → K) (g : A → V) (xs : list A) :
  (length (PyDict.comprehension f g xs) ≤ length xs)%nat.
Proof.
  induction xs as [|x xs IH] using rev_ind; [done|].
  rewrite PyDictFacts.comprehension_snoc, length_app. cbn [length].
  etrans; [apply set_length|]. lia.
Qed.

Lemma NoDup_keys_length d :
  NoDup (PyDict.keys d) → ∀ `{Countable K},
  length d = size (list_to_set (PyDict.keys d) : gset K).
Proof.
  intros Hnd ? ?. rewrite size_list_to_set by done.
  unfold PyDict.keys. by rewrite length_fmap.
Qed.
End DictSizes.

Section ReconcileMore.
Variable bank_code : string.
Implicit Types (d : list (key * DepositoRecord.t)) (l : list DepositoRecord.t).

(** Where a result of the first loop comes from. *)
Lemma pass_fst_elem l d r :
  r ∈ (pass bank_code l d).1 →
  ∃ p, p ∈ l
       ∧ (r = not_found_bpkh_result bank_code p
          ∨ ∃ c, (record_key p, c) ∈ d ∧ r = matched_result bank_code p c).
Proof.
  revert d. induction l as [|p l IH]; intros d; [by intros ?%elem_of_nil|].
  rewrite pass_cons. cbn [fst]. intros [->|Hr]%elem_of_cons.
  - exists p. split; [apply list_elem_of_here|].
    destruct (PyDict.get (record_key p) d) as [c|] eqn:Hget; [|by left].
    right. exists c. split; [|done]. by apply PyDictFacts.get_Some_elem.
  - apply IH in Hr as (q & Hq & Hcase). exists q. split; [by apply elem_of_cons; right|].
    destruct Hcase as [->|(c & Hc & ->)]; [by left|].
    right. exists c. split; [|done].
    destruct (PyDict.get (record_key p) d); [by eapply del_elem|done].
Qed.

Lemma pass_snd_elem l d x : x ∈ (pass bank_code l d).2 → x ∈ d.
Proof.
  revert d. induction l as [|p l IH]; intros d; [done|].
  rewrite pass_cons. cbn [snd]. intros Hx%IH.
  destruct (PyDict.get (record_key p) d); [by eapply del_elem|done].
Qed.

Lemma bpkh_lookup_elem k c bpkh :
  (k, c) ∈ bpkh_lookup_of bpkh → c ∈ bpkh ∧ record_key c = k.
Proof.
  intros Hin. apply PyDictFacts.elem_get_Some in Hin; [|apply NoDup_bpkh_lookup].
  apply PyDictFacts.get_comprehension_Some in Hin as (l1 & c' & l2 & -> & Hk & Hc & _).
  simpl in Hc. subst c'. split; [|done].
  apply elem_of_app; right. apply list_elem_of_here.
Qed.

(** Every result is built by one of the three branches of [reconcile]. *)
Lemma reconcile_elem bank bpkh r :
  r ∈ reconcile bank_code bank bpkh →
  (∃ p, p ∈ bank ∧ r = not_found_bpkh_result bank_code p)
  ∨ (∃ p c, p ∈ bank ∧ c ∈ bpkh ∧ record_key c = record_key p
            ∧ r = matched_result bank_code p c)
  ∨ (∃ c, c ∈ bpkh ∧ r = not_found_bank_result bank_code c).
Proof.
  rewrite reconcile_pass. intros [Hr|Hr]%elem_of_app.
  - apply pass_fst_elem in Hr as (p & Hp & [->|(c & Hc & ->)]).
    + left. by exists p.
    + right; left. apply bpkh_lookup_elem in Hc as [Hc Hk]. by exists p, c.
  - right; right. apply list_elem_of_fmap in Hr as (c & -> & Hc).
    exists c. split; [|done]. unfold PyDict.values in Hc.
    apply list_elem_of_fmap in Hc as ([k c'] & -> & Hin).
    apply pass_snd_elem in Hin. by apply bpkh_lookup_elem in Hin as [? _].
Qed.

Lemma reconcile_Forall (P : RekonResult.t → Prop) bank bpkh :
  (∀ p, P (not_found_bpkh_result bank_code p)) →
  (∀ p c, P (matched_result bank_code p c)) →
  (∀ c, P (not_found_bank_result bank_code c)) →
  Forall P (reconcile bank_code bank bpkh).
Proof.
  intros H1 H2 H3. apply Forall_forall. intros r Hr.
  apply reconcile_elem in Hr as [(p & _ & ->)|[(p & c & _ & _ & _ & ->)|(c & _ & ->)]];
    auto.
Qed.

Lemma matched_result_status p c :
  RekonResult.status (matched_result bank_code p c) = MATCHED
  ∨ RekonResult.status (matched_result bank_code p c) = DIFFERENCE.
Proof. unfold matched_result. cbn. destruct (Qlt_le_dec _ _); auto. Qed.

(** Counting by status in the results of the first loop. *)
Lemma pass_fst_counts l d :
  let count s := length (filter (λ r, RekonResult.status r = s) (pass bank_code l d).1) in
  (count MATCHED + count DIFFERENCE + count NOT_FOUND_BPKH = length l
   ∧ count NOT_FOUND_BANK = 0
   ∧ count MATCHED + count DIFFERENCE + length (pass bank_code l d).2 = length d)%nat.
Proof.
  revert d. induction l as [|p l IH]; intros d; [done|].
  rewrite pass_cons. cbn zeta. cbn [fst snd].
  destruct (PyDict.get (record_key p) d) as [c|] eqn:Hget; cbn [result_for].
  - specialize (IH (PyDict.del (record_key p) d)). cbn zeta in IH.
    destruct IH as (IH1 & IH2 & IH3).
    rewrite <- (del_length _ _ _ Hget).
    destruct (matched_result_status p c) as [Hs|Hs];
      rewrite !filter_cons, Hs; repeat case_decide; try done; cbn [length]; lia.
  - specialize (IH d). cbn zeta in IH. destruct IH as (IH1 & IH2 & IH3).
    rewrite !filter_cons. cbn [not_found_bpkh_result RekonResult.status].
    repeat case_decide; try done; cbn [length]; lia.
Qed.

Lemma leftover_counts (cs : list DepositoRecord.t) s :
  length (filter (λ r, RekonResult.status r = s) (not_found_bank_result bank_code <$> cs))
  = if decide (s = NOT_FOUND_BANK) then length cs else 0%nat.
Proof.
  induction cs as [|c cs IH]; [by case_decide|].
  rewrite fmap_cons, filter_cons. cbn [not_found_bank_result RekonResult.status].
  repeat case_decide; try done; cbn [length]; rewrite IH;
    repeat case_decide; done.
Qed.

Lemma bpkh_lookup_length bpkh :
  length (bpkh_lookup_of bpkh) = size (list_to_set (record_key <$> bpkh) : gset key).
Proof.
  rewrite (NoDup_keys_length _ (NoDup_bpkh_lookup bpkh)). f_equal.
  apply set_eq. intros k. rewrite !elem_of_list_to_set. apply elem_keys_bpkh_lookup.
Qed.
End ReconcileMore.

(** X1. The number of results is the number of bank records plus the
    number of distinct BPKH keys that no bank record has, whatever
    duplicates the two inputs contain; so it is at least the number of bank
    records and at most the number of records of both inputs. *)
Theorem reconcile_length (bank_code : string)
    (bank_records bpkh_records : list DepositoRecord.t) :
  (length (reconcile bank_code bank_records bpkh_records)
   = length bank_records
     + size ((list_to_set (record_key <$> bpkh_records) : gset key)
             ∖ list_to_set (record_key <$> bank_records))
   ∧ length bank_records ≤ length (reconcile bank_code bank_records bpkh_records)
   ∧ length (reconcile bank_code bank_records bpkh_records)
     ≤ length bank_records + length bpkh_records)%nat.
Proof.
  assert (Hlen : length (reconcile bank_code bank_records bpkh_records)
                 = (length bank_records
                    + length (filter (λ k, k ∉ record_key <$> bank_records)
                                (PyDict.keys (bpkh_lookup_of bpkh_records))))%nat).
  { rewrite <- (length_fmap result_key), reconcile_keys, length_app.
    by rewrite length_fmap. }
  assert (Hnd : NoDup (filter (λ k, k ∉ record_key <$> bank_records)
                         (PyDict.keys (bpkh_lookup_of bpkh_records)))).
  { apply NoDup_filter, NoDup_bpkh_lookup. }
  split_and!.
  - rewrite Hlen. f_equal. rewrite <- (size_list_to_set (C := gset key)) by done.
    f_equal. apply set_eq. intros k.
    rewrite elem_of_list_to_set, list_elem_of_filter, elem_of_difference,
      !elem_of_list_to_set, elem_keys_bpkh_lookup. tauto.
  - rewrite Hlen. lia.
  - rewrite Hlen. apply Nat.add_le_mono_l.
    etrans; [apply length_filter|]. unfold PyDict.keys. rewrite length_fmap.
    apply comprehension_length.
Qed.


(** X3. Every result carries the bank code of the adapter that reconciles
    and the key, principal and category of a record of one of the inputs;
    its status is never [PENDING]; and it has a note exactly when its
    status is one of the two not-found statuses. *)
Theorem reconcile_results_shape (bank_code : string)
    (bank_records bpkh_records : list DepositoRecord.t) :
  Forall (λ r,
            RekonResult.bank_code r = bank_code
            ∧ RekonResult.status r ≠ PENDING
            ∧ (RekonResult.notes r = None
               ↔ RekonResult.status r = MATCHED ∨ RekonResult.status r = DIFFERENCE)
            ∧ ∃ rec, rec ∈ bank_records ++ bpkh_records
                     ∧ result_key r = record_key rec
                     ∧ RekonResult.nominal_deposito r = DepositoRecord.nominal_deposito rec
                     ∧ RekonResult.jenis_deposito r = DepositoRecord.jenis_deposito rec)
    (reconcile bank_code bank_records bpkh_records).
Proof.
  apply Forall_forall. intros r Hr.
  apply reconcile_elem in Hr as [(p & Hp & ->)|[(p & c & Hp & _ & _ & ->)|(c & Hc & ->)]].
  - split_and!; [done|done| |].
    + cbn. split; [done|]. by intros [|].
    + exists p. split; [apply elem_of_app; by left|done].
  - split_and!; [done| | |].
    + by destruct (matched_result_status bank_code p c) as [-> | ->].
    + split; [intros _; apply matched_result_status|done].
    + exists p. split; [apply elem_of_app; by left|done].
  - split_and!; [done|done| |].
    + cbn. split; [done|]. by intros [|].
    + exists c. split; [apply elem_of_app; by right|done].
Qed.

(** X4. Counting the results by status: the matched, difference and
    not-found-in-BPKH results are as many as the bank records, and the
    matched, difference and not-found-in-bank results are as many as the
    distinct keys of the BPKH records (every entry of the lookup is either
    consumed by one bank record or reported as not found in bank). *)
Theorem reconcile_status_counts (bank_code : string)
    (bank_records bpkh_records : list DepositoRecord.t) :
  let count s :=
    length (filter (λ r, RekonResult.status r = s)
              (reconcile bank_code bank_records bpkh_records)) in
  (count MATCHED + count DIFFERENCE + count NOT_FOUND_BPKH = length bank_records
   ∧ count MATCHED + count DIFFERENCE + count NOT_FOUND_BANK
     = size (list_to_set (record_key <$> bpkh_records) : gset key))%nat.
Proof.
  cbn zeta. rewrite reconcile_pass, !filter_app, !length_app, !leftover_counts.
  destruct (pass_fst_counts bank_code bank_records (bpkh_lookup_of bpkh_records))
    as (H1 & H2 & H3). cbn zeta in H1, H2, H3.
  rewrite !decide_False, decide_True by done.
  rewrite <- bpkh_lookup_length. unfold PyDict.values. rewrite length_fmap. lia.
Qed.

(** X5. A record that has no counterpart is always reported at the
    highest priority: every result with one of the two not-found statuses
    has priority "Critical" and is material at the default threshold
    0.5. *)
Theorem not_found_results_are_critical (bank_code : string)
    (bank_records bpkh_records : list DepositoRecord.t) :
  Forall (λ r,
            RekonResult.status r = NOT_FOUND_BPKH ∨ RekonResult.status r = NOT_FOUND_BANK →
            RekonResult.get_priority r = "Critical"
            ∧ RekonResult.is_material r (5 # 10) = true)
    (reconcile bank_code bank_records bpkh_records).
Proof.
  apply reconcile_Forall.
  - intros p _. by vm_compute.
  - intros p c [Hs|Hs];
      by destruct (matched_result_status bank_code p c) as [Hm|Hm]; rewrite Hm in Hs.
  - intros c _. by vm_compute.
Qed.

(** X6. Empty inputs.  With no BPKH record every bank record is reported,
    in order, as not found in BPKH; with no bank record and BPKH records of
    pairwise distinct keys, every BPKH record is reported, in order, as not
    found in bank. *)
Theorem reconcile_against_nothing (bank_code : string)
    (bank_records bpkh_records : list DepositoRecord.t) :
  NoDup (record_key <$> bpkh_records) →
  reconcile bank_code bank_records [] = not_found_bpkh_result bank_code <$> bank_records
  ∧ reconcile bank_code [] bpkh_records = not_found_bank_result bank_code <$> bpkh_records.
Proof.
  intros Hnd. split.
  - rewrite reconcile_pass. change (bpkh_lookup_of []) with ([] : list (key * DepositoRecord.t)).
    assert (Hpass : ∀ l, pass bank_code l [] = (not_found_bpkh_result bank_code <$> l, [])).
    { induction l as [|p l IH]; [done|]. cbn. by rewrite IH. }
    rewrite Hpass. cbn. by rewrite app_nil_r.
  - rewrite reconcile_pass. cbn [pass fst snd app]. unfold bpkh_lookup_of.
    rewrite comprehension_NoDup by done. unfold PyDict.values.
    rewrite <- !list_fmap_compose. by apply list_fmap_ext.
Qed.

Lemma reconcile_against_nothing_witness :
  reconcile "BTPN" [sample_record "A1" "001" 10; sample_record "A1" "001" 20] []
  = not_found_bpkh_result "BTPN"
      <$> [sample_record "A1" "001" 10; sample_record "A1" "001" 20]
  ∧ reconcile "BTPN" [] [sample_record "A1" "001" 10; sample_record "B2" "002" 20]
    = not_found_bank_result "BTPN"
        <$> [sample_record "A1" "001" 10; sample_record "B2" "002" 20].
Proof.
  apply (reconcile_against_nothing "BTPN"
           [sample_record "A1" "001" 10; sample_record "A1" "001" 20]
           [sample_record "A1" "001" 10; sample_record "B2" "002" 20]).
  by apply (bool_decide_unpack _); vm_compute.
Defined.

(** ** Summaries *)

Section Sums.
Context {A : Type}.
Implicit Types (l : list A).

Lemma filter_length_disjoint (P Q : A → Prop)
    `{∀ x, Decision (P x)} `{∀ x, Decision (Q x)} l :
  (∀ x, P x → Q x → False) →
  (length (filter P l) + length (filter Q l) ≤ length l)%nat.
Proof.
  intros Hdisj. induction l as [|x l IH]; [done|].
  rewrite !filter_cons. repeat case_decide; cbn [length]; try lia.
  by destruct (Hdisj x).
Qed.

Lemma filter_length_all (P : A → Prop) `{∀ x, Decision (P x)} l :
  length (filter P l) = length l ↔ Forall P l.
Proof.
  induction l as [|x l IH]; [done|].
  rewrite filter_cons, Forall_cons. pose proof (length_filter P l).
  case_decide; cbn [length].
  - rewrite <- IH. split; [intros [=]; done|intros [_ ->]; done].
  - split; [lia|tauto].
Qed.
End Sums.

Section Rates.
(** The quotient [m / t * 100] of two counts. *)
Lemma rate_bounds (m t : nat) :
  (0 < t)%nat → (m ≤ t)%nat →
  (0 <= Q_of_nat m / Q_of_nat t * 100 <= 100)%Q.
Proof.
  intros Ht Hm. unfold Q_of_nat.
  assert (Ht' : (0 < inject_Z (Z.of_nat t))%Q).
  { change 0%Q with (inject_Z 0). rewrite <- Zlt_Qlt. lia. }
  assert (Hm0 : (0 <= inject_Z (Z.of_nat m))%Q).
  { change 0%Q with (inject_Z 0). rewrite <- Zle_Qle. lia. }
  assert (Hmt : (inject_Z (Z.of_nat m) <= inject_Z (Z.of_nat t))%Q).
  { rewrite <- Zle_Qle. lia. }
  split.
  - apply Qmult_le_0_compat; [|done].
    apply Qle_shift_div_l; [done|]. by rewrite Qmult_0_l.
  - apply Qle_trans with (1 * 100)%Q; [|by vm_compute].
    apply Qmult_le_compat_r; [|done].
    apply Qle_shift_div_r; [done|]. by rewrite Qmult_1_l.
Qed.

Lemma rate_zero (m t : nat) :
  (0 < t)%nat → (Q_of_nat m / Q_of_nat t * 100 == 0)%Q ↔ m = 0%nat.
Proof.
  intros Ht. unfold Q_of_nat.
  assert (Ht' : ¬ (inject_Z (Z.of_nat t) == 0)%Q).
  { change 0%Q with (inject_Z 0). rewrite inject_Z_injective. lia. }
  split.
  - intros Heq.
    assert (Hm : (inject_Z (Z.of_nat m) == 0)%Q).
    { setoid_replace (inject_Z (Z.of_nat m))
        with (inject_Z (Z.of_nat m) / inject_Z (Z.of_nat t) * 100
              * (inject_Z (Z.of_nat t) / 100))%Q using relation Qeq by (field; done).
      rewrite Heq. ring. }
    change 0%Q with (inject_Z 0) in Hm. rewrite inject_Z_injective in Hm. lia.
  - intros ->. cbn [Z.of_nat]. field. done.
Qed.

Lemma rate_full (m t : nat) :
  (0 < t)%nat → (Q_of_nat m / Q_of_nat t * 100 == 100)%Q ↔ m = t.
Proof.
  intros Ht. unfold Q_of_nat.
  assert (Ht' : ¬ (inject_Z (Z.of_nat t) == 0)%Q).
  { change 0%Q with (inject_Z 0). rewrite inject_Z_injective. lia. }
  split.
  - intros Heq.
    assert (Hm : (inject_Z (Z.of_nat m) == inject_Z (Z.of_nat t))%Q).
    { setoid_replace (inject_Z (Z.of_nat m))
        with (inject_Z (Z.of_nat m) / inject_Z (Z.of_nat t) * 100
              * (inject_Z (Z.of_nat t) / 100))%Q using relation Qeq by (field; done).
      rewrite Heq. field. }
    rewrite inject_Z_injective in Hm. lia.
  - intros ->. field. done.
Qed.
End Rates.

Section SummaryFacts.
Variables (bank_code bank_name now : string).
Implicit Types (rs : list RekonResult.t) (t : DepositoType).

Lemma type_summary_count rs t :
  from_option (λ kv, TypeSummary.count kv.2) 0%nat (type_summary rs t)
  = length (filter (λ r, RekonResult.jenis_deposito r = t) rs).
Proof.
  unfold type_summary. by destruct (filter _ rs).
Qed.

Lemma by_type_counts rs (ts : list DepositoType) :
  sum_list_with (λ kv, TypeSummary.count kv.2) (omap (type_summary rs) ts)
  = sum_list_with (λ t, length (filter (λ r, RekonResult.jenis_deposito r = t) rs)) ts.
Proof.
  induction ts as [|t ts IH]; [done|].
  cbn [omap list_omap sum_list_with]. rewrite <- type_summary_count, <- IH.
  by destruct (type_summary rs t).
Qed.

Lemma type_partition_length rs :
  sum_list_with (λ t, length (filter (λ r, RekonResult.jenis_deposito r = t) rs))
    [SETORAN_AWAL; SETORAN_LUNAS; NILAI_MANFAAT; LPS; DAU]
  = length rs.
Proof.
  induction rs as [|r rs IH]; [done|].
  cbn [sum_list_with] in *. rewrite !filter_cons.
  destruct (RekonResult.jenis_deposito r); repeat case_decide; try done;
    cbn [length]; lia.
Qed.

Lemma by_type_positive rs (ts : list DepositoType) :
  Forall (λ kv, (0 < TypeSummary.count kv.2)%nat) (omap (type_summary rs) ts).
Proof.
  induction ts as [|t ts IH]; [done|]. cbn [omap list_omap].
  unfold type_summary at 1.
  destruct (filter _ rs) eqn:Hf; [done|].
  apply Forall_cons. split; [cbn; lia|done].
Qed.

Lemma by_type_keys rs (ts : list DepositoType) :
  (omap (type_summary rs) ts).*1 `sublist_of` (DepositoType_value <$> ts).
Proof.
  induction ts as [|t ts IH]; [done|]. cbn [omap list_omap]. rewrite fmap_cons.
  unfold type_summary at 1.
  destruct (filter _ rs) eqn:Hf.
  - by apply sublist_cons.
  - rewrite fmap_cons. by apply sublist_skip.
Qed.

End SummaryFacts.

(** X7. The counts of a summary: [total_records] is the number of
    results, the matched and difference records together never exceed it,
    and the match rate lies between 0 and 100; it is 0 exactly when no
    result is matched (the empty input included, where the code does not
    divide) and 100 exactly when there are results and all are matched. *)
Theorem summary_counts_and_match_rate (bank_code bank_name now : string)
    (rekon_results : list RekonResult.t) :
  let s := generate_summary bank_code bank_name now rekon_results in
  Summary.total_records s = length rekon_results
  ∧ (Summary.matched_records s + Summary.difference_records s
     ≤ Summary.total_records s)%nat
  ∧ (0 <= Summary.match_rate s <= 100)%Q
  ∧ ((Summary.match_rate s == 0)%Q ↔ Summary.matched_records s = 0%nat)
  ∧ ((Summary.match_rate s == 100)%Q
     ↔ rekon_results ≠ [] ∧ Forall (λ r, RekonResult.status r = MATCHED) rekon_results).
Proof.
  cbn zeta. unfold generate_summary.
  cbn [Summary.total_records Summary.matched_records Summary.difference_records
       Summary.match_rate].
  pose proof (length_filter (λ r, RekonResult.status r = MATCHED) rekon_results) as Hle.
  split; [|split; [|split; [|split]]].
  - done.
  - apply filter_length_disjoint. intros r. congruence.
  - destruct (Nat.ltb_spec 0 (length rekon_results)) as [Hpos|Hzero].
    + by apply rate_bounds.
    + done.
  - destruct (Nat.ltb_spec 0 (length rekon_results)) as [Hpos|Hzero].
    + exact (rate_zero _ _ Hpos).
    + split; [intros _; lia|done].
  - destruct (Nat.ltb_spec 0 (length rekon_results)) as [Hpos|Hzero].
    + rewrite rate_full by done. rewrite filter_length_all.
      split; [|tauto]. intros Hall. split; [|done]. intros ->. cbn in Hpos. lia.
    + split; [intros Heq; by apply Qeq_bool_iff in Heq|].
      intros [Hne _]. destruct rekon_results; [done|cbn in Hzero; lia].
Qed.

(** X8. The breakdown by category is a partition of the results: its
    counts add up to [total_records], a category is listed only when it has
    at least one result, and the categories appear in the order of the
    enumeration. *)
Theorem summary_by_type_counts (bank_code bank_name now : string)
    (rekon_results : list RekonResult.t) :
  let s := generate_summary bank_code bank_name now rekon_results in
  sum_list_with (λ kv, TypeSummary.count kv.2) (Summary.by_type s)
  = Summary.total_records s
  ∧ Forall (λ kv, (0 < TypeSummary.count kv.2)%nat) (Summary.by_type s)
  ∧ (Summary.by_type s).*1 `sublist_of` ["SA"; "SL"; "NM"; "LPS"; "DAU"].
Proof.
  cbn zeta. unfold generate_summary. cbn [Summary.by_type Summary.total_records].
  split_and!.
  - by rewrite by_type_counts, type_partition_length.
  - apply by_type_positive.
  - apply (by_type_keys rekon_results [SETORAN_AWAL; SETORAN_LUNAS; NILAI_MANFAAT; LPS; DAU]).
Qed.

(** X11. Materiality and priority agree: a result is material at the
    default threshold 0.5 exactly when its priority is "Critical", or
    "High" with an absolute percentage other than 0.5 itself; so a material
    result is never "Low" or "Medium". *)
Theorem material_iff_high_priority (r : RekonResult.t) :
  RekonResult.is_material r (5 # 10) = true
  ↔ RekonResult.get_priority r = "Critical"
    ∨ (RekonResult.get_priority r = "High"
       ∧ ¬ (Qabs (RekonResult.persentase_selisih r) == 5 # 10)%Q).
Proof.
  unfold RekonResult.is_material, RekonResult.get_priority. cbn zeta.
  set (a := Qabs (RekonResult.persentase_selisih r)).
  destruct (Qlt_le_dec (5 # 10) a) as [Hm|Hm];
    destruct (Qlt_le_dec a (1 # 10)) as [H1|H1];
    destruct (Qlt_le_dec a (5 # 10)) as [H2|H2];
    destruct (Qlt_le_dec a 1) as [H3|H3];
    split; try done; try (intros [|[? ?]]; done); try lra.
  - intros _. right. split; [done|]. intros Heq. rewrite Heq in Hm. lra.
  - intros _. by left.
  - intros [|[_ Hne]]; [done|]. exfalso. apply Hne. lra.
Qed.

(** ** Further properties of the adapters *)

Section ParsingMore.
Variable lib : PyLib.

Lemma try_formats_app s formats1 formats2 d :
  try_formats lib s formats1 = Some d →
  try_formats lib s (formats1 ++ formats2) = Some d.
Proof.
  induction formats1 as [|fmt formats1 IH]; [done|]. cbn.
  destruct (strptime lib s fmt); [done|]. apply IH.
Qed.

Lemma parse_date_with_app formats1 formats2 date_value d :
  parse_date_with lib formats1 date_value = Some d →
  parse_date_with lib (formats1 ++ formats2) date_value = Some d.
Proof.
  unfold parse_date_with. destruct (isna date_value); [done|].
  destruct date_value as [[| | |]|]; try done; apply try_formats_app.
Qed.

Lemma Forall_omap_Some {A B} (f : A → option B) (P : B → Prop) (l : list A) :
  (∀ x y, f x = Some y → P y) → Forall P (omap f l).
Proof.
  intros Hf. apply Forall_forall. intros y Hy.
  apply list_elem_of_omap in Hy as (x & _ & Hx). by eapply Hf.
Qed.

Lemma bps_blank_false s : bps_blank s = false → s ≠ "" ∧ s ≠ "nan" ∧ s ≠ "None".
Proof.
  unfold bps_blank. intros [H1 H2]%orb_false_elim.
  apply bool_decide_eq_false in H2.
  split_and!; intros ->; apply H2; set_solver.
Qed.

Lemma bni_blank_false s : bni_blank s = false → s ≠ "" ∧ s ≠ "nan".
Proof.
  unfold bni_blank. intros [H1 H2]%orb_false_elim.
  apply bool_decide_eq_false in H1, H2. done.
Qed.

(** An expected yield is computed only from a holding period. *)
Lemma expected_without_period (a : Adapter) (record : DepositoRecord.t) :
  DepositoRecord.periode_hari record = None →
  calculate_expected_imbal_hasil a record = 0%Q.
Proof.
  intros Hp. destruct a; cbn;
    unfold BankBTPN.calculate_expected_imbal_hasil, BankBPS.calculate_expected_imbal_hasil,
      BankBNISyariah.calculate_expected_imbal_hasil,
      BankMandiriSyariah.calculate_expected_imbal_hasil; by rewrite Hp.
Qed.
End ParsingMore.

(** X13. No rate table of the repository has an entry for the category
    DAU, so for a DAU record with a positive holding period (and, for
    BTPN, no rate of its own) every adapter computes with the fallback
    constant written in its code: 0.09, 0.0475, 0.0485 and 0.048. *)
Theorem dau_uses_fallback_rate (a : Adapter) (record : DepositoRecord.t) (d : Z) :
  DepositoRecord.jenis_deposito record = DAU →
  DepositoRecord.periode_hari record = Some d → 0 < d →
  DepositoRecord.nisbah_rate record = None →
  calculate_expected_imbal_hasil a record
  = match a with
    | BTPN | BPS => round2 (accrual (adapter_config a) record (fallback_rate a) d)
    | BNIS | MSI => accrual (adapter_config a) record (fallback_rate a) d
    end.
Proof.
  intros Ht Hp Hd Hr.
  assert (Hno : no_period (Some d) = false).
  { rewrite no_period_Some. apply bool_decide_eq_false. lia. }
  destruct a; cbn [calculate_expected_imbal_hasil adapter_config fallback_rate];
    unfold BankBTPN.calculate_expected_imbal_hasil, BankBPS.calculate_expected_imbal_hasil,
      BankBNISyariah.calculate_expected_imbal_hasil,
      BankMandiriSyariah.calculate_expected_imbal_hasil;
    rewrite Hp, Hno, Ht, ?Hr; reflexivity.
Qed.

Lemma dau_uses_fallback_rate_witness :
  calculate_expected_imbal_hasil BNIS
    {| DepositoRecord.bank_code := "BNIS"; DepositoRecord.nomor_bilyet := "D1";
       DepositoRecord.nomor_rekening := "009"; DepositoRecord.nominal_deposito := 3600;
       DepositoRecord.nominal_imbal_hasil := 0; DepositoRecord.jenis_deposito := DAU;
       DepositoRecord.tanggal_penempatan := None; DepositoRecord.tanggal_jatuh_tempo := None;
       DepositoRecord.tanggal_realisasi := None; DepositoRecord.nisbah_rate := None;
       DepositoRecord.periode_hari := Some 100; DepositoRecord.source := "bank" |}
  = accrual BankBNISyariah.config
      {| DepositoRecord.bank_code := "BNIS"; DepositoRecord.nomor_bilyet := "D1";
         DepositoRecord.nomor_rekening := "009"; DepositoRecord.nominal_deposito := 3600;
         DepositoRecord.nominal_imbal_hasil := 0; DepositoRecord.jenis_deposito := DAU;
         DepositoRecord.tanggal_penempatan := None; DepositoRecord.tanggal_jatuh_tempo := None;
         DepositoRecord.tanggal_realisasi := None; DepositoRecord.nisbah_rate := None;
         DepositoRecord.periode_hari := Some 100; DepositoRecord.source := "bank" |}
      (485 # 10000) 100.
Proof.
  apply (dau_uses_fallback_rate BNIS _ 100).
  - reflexivity.
  - reflexivity.
  - lia.
  - reflexivity.
Defined.

(** X14. The date formats are tried in the order of the list and the
    lists of the adapters extend one another (BNI and Mandiri four
    formats, BTPN a fifth, BPS two more): whatever value the shorter list
    parses, the longer list parses to the same date. *)
Theorem parse_date_formats_extend (lib : PyLib) (date_value : pyval) (d : datetime) :
  (parse_date_with lib bni_formats date_value = Some d →
   parse_date_with lib btpn_formats date_value = Some d)
  ∧ (parse_date_with lib btpn_formats date_value = Some d →
     parse_date_with lib bps_formats date_value = Some d).
Proof.
  split.
  - apply (parse_date_with_app lib bni_formats ["%d %B %Y"]).
  - apply parse_date_with_app.
Qed.

(** X15. The category mappings extend one another in the same way: a
    text the BNI/Mandiri mapping knows has the same category in the BTPN
    mapping, a text the BTPN mapping knows has the same category in the BPS
    mapping, and a text a mapping does not know becomes SETORAN_AWAL. *)
Theorem deposito_type_mappings_extend (jenis_upper : string) :
  (∀ t, PyDict.get jenis_upper bni_mapping = Some t →
        PyDict.get jenis_upper btpn_mapping = Some t)
  ∧ (∀ t, PyDict.get jenis_upper btpn_mapping = Some t →
          PyDict.get jenis_upper bps_mapping = Some t)
  ∧ (PyDict.get jenis_upper bps_mapping = None →
     lookup_type bni_mapping jenis_upper = SETORAN_AWAL
     ∧ lookup_type btpn_mapping jenis_upper = SETORAN_AWAL
     ∧ lookup_type bps_mapping jenis_upper = SETORAN_AWAL).
Proof.
  split_and!.
  - intros t. unfold bni_mapping. cbn [PyDict.get].
    repeat case_decide; subst; try done; intros [= <-]; reflexivity.
  - intros t. unfold btpn_mapping. cbn [PyDict.get].
    repeat case_decide; subst; try done; intros [= <-]; reflexivity.
  - unfold lookup_type, bps_mapping, btpn_mapping, bni_mapping. cbn [PyDict.get app].
    repeat case_decide; subst; done.
Qed.

(** X16. The BPS, BNI and Mandiri parsers never build a record from a row
    whose bilyet number is blank: every record they return has a bilyet
    number other than the empty text and "nan" (and, for BPS, "None"). *)
Theorem parsed_bilyet_not_blank (lib : PyLib) (rows : list (gmap string cell)) :
  Forall (λ r, DepositoRecord.nomor_bilyet r ∉ [""; "nan"; "None"])
    (bps_parse_bank_rows lib rows ++ bps_parse_bpkh_rows lib rows)
  ∧ Forall (λ r, DepositoRecord.nomor_bilyet r ∉ [""; "nan"])
      (bni_parse_bank_rows lib rows ++ bni_parse_bpkh_rows lib rows
       ++ msi_parse_bank_rows lib rows ++ msi_parse_bpkh_rows lib rows).
Proof.
  split.
  - apply Forall_app; split; apply Forall_omap_Some; intros row r;
      unfold bps_parse_bank_row, bps_parse_bpkh_row; cbn zeta;
      destruct (bps_blank _) eqn:Hb; try done; intros [= <-];
      cbn [DepositoRecord.nomor_bilyet];
      destruct (bps_blank_false _ Hb) as (Hb1 & Hb2 & Hb3);
      rewrite !not_elem_of_cons; split_and!; try done; apply not_elem_of_nil.
  - rewrite !Forall_app. split_and!; apply Forall_omap_Some; intros row r;
      unfold bni_parse_bank_row, bni_parse_bpkh_row, msi_parse_bank_row, msi_parse_bpkh_row;
      cbn zeta;
      destruct (bni_blank _) eqn:Hb; try done; intros [= <-];
      cbn [DepositoRecord.nomor_bilyet];
      destruct (bni_blank_false _ Hb) as (Hb1 & Hb2);
      rewrite !not_elem_of_cons; split_and!; try done; apply not_elem_of_nil.
Qed.

(** X17. The BPKH-side parsers of the four adapters never set a holding
    period, so the expected yield of every record they build is 0 in every
    adapter. *)
Theorem bpkh_records_expected_zero (lib : PyLib) (rows : list (gmap string cell))
    (a : Adapter) :
  Forall (λ r, DepositoRecord.periode_hari r = None
               ∧ calculate_expected_imbal_hasil a r = 0%Q)
    (btpn_parse_bpkh_rows lib rows ++ bps_parse_bpkh_rows lib rows
     ++ bni_parse_bpkh_rows lib rows ++ msi_parse_bpkh_rows lib rows).
Proof.
  assert (Hzero : ∀ r, DepositoRecord.periode_hari r = None →
            DepositoRecord.periode_hari r = None
            ∧ calculate_expected_imbal_hasil a r = 0%Q).
  { intros r Hr. split; [done|]. by apply expected_without_period. }
  rewrite !Forall_app. split_and!; apply Forall_omap_Some; intros row r.
  - unfold btpn_parse_bpkh_row. destruct (_ || _); [done|]. intros [= <-]. by apply Hzero.
  - unfold bps_parse_bpkh_row. cbn zeta. destruct (bps_blank _); [done|].
    intros [= <-]. by apply Hzero.
  - unfold bni_parse_bpkh_row. cbn zeta. destruct (bni_blank _); [done|].
    intros [= <-]. by apply Hzero.
  - unfold msi_parse_bpkh_row. cbn zeta. destruct (bni_blank _); [done|].
    intros [= <-]. by apply Hzero.
Qed.

(** X18. A BTPN bank row without a "Nisbah Rate" cell gets the rate table
    entry of the sheet's category as its own rate (0 when the table has
    none), and the expected yield of the record is then computed with the
    table entry, or with the fallback 0.09 when the table has none. *)
Theorem btpn_row_without_rate (lib : PyLib) (dep_type : DepositoType)
    (row : gmap string cell) (record : DepositoRecord.t) (d : Z) :
  row !! "Nisbah Rate" = None →
  btpn_parse_bank_row lib BankBTPN.config dep_type row = Some record →
  DepositoRecord.periode_hari record = Some d → 0 < d →
  DepositoRecord.nisbah_rate record
  = Some (rates_get (BankConfig.nisbah_rates BankBTPN.config)
            (DepositoType_value dep_type) 0)
  ∧ BankBTPN.calculate_expected_imbal_hasil BankBTPN.config record
    = round2 (accrual BankBTPN.config record
                (rates_get (BankConfig.nisbah_rates BankBTPN.config)
                   (DepositoType_value dep_type) (9 # 100)) d).
Proof.
  intros Hrow Hparse Hp Hd.
  assert (Hno : no_period (Some d) = false).
  { rewrite no_period_Some. apply bool_decide_eq_false. lia. }
  assert (Hget : ∀ dflt, row_get row "Nisbah Rate" dflt = dflt).
  { intros dflt. unfold row_get. by rewrite Hrow. }
  unfold btpn_parse_bank_row in Hparse.
  destruct (_ || _); [done|]. injection Hparse as <-.
  cbn [DepositoRecord.periode_hari DepositoRecord.nisbah_rate] in *.
  rewrite Hget. cbn [_parse_number isna].
  split; [done|].
  unfold BankBTPN.calculate_expected_imbal_hasil.
  cbn [DepositoRecord.periode_hari DepositoRecord.nisbah_rate
       DepositoRecord.jenis_deposito].
  rewrite Hp, Hno, ?Hget. cbn [_parse_number isna default].
  by destruct dep_type.
Qed.

Lemma btpn_row_without_rate_witness :
  ∃ record,
    btpn_parse_bank_row ascii_lib BankBTPN.config NILAI_MANFAAT
      (dated_row "A1" "001" (mk_datetime 2025 4 1 0 0 0 0) (mk_datetime 2025 5 1 0 0 0 0))
    = Some record
    ∧ DepositoRecord.nisbah_rate record = Some (835 # 10000)%Q
    ∧ BankBTPN.calculate_expected_imbal_hasil BankBTPN.config record
      = round2 (accrual BankBTPN.config record (835 # 10000) 30).
Proof.
  eexists. split; [reflexivity|].
  apply (btpn_row_without_rate ascii_lib NILAI_MANFAAT
           (dated_row "A1" "001" (mk_datetime 2025 4 1 0 0 0 0)
              (mk_datetime 2025 5 1 0 0 0 0)) _ 30).
  - reflexivity.
  - reflexivity.
  - reflexivity.
  - lia.
Defined.

(** ** Further properties of the service *)

Section ServiceMore.
Import MultiRekonService.
Variable now : string.
Implicit Types (self : MultiRekonService.t) (o : Outcome.t).

(** The two ways [process_reconciliation] ends. *)
Lemma process_reconciliation_cases bank_code bank_file bpkh_file self :
  (∃ e, process_reconciliation now bank_code bank_file bpkh_file self
        = (Ok (Outcome.Failure bank_code (exn_str e) now), self))
  ∨ (∃ bank bank_records bpkh_records,
       banks self !! bank_code = Some bank
       ∧ BankBase.parse_bank_data bank bank_file = Ok bank_records
       ∧ BankBase.parse_bpkh_data bank bpkh_file = Ok bpkh_records
       ∧ let rekon_results :=
           reconcile (BankBase.bank_code bank) bank_records bpkh_records in
         process_reconciliation now bank_code bank_file bpkh_file self
         = (Ok (Outcome.Success bank_code (BankBase.bank_name bank)
                  (generate_summary (BankBase.bank_code bank) (BankBase.bank_name bank)
                     now rekon_results)
                  rekon_results
                  (results_to_dataframe (BankBase.bank_name bank) rekon_results)
                  (length bank_records) (length bpkh_records) now),
            {| banks := banks self;
               results_cache := <[bank_code := rekon_results]> (results_cache self) |})).
Proof.
  unfold process_reconciliation, try_except, process_reconciliation_body, bind, get_bank,
    call, cache_results, ret.
  destruct (banks self !! bank_code) as [bank|] eqn:Hbank.
  - destruct (BankBase.parse_bank_data bank bank_file) as [bank_records|e] eqn:Hb.
    + destruct (BankBase.parse_bpkh_data bank bpkh_file) as [bpkh_records|e] eqn:Hp.
      * right. by exists bank, bank_records, bpkh_records.
      * left. by exists e.
    + left. by exists e.
  - left. by eexists.
Qed.

Lemma process_reconciliation_counts bank_code bank_file bpkh_file self o self' :
  process_reconciliation now bank_code bank_file bpkh_file self = (Ok o, self') →
  outcome_counts_agree o.
Proof.
  destruct (process_reconciliation_cases bank_code bank_file bpkh_file self)
    as [(e & ->)|(bank & br & pr & _ & _ & _ & Hrun)].
  - by intros [= <- _].
  - cbn zeta in Hrun. rewrite Hrun. intros [= <- _]. cbn. split_and!.
    + done.
    + unfold results_to_dataframe. by rewrite length_fmap.
    + apply length_filter.
Qed.

Lemma process_reconciliation_registered bank_code bank_file bpkh_file self :
  cache_registered self →
  cache_registered (process_reconciliation now bank_code bank_file bpkh_file self).2.
Proof.
  intros Hinv.
  destruct (process_reconciliation_cases bank_code bank_file bpkh_file self)
    as [(e & ->)|(bank & br & pr & Hbank & _ & _ & Hrun)]; [done|].
  cbn zeta in Hrun. rewrite Hrun. intros code. cbn.
  destruct (decide (code = bank_code)) as [->|Hne].
  - by rewrite Hbank.
  - rewrite lookup_insert_ne by done. apply Hinv.
Qed.

(** The cache entry of every code after a call. *)
Lemma process_reconciliation_cache bank_code bank_file bpkh_file self o self' code :
  process_reconciliation now bank_code bank_file bpkh_file self = (Ok o, self') →
  results_cache self' !! code
  = match o with
    | Outcome.Success _ _ _ results _ _ _ _ =>
        if decide (code = bank_code) then Some results else results_cache self !! code
    | Outcome.Failure _ _ _ => results_cache self !! code
    end.
Proof.
  destruct (process_reconciliation_cases bank_code bank_file bpkh_file self)
    as [(e & ->)|(bank & br & pr & _ & _ & _ & Hrun)].
  - by intros [= <- <-].
  - cbn zeta in Hrun. rewrite Hrun. intros [= <- <-]. cbn.
    case_decide as Hc; [subst; by rewrite lookup_insert_eq|by rewrite lookup_insert_ne].
Qed.

Lemma values_set_Forall {V} (P : V → Prop) (k : string) (v : V) (d : list (string * V)) :
  P v → Forall P (PyDict.values d) → Forall P (PyDict.values (PyDict.set k v d)).
Proof.
  intros Hv. unfold PyDict.values.
  induction d as [|[k' v'] d IH]; cbn.
  - intros _. by apply Forall_cons.
  - intros [Hv' Hd]%Forall_cons. case_decide; cbn; apply Forall_cons; auto.
Qed.

(** An invariant of the service and a property of the outcomes carry
    through the loop of [process_multiple_banks]. *)
Lemma process_multiple_banks_loop_inv (I : MultiRekonService.t → Prop)
    (P : Outcome.t → Prop) :
  (∀ bank_code bank_file bpkh_file self o self',
     process_reconciliation now bank_code bank_file bpkh_file self = (Ok o, self') →
     I self → I self' ∧ P o) →
  ∀ items results self results' self',
    process_multiple_banks_loop now items results self = (Ok results', self') →
    I self → Forall P (PyDict.values results) →
    I self' ∧ Forall P (PyDict.values results').
Proof.
  intros Hstep items.
  induction items as [|[code [bank_file bpkh_file]] items IH];
    intros results self results' self'.
  - by intros [= <- <-].
  - cbn [process_multiple_banks_loop]. unfold bind at 1.
    destruct (process_reconciliation_Ok now code bank_file bpkh_file self) as [o Ho].
    destruct (process_reconciliation now code bank_file bpkh_file self)
      as [r self1] eqn:Hcall.
    cbn in Ho. subst r. intros Hloop HI HP.
    destruct (Hstep _ _ _ _ _ _ Hcall HI) as [HI1 Ho].
    apply (IH _ _ _ _ Hloop HI1). by apply values_set_Forall.
Qed.

Lemma process_multiple_banks_loop_cache items results self results' self' :
  NoDup items.*1 →
  process_multiple_banks_loop now items results self = (Ok results', self') →
  (∀ code, code ∉ items.*1 → results_cache self' !! code = results_cache self !! code)
  ∧ (∀ code bank_file bpkh_file, (code, (bank_file, bpkh_file)) ∈ items →
       ∃ o, (process_reconciliation now code bank_file bpkh_file self).1 = Ok o
            ∧ results_cache self' !! code
              = match o with
                | Outcome.Success _ _ _ rekon_results _ _ _ _ => Some rekon_results
                | Outcome.Failure _ _ _ => results_cache self !! code
                end).
Proof.
  revert results self.
  induction items as [|[code0 [bank_file0 bpkh_file0]] items IH]; intros results self.
  - intros _ [= _ <-]. split; [done|]. by intros ? ? ? ?%elem_of_nil.
  - rewrite fmap_cons. cbn [fst]. intros [Hfresh Hnd]%NoDup_cons.
    cbn [process_multiple_banks_loop]. unfold bind at 1.
    destruct (process_reconciliation_Ok now code0 bank_file0 bpkh_file0 self) as [o0 Ho0].
    pose proof (process_reconciliation_banks now code0 bank_file0 bpkh_file0 self) as Hbanks.
    destruct (process_reconciliation now code0 bank_file0 bpkh_file0 self)
      as [r self1] eqn:Hcall.
    cbn in Ho0, Hbanks. subst r. intros Hloop.
    destruct (IH _ _ Hnd Hloop) as [Hout Hin].
    pose proof (λ code, process_reconciliation_cache _ _ _ _ _ _ code Hcall) as Hcache.
    split.
    + intros code [Hne Hcode]%not_elem_of_cons.
      rewrite (Hout code Hcode), Hcache.
      destruct o0; [by rewrite decide_False|done].
    + intros code bank_file bpkh_file [[= -> -> ->]|Hmem]%elem_of_cons.
      * exists o0. split; [by rewrite Hcall|].
        rewrite (Hout code0 Hfresh), Hcache.
        destruct o0; [by rewrite decide_True|done].
      * destruct (Hin _ _ _ Hmem) as (o & Ho & Hc). exists o. split.
        -- rewrite <- Ho. by apply process_reconciliation_outcome.
        -- rewrite Hc. destruct o; [done|]. rewrite Hcache.
           assert (code ≠ code0).
           { intros ->. apply Hfresh. apply list_elem_of_fmap.
             by exists (code0, (bank_file, bpkh_file)). }
           destruct o0; [by rewrite decide_False|done].
Qed.
End ServiceMore.

Section KpiFacts.
Import MultiRekonService.
Implicit Types (os : list Outcome.t).

Lemma kpi_fold_records os (totals : nat * nat * Q * Q) :
  (fold_left kpi_step os totals).1.1.1
  = (totals.1.1.1
     + sum_list_with
         (λ o, match o with
               | Outcome.Success _ _ summary _ _ _ _ _ => Summary.total_records summary
               | Outcome.Failure _ _ _ => 0
               end) os)%nat.
Proof.
  revert totals. induction os as [|o os IH]; intros [[[tr tm] ts] tb]; cbn.
  - lia.
  - rewrite IH. destruct o; cbn; lia.
Qed.

Lemma kpi_fold_matched_le os (totals : nat * nat * Q * Q) :
  Forall outcome_counts_agree os →
  (totals.1.1.2 ≤ totals.1.1.1)%nat →
  ((fold_left kpi_step os totals).1.1.2 ≤ (fold_left kpi_step os totals).1.1.1)%nat.
Proof.
  intros Hos. revert totals.
  induction Hos as [|o os Ho _ IH]; intros [[[tr tm] ts] tb]; cbn; [done|].
  intros Hle. apply IH. destruct o; cbn in *; lia.
Qed.

Lemma kpi_fold_failures os totals :
  Forall (λ o, Outcome.success o = false) os → fold_left kpi_step os totals = totals.
Proof.
  intros Hos. revert totals.
  induction Hos as [|o os Ho _ IH]; intros [[[tr tm] ts] tb]; [done|].
  cbn [fold_left]. destruct o; [done|]. cbn [kpi_step]. apply IH.
Qed.

Lemma round2_percentage (x : Q) : (0 <= x <= 100)%Q → (0 <= round2 x <= 100)%Q.
Proof.
  intros [Hlo Hhi]. split.
  - by apply round2_nonneg.
  - apply (Qle_trans _ (round2 100)); [by apply round2_mono|by vm_compute].
Qed.

(** The three unrounded scores of [calculate_kpis], from the four totals. *)
Lemma kpi_scores_bounds (total_records total_matched : nat) (total_selisih total_bank : Q) :
  (total_matched ≤ total_records)%nat →
  let match_rate :=
    if (0 <? total_records)%nat
    then (Q_of_nat total_matched / Q_of_nat total_records * 100)%Q else 0%Q in
  let variance_rate :=
    if Qlt_le_dec 0 total_bank
    then Qabs (total_selisih / total_bank * 100)%Q else 0%Q in
  let quality_score :=
    let q := (100 - variance_rate * 100)%Q in if Qlt_le_dec 0 q then q else 0%Q in
  (0 <= match_rate <= 100)%Q ∧ (0 <= variance_rate)%Q ∧ (0 <= quality_score <= 100)%Q
  ∧ (0 <= match_rate * (6 # 10) + quality_score * (4 # 10) <= 100)%Q.
Proof.
  intros Hle. cbn zeta.
  set (m := if (0 <? total_records)%nat then _ else _).
  set (v := if Qlt_le_dec 0 total_bank then _ else _).
  assert (Hm : (0 <= m <= 100)%Q).
  { subst m. destruct (Nat.ltb_spec 0 total_records); [by apply rate_bounds|done]. }
  assert (Hv : (0 <= v)%Q).
  { subst v. destruct (Qlt_le_dec 0 total_bank); [apply Qabs_nonneg|done]. }
  destruct (Qlt_le_dec 0 (100 - v * 100)) as [Hq|Hq]; split_and!; lra.
Qed.
End KpiFacts.

(** X19. [add_bank] registers the instance under the code, replacing
    whatever was registered there, so that the service finds it; it
    leaves the other registrations and the cache as they were. *)
Theorem add_bank_registers (bank_code : string) (bank_instance : BankBase.t)
    (self : MultiRekonService.t) :
  let self' := (MultiRekonService.add_bank bank_code bank_instance self).2 in
  MultiRekonService.get_bank bank_code self' = (Ok bank_instance, self')
  ∧ (∀ other, other ≠ bank_code →
       (MultiRekonService.get_bank other self').1 = (MultiRekonService.get_bank other self).1)
  ∧ MultiRekonService.results_cache self' = MultiRekonService.results_cache self
  ∧ (cache_registered self → cache_registered self').
Proof.
  cbn zeta. unfold MultiRekonService.add_bank, MultiRekonService.get_bank. cbn.
  split_and!.
  - by rewrite lookup_insert_eq.
  - intros other Hne. rewrite lookup_insert_ne by done.
    by destruct (MultiRekonService.banks self !! other).
  - done.
  - intros Hinv code Hc. cbn in *.
    destruct (decide (code = bank_code)) as [->|Hne].
    + by rewrite lookup_insert_eq.
    + rewrite lookup_insert_ne by done. by apply Hinv.
Qed.

(** X20. A success outcome reports the reconciliation of the two parsed
    record lists, made under the bank object's own [bank_code], with its
    summary, its rows and the two record counts; exactly these results
    are stored in the cache under the requested code, and nothing else of
    the service changes. *)
Theorem success_caches_results (now : string) (self self' : MultiRekonService.t)
    (bank_code bank_file bpkh_file : string) (o : Outcome.t) :
  MultiRekonService.process_reconciliation now bank_code bank_file bpkh_file self
  = (Ok o, self') →
  Outcome.success o = true →
  ∃ bank bank_records bpkh_records,
    MultiRekonService.banks self !! bank_code = Some bank
    ∧ BankBase.parse_bank_data bank bank_file = Ok bank_records
    ∧ BankBase.parse_bpkh_data bank bpkh_file = Ok bpkh_records
    ∧ let rekon_results := reconcile (BankBase.bank_code bank) bank_records bpkh_records in
      o = Outcome.Success bank_code (BankBase.bank_name bank)
            (generate_summary (BankBase.bank_code bank) (BankBase.bank_name bank)
               now rekon_results)
            rekon_results
            (results_to_dataframe (BankBase.bank_name bank) rekon_results)
            (length bank_records) (length bpkh_records) now
      ∧ MultiRekonService.results_cache self'
        = <[bank_code := rekon_results]> (MultiRekonService.results_cache self)
      ∧ MultiRekonService.banks self' = MultiRekonService.banks self.
Proof.
  destruct (process_reconciliation_cases now bank_code bank_file bpkh_file self)
    as [(e & ->)|(bank & br & pr & Hbank & Hb & Hp & Hrun)].
  - by intros [= <- _] ?.
  - cbn zeta in Hrun. rewrite Hrun. intros [= <- <-] _.
    exists bank, br, pr. by split_and!.
Qed.

Lemma success_caches_results_witness :
  ∃ bank bank_records bpkh_records,
    MultiRekonService.banks sample_service !! "BTPN" = Some bank
    ∧ BankBase.parse_bank_data bank "bank.xlsx" = Ok bank_records
    ∧ BankBase.parse_bpkh_data bank "bpkh.xlsx" = Ok bpkh_records
    ∧ MultiRekonService.results_cache
        (MultiRekonService.process_reconciliation "2025-06-01T00:00:00"
           "BTPN" "bank.xlsx" "bpkh.xlsx" sample_service).2
      = <["BTPN" := reconcile (BankBase.bank_code bank) bank_records bpkh_records]>
          (MultiRekonService.results_cache sample_service).
Proof.
  destruct (success_caches_results "2025-06-01T00:00:00" sample_service
              (MultiRekonService.process_reconciliation "2025-06-01T00:00:00"
                 "BTPN" "bank.xlsx" "bpkh.xlsx" sample_service).2
              "BTPN" "bank.xlsx" "bpkh.xlsx"
              match (MultiRekonService.process_reconciliation "2025-06-01T00:00:00"
                       "BTPN" "bank.xlsx" "bpkh.xlsx" sample_service).1 with
              | Ok o => o
              | Raise _ => Outcome.Failure "" "" ""
              end)
    as (bank & br & pr & Hbank & Hb & Hp & _ & Hcache & _).
  - reflexivity.
  - reflexivity.
  - exists bank, br, pr. by split_and!.
Defined.

(** X21. That every cached code is a registered bank is an invariant of
    the service: it holds when the cache is empty, and
    [process_reconciliation] and [process_multiple_banks] keep it. *)
Theorem cache_registered_invariant (now : string) (self : MultiRekonService.t) :
  (MultiRekonService.results_cache self = ∅ → cache_registered self)
  ∧ (cache_registered self →
     (∀ bank_code bank_file bpkh_file,
        cache_registered
          (MultiRekonService.process_reconciliation
             now bank_code bank_file bpkh_file self).2)
     ∧ (∀ bank_files,
          cache_registered (MultiRekonService.process_multiple_banks now bank_files self).2)).
Proof.
  split.
  - intros Hempty code. rewrite Hempty, lookup_empty. by intros [? [=]].
  - intros Hinv. split.
    + intros. by apply process_reconciliation_registered.
    + intros bank_files. unfold MultiRekonService.process_multiple_banks.
      destruct (MultiRekonService.process_multiple_banks_loop now bank_files [] self)
        as [[results'|e] self'] eqn:Hloop.
      * refine (proj1 (process_multiple_banks_loop_inv now cache_registered (λ _, True)
                         _ _ _ _ _ _ Hloop Hinv _)).
        -- intros code bf pf s o s' Hrun Hs. split; [|done].
           pose proof (process_reconciliation_registered now code bf pf s Hs) as Hreg.
           by rewrite Hrun in Hreg.
        -- by apply Forall_nil.
      * exfalso. revert Hloop. generalize (@nil (string * Outcome.t)). revert self Hinv.
        induction bank_files as [|[code [bf pf]] items IH]; intros self Hinv results;
          [done|].
        cbn [MultiRekonService.process_multiple_banks_loop].
        unfold MultiRekonService.bind at 1.
        destruct (process_reconciliation_Ok now code bf pf self) as [o Ho].
        pose proof (process_reconciliation_registered now code bf pf self Hinv) as Hreg.
        destruct (MultiRekonService.process_reconciliation now code bf pf self)
          as [r self1]. cbn in Ho, Hreg. subst r. by apply IH.
Qed.

(** X22. In a service where every cached code is registered,
    [get_exception_items] returns normally and leaves the service as it
    is: no rows for a code without cached results, and otherwise one row,
    in order, for each cached result whose absolute percentage exceeds the
    threshold. *)
Theorem exception_items_returns (self : MultiRekonService.t)
    (bank_code : string) (threshold : Q) :
  cache_registered self →
  ∃ rows,
    MultiRekonService.get_exception_items bank_code threshold self = (Ok rows, self)
    ∧ match MultiRekonService.results_cache self !! bank_code with
      | None => rows = []
      | Some results =>
          ∃ bank, MultiRekonService.banks self !! bank_code = Some bank
                  ∧ rows = results_to_dataframe (BankBase.bank_name bank)
                             (filter (λ r, (threshold
                                            < Qabs (RekonResult.persentase_selisih r))%Q)
                                results)
      end.
Proof.
  intros Hinv. unfold MultiRekonService.get_exception_items.
  destruct (MultiRekonService.results_cache self !! bank_code) as [results|] eqn:Hc.
  - destruct (Hinv bank_code) as [bank Hbank]; [by rewrite Hc|]. rewrite Hbank.
    destruct (filter _ results) as [|r rs] eqn:Hf.
    + exists []. split; [done|]. by exists bank.
    + eexists. split; [done|]. by exists bank.
  - by exists [].
Qed.

Lemma exception_items_returns_witness :
  ∃ rows,
    MultiRekonService.get_exception_items "BTPN" (5 # 10) sample_service
    = (Ok rows, sample_service).
Proof.
  destruct (exception_items_returns sample_service "BTPN" (5 # 10)) as (rows & Hrows & _).
  - intros code. cbn. rewrite lookup_empty. by intros [? [=]].
  - by exists rows.
Defined.

(** X23. Whatever [get_exception_items] returns, every row has an
    absolute percentage above the threshold, and with a threshold of at
    least the default 0.5 every row has priority "High" or "Critical". *)
Theorem exception_items_exceed_threshold (self self' : MultiRekonService.t)
    (bank_code : string) (threshold : Q) (rows : list DfRow.t) :
  MultiRekonService.get_exception_items bank_code threshold self = (Ok rows, self') →
  Forall (λ row,
            (threshold < Qabs (DfRow.Selisih_pct row))%Q
            ∧ ((5 # 10 <= threshold)%Q →
               DfRow.Priority row = "High" ∨ DfRow.Priority row = "Critical"))
    rows.
Proof.
  unfold MultiRekonService.get_exception_items.
  destruct (MultiRekonService.results_cache self !! bank_code) as [results|];
    [|by intros [= <- _]].
  destruct (MultiRekonService.banks self !! bank_code) as [bank|]; [|done].
  assert (Hrows : Forall (λ row,
            (threshold < Qabs (DfRow.Selisih_pct row))%Q
            ∧ ((5 # 10 <= threshold)%Q →
               DfRow.Priority row = "High" ∨ DfRow.Priority row = "Critical"))
            (results_to_dataframe (BankBase.bank_name bank)
               (filter (λ r, (threshold < Qabs (RekonResult.persentase_selisih r))%Q)
                  results))).
  { unfold results_to_dataframe. apply Forall_fmap, Forall_forall.
    intros r [Hr _]%list_elem_of_filter. cbn. split; [done|].
    intros Ht. unfold RekonResult.get_priority. cbn zeta.
    destruct (Qlt_le_dec _ (1 # 10)); [lra|].
    destruct (Qlt_le_dec _ (5 # 10)); [lra|].
    destruct (Qlt_le_dec _ 1); auto. }
  destruct (filter _ results); [by intros [= <- _]|]. by intros [= <- _].
Qed.

Lemma exception_items_exceed_threshold_witness :
  Forall (λ row,
            (5 # 10 < Qabs (DfRow.Selisih_pct row))%Q
            ∧ ((5 # 10 <= 5 # 10)%Q →
               DfRow.Priority row = "High" ∨ DfRow.Priority row = "Critical"))
    (results_to_dataframe "Bank BTPN Syariah" [not_found_bpkh_result "BTPN"
                                                (sample_record "B2" "002" 50)]).
Proof.
  apply (exception_items_exceed_threshold
           {| MultiRekonService.banks := <["BTPN" := sample_bank]> ∅;
              MultiRekonService.results_cache :=
                <["BTPN" := [not_found_bpkh_result "BTPN" (sample_record "B2" "002" 50);
                             matched_result "BTPN" (sample_record "A1" "001" 10)
                               (sample_record "A1" "001" 10)]]> ∅ |}
           {| MultiRekonService.banks := <["BTPN" := sample_bank]> ∅;
              MultiRekonService.results_cache :=
                <["BTPN" := [not_found_bpkh_result "BTPN" (sample_record "B2" "002" 50);
                             matched_result "BTPN" (sample_record "A1" "001" 10)
                               (sample_record "A1" "001" 10)]]> ∅ |}
           "BTPN" (5 # 10)).
  reflexivity.
Defined.

(** X24. Right after a successful reconciliation, the exception items of
    that bank are the rows of exactly those returned results whose absolute
    percentage exceeds the threshold. *)
Theorem exception_items_after_success (now : string) (self self' : MultiRekonService.t)
    (bank_code bank_file bpkh_file bank_name : string) (summary : Summary.t)
    (results : list RekonResult.t) (df_results : list DfRow.t)
    (bank_records_count bpkh_records_count : nat) (timestamp : string) (threshold : Q) :
  MultiRekonService.process_reconciliation now bank_code bank_file bpkh_file self
  = (Ok (Outcome.Success bank_code bank_name summary results df_results
           bank_records_count bpkh_records_count timestamp), self') →
  MultiRekonService.get_exception_items bank_code threshold self'
  = (Ok (results_to_dataframe bank_name
           (filter (λ r, (threshold < Qabs (RekonResult.persentase_selisih r))%Q) results)),
     self').
Proof.
  destruct (process_reconciliation_cases now bank_code bank_file bpkh_file self)
    as [(e & ->)|(bank & br & pr & Hbank & _ & _ & Hrun)]; [done|].
  cbn zeta in Hrun. rewrite Hrun. intros [= <- _ <- _ _ _ _ <-].
  unfold MultiRekonService.get_exception_items. cbn.
  rewrite lookup_insert_eq, Hbank. by destruct (filter _ _).
Qed.

Lemma exception_items_after_success_witness :
  ∃ results self',
    MultiRekonService.get_exception_items "BTPN" (5 # 10) self'
    = (Ok (results_to_dataframe "Bank BTPN Syariah"
             (filter (λ r, (5 # 10 < Qabs (RekonResult.persentase_selisih r))%Q) results)),
       self').
Proof.
  eexists _, _.
  eapply (exception_items_after_success "2025-06-01T00:00:00" sample_service _
            "BTPN" "bank.xlsx" "bpkh.xlsx").
  reflexivity.
Defined.

(** X25. For the outcomes [process_multiple_banks] returns, the three
    reports count the same records: the consolidated report has as many
    rows as the KPIs' [total_records], which is also the sum of the "Total
    Records" column of the summary comparison; failed banks contribute
    nothing to any of them. *)
Theorem reports_count_the_same (now : string) (self self' : MultiRekonService.t)
    (bank_files : list (string * (string * string)))
    (results : list (string * Outcome.t)) :
  MultiRekonService.process_multiple_banks now bank_files self = (Ok results, self') →
  length (MultiRekonService.generate_consolidated_report results)
  = Kpis.total_records (MultiRekonService.calculate_kpis results)
  ∧ sum_list_with ComparisonRow.Total_Records
      (MultiRekonService.generate_summary_comparison results)
    = Kpis.total_records (MultiRekonService.calculate_kpis results).
Proof.
  intros Hrun.
  assert (Hagree : Forall outcome_counts_agree (PyDict.values results)).
  { refine (proj2 (process_multiple_banks_loop_inv now (λ _, True) outcome_counts_agree
                     _ _ _ _ _ _ Hrun I _)); [|by apply Forall_nil].
    intros code bf pf s o s' Hcall _. split; [done|].
    by eapply process_reconciliation_counts. }
  assert (Hk : Kpis.total_records (MultiRekonService.calculate_kpis results)
               = sum_list_with
                   (λ o, match o with
                         | Outcome.Success _ _ summary _ _ _ _ _ =>
                             Summary.total_records summary
                         | Outcome.Failure _ _ _ => 0%nat
                         end) (PyDict.values results)).
  { unfold MultiRekonService.calculate_kpis.
    pose proof (kpi_fold_records (PyDict.values results) (0%nat, 0%nat, 0%Q, 0%Q)) as Hf.
    destruct (fold_left _ _ _) as [[[tr tm] ts] tb]. by cbn in *. }
  rewrite Hk. clear Hk Hrun. unfold PyDict.values in *.
  split.
  - transitivity (length (concat
                    (omap (λ kv : string * Outcome.t,
                             match kv.2 with
                             | Outcome.Success _ _ _ _ df_results _ _ _ => Some df_results
                             | Outcome.Failure _ _ _ => None
                             end) results))).
    { unfold MultiRekonService.generate_consolidated_report. by destruct (omap _ results). }
    induction results as [|[code o] results IH]; [done|].
    rewrite fmap_cons in Hagree. apply Forall_cons in Hagree as [Ho Hagree].
    cbn [omap list_omap fmap list_fmap sum_list_with snd].
    destruct o as [? ? summary rs df ? ? ?|]; cbn in *.
    + rewrite length_app, (IH Hagree). destruct Ho as (-> & -> & _). done.
    + by apply IH.
  - unfold MultiRekonService.generate_summary_comparison.
    induction results as [|[code o] results IH]; [done|].
    rewrite fmap_cons in Hagree. apply Forall_cons in Hagree as [Ho Hagree].
    cbn [omap list_omap fmap list_fmap sum_list_with snd].
    destruct o as [? ? summary rs df ? ? ?|]; cbn in *.
    + by rewrite (IH Hagree).
    + by apply IH.
Qed.

Lemma reports_count_the_same_witness :
  ∃ results,
    length (MultiRekonService.generate_consolidated_report results)
    = Kpis.total_records (MultiRekonService.calculate_kpis results)
    ∧ sum_list_with ComparisonRow.Total_Records
        (MultiRekonService.generate_summary_comparison results)
      = Kpis.total_records (MultiRekonService.calculate_kpis results).
Proof.
  eexists.
  eapply (reports_count_the_same "2025-06-01T00:00:00" sample_service _
            [("BTPN", ("bank.xlsx", "bpkh.xlsx")); ("XYZ", ("bank.xlsx", "bpkh.xlsx"))]).
  reflexivity.
Defined.

(** X26. The KPIs of the outcomes [process_multiple_banks] returns are
    percentages: the matched total does not exceed the record total, and
    the match rate, the accuracy, quality and overall scores all lie
    between 0 and 100, the variance rate being non-negative. *)
Theorem kpis_are_percentages (now : string) (self self' : MultiRekonService.t)
    (bank_files : list (string * (string * string)))
    (results : list (string * Outcome.t)) :
  MultiRekonService.process_multiple_banks now bank_files self = (Ok results, self') →
  let k := MultiRekonService.calculate_kpis results in
  (Kpis.total_matched k ≤ Kpis.total_records k)%nat
  ∧ (0 <= Kpis.match_rate k <= 100)%Q
  ∧ (0 <= Kpis.accuracy_score k <= 100)%Q
  ∧ (0 <= Kpis.quality_score k <= 100)%Q
  ∧ (0 <= Kpis.overall_score k <= 100)%Q
  ∧ (0 <= Kpis.variance_rate k)%Q.
Proof.
  intros Hrun.
  assert (Hagree : Forall outcome_counts_agree (PyDict.values results)).
  { refine (proj2 (process_multiple_banks_loop_inv now (λ _, True) outcome_counts_agree
                     _ _ _ _ _ _ Hrun I _)); [|by apply Forall_nil].
    intros code bf pf s o s' Hcall _. split; [done|].
    by eapply process_reconciliation_counts. }
  cbn zeta. unfold MultiRekonService.calculate_kpis.
  pose proof (kpi_fold_matched_le (PyDict.values results) (0%nat, 0%nat, 0%Q, 0%Q)
                Hagree (le_n 0)) as Hle.
  destruct (fold_left _ _ _) as [[[tr tm] ts] tb]. cbn [fst snd] in Hle.
  destruct (kpi_scores_bounds tr tm ts tb Hle) as (Hm & Hv & Hq & Ho).
  cbn zeta in Hm, Hv, Hq, Ho.
  cbn [Kpis.total_matched Kpis.total_records Kpis.match_rate Kpis.accuracy_score
       Kpis.quality_score Kpis.overall_score Kpis.variance_rate].
  split; [done|]. split; [by apply round2_percentage|].
  split; [by apply round2_percentage|]. split; [by apply round2_percentage|].
  split; [by apply round2_percentage|].
  unfold round4, Qle. cbn [Qnum Qden]. rewrite Z.mul_0_l, Z.mul_1_r.
  apply (Z.le_trans _ (round_half_even 0)); [done|].
  apply round_half_even_mono. clear.
  destruct (Qlt_le_dec 0 tb); [|done].
  pose proof (Qabs_nonneg (ts / tb * 100)) as Hv. revert Hv.
  generalize (Qabs (ts / tb * 100)). intros v Hv. lra.
Qed.

Lemma kpis_are_percentages_witness :
  ∃ results,
    let k := MultiRekonService.calculate_kpis results in
    (Kpis.total_matched k ≤ Kpis.total_records k)%nat
    ∧ (0 <= Kpis.match_rate k <= 100)%Q
    ∧ (0 <= Kpis.accuracy_score k <= 100)%Q
    ∧ (0 <= Kpis.quality_score k <= 100)%Q
    ∧ (0 <= Kpis.overall_score k <= 100)%Q
    ∧ (0 <= Kpis.variance_rate k)%Q.
Proof.
  eexists.
  eapply (kpis_are_percentages "2025-06-01T00:00:00" sample_service _
            [("BTPN", ("bank.xlsx", "bpkh.xlsx")); ("XYZ", ("bank.xlsx", "bpkh.xlsx"))]).
  reflexivity.
Defined.

(** X27. When no outcome is a success (the empty dictionary included),
    the KPIs count nothing and divide nothing: the rates are 0, the quality
    score is 100, the overall score 40 and the status "Poor". *)
Theorem kpis_without_success (results : list (string * Outcome.t)) :
  Forall (λ kv, Outcome.success kv.2 = false) results →
  let k := MultiRekonService.calculate_kpis results in
  Kpis.total_records k = 0%nat ∧ Kpis.total_matched k = 0%nat
  ∧ (Kpis.match_rate k == 0)%Q ∧ (Kpis.variance_rate k == 0)%Q
  ∧ (Kpis.total_selisih k == 0)%Q
  ∧ (Kpis.quality_score k == 100)%Q ∧ (Kpis.overall_score k == 40)%Q
  ∧ Kpis.status k = "Poor".
Proof.
  intros Hfail. cbn zeta. unfold MultiRekonService.calculate_kpis.
  rewrite kpi_fold_failures.
  - by vm_compute.
  - unfold PyDict.values. by apply Forall_fmap.
Qed.

Lemma kpis_without_success_witness :
  Kpis.status
    (MultiRekonService.calculate_kpis
       [("XYZ", Outcome.Failure "XYZ" "Bank XYZ not supported" "2025-06-01T00:00:00")])
  = "Poor".
Proof.
  apply (kpis_without_success
           [("XYZ", Outcome.Failure "XYZ" "Bank XYZ not supported" "2025-06-01T00:00:00")]).
  by repeat constructor.
Defined.


(** X29. After [process_multiple_banks] on pairwise distinct codes, the
    cache holds, for every bank that succeeded, the results its outcome
    reports; a bank that failed and every code that was not requested keep
    the cache entry they had; and the registry is unchanged. *)
Theorem multiple_banks_cache (now : string) (self self' : MultiRekonService.t)
    (bank_files : list (string * (string * string)))
    (results : list (string * Outcome.t)) :
  NoDup bank_files.*1 →
  MultiRekonService.process_multiple_banks now bank_files self = (Ok results, self') →
  MultiRekonService.banks self' = MultiRekonService.banks self
  ∧ (∀ code, code ∉ bank_files.*1 →
       MultiRekonService.results_cache self' !! code
       = MultiRekonService.results_cache self !! code)
  ∧ (∀ code o, PyDict.get code results = Some o →
       MultiRekonService.results_cache self' !! code
       = match o with
         | Outcome.Success _ _ _ rekon_results _ _ _ _ => Some rekon_results
         | Outcome.Failure _ _ _ => MultiRekonService.results_cache self !! code
         end).
Proof.
  intros Hnd Hrun. unfold MultiRekonService.process_multiple_banks in Hrun.
  destruct (process_multiple_banks_loop_spec now bank_files [] self Hnd)
    as (results0 & self0 & Hloop & Hbanks & Hkeys & _ & Hnew).
  rewrite Hrun in Hloop. injection Hloop as <- <-.
  destruct (process_multiple_banks_loop_cache now bank_files [] self results self' Hnd Hrun)
    as [Hout Hin].
  split_and!; [done|done|].
  intros code o Hget.
  assert (Hcode : code ∈ bank_files.*1).
  { change (PyDict.keys [] ++ bank_files.*1) with (bank_files.*1) in Hkeys.
    rewrite <- Hkeys. apply PyDictFacts.get_Some_elem in Hget.
    apply list_elem_of_fmap. by exists (code, o). }
  apply list_elem_of_fmap in Hcode as ([code' [bf pf]] & -> & Hmem). cbn [fst] in *.
  destruct (Hnew _ _ _ Hmem) as (o1 & Hget1 & Ho1).
  destruct (Hin _ _ _ Hmem) as (o2 & Ho2 & Hc).
  rewrite Hget in Hget1. injection Hget1 as <-.
  rewrite Ho1 in Ho2. injection Ho2 as <-. exact Hc.
Qed.

Lemma multiple_banks_cache_witness :
  ∃ results self',
    MultiRekonService.process_multiple_banks "2025-06-01T00:00:00"
      [("BTPN", ("bank.xlsx", "bpkh.xlsx")); ("XYZ", ("bank.xlsx", "bpkh.xlsx"))]
      sample_service
    = (Ok results, self')
    ∧ MultiRekonService.banks self' = MultiRekonService.banks sample_service
    ∧ MultiRekonService.results_cache self' !! "XYZ" = None.
Proof.
  set (files := [("BTPN", ("bank.xlsx", "bpkh.xlsx")); ("XYZ", ("bank.xlsx", "bpkh.xlsx"))]).
  set (run := MultiRekonService.process_multiple_banks "2025-06-01T00:00:00" files
                sample_service).
  exists (match run.1 with Ok results => results | Raise _ => [] end), run.2.
  split; [reflexivity|].
  destruct (multiple_banks_cache "2025-06-01T00:00:00" sample_service run.2 files
              (match run.1 with Ok results => results | Raise _ => [] end))
    as (Hbanks & _ & Hin).
  - by apply (bool_decide_unpack _); vm_compute.
  - reflexivity.
  - split; [exact Hbanks|].
    exact (Hin "XYZ"
             (Outcome.Failure "XYZ" "Bank XYZ not supported" "2025-06-01T00:00:00")
             eq_refl).
Defined.
